(** * AuditKit scanner: leaf checks, check aggregation and the offline cache

    A shallow embedding of the Go packages [checks] (OpenSearch, SageMaker,
    ElastiCache and Redshift checkers) and [offline] (the JSON scan cache),
    together with the collapsing and scoring stages of the specification.

    Conventions of the embedding:
    - a Go [string] is a [string] (a sequence of bytes), [len] is the byte
      length; a Go [int] / [int32] is a [Z];
    - an AWS SDK pointer field ([*string], [*bool], [*int32], pointer to a
      struct) is an [option]; [aws.ToString] / [aws.ToBool] give the zero
      value on [nil];
    - a Go function returning [(T, error)] returns a [result T];
    - calls that reach outside the process (cloud API calls, the clock) are
      state transformers on an abstract [World]: two calls of the same
      operation may answer differently;
    - [append(l, x)] is [l ++ [x]]; a [for ... range] loop is [for_range];
      a struct literal lists every field, the ones the source leaves out
      with their zero value. *)

From Stdlib Require Import String Ascii List ZArith Lia DecimalString.
From Stdlib Require Import QArith.
From Stdlib Require Import Permutation.
From stdpp Require Import base gmap strings.

Open Scope string_scope.
Open Scope list_scope.
Open Scope Z_scope.

(** ** Go values and formatting *)

Definition error := string.

Inductive result (A : Type) : Type :=
| Ok (a : A)
| Err (e : error).
Arguments Ok {A} a.
Arguments Err {A} e.

(** [time.Time], as an instant in nanoseconds. *)
Definition Time := Z.

Definition len {A : Type} (l : list A) : Z := Z.of_nat (length l).

(** The line feed of a Go ["\n"]. *)
Definition nl : string := String (ascii_of_nat 10) EmptyString.

(** [aws.ToString], [aws.ToBool]: dereference, or the zero value on [nil]. *)
Definition ToString (p : option string) : string :=
  match p with Some s => s | None => EmptyString end.

Definition ToBool (p : option bool) : bool :=
  match p with Some b => b | None => false end.

(** [fmt.Sprintf] verbs: [%d] on an integer and [%v] on a [[]string]
    (the elements separated by one space, in square brackets). *)
Definition fmt_d (n : Z) : string := NilZero.string_of_int (Z.to_int n).

Definition fmt_v (l : list string) : string :=
  "[" +:+ String.concat " " l +:+ "]".

(** ** The host

    The world outside the process, and the package-level helpers of
    [checks] that the checkers call: [GetFrameworkMappings] (the static
    mapping table) and [truncateList] are declared elsewhere in package
    [checks], so the checkers are verified for every table and every
    [truncateList]. *)
Class Host := {
  World : Type;
  time_Now : World -> Time * World;
  GetFrameworkMappings : string -> gmap string string;
  truncateList : list string -> Z -> list string
}.

(** Computations that talk to the world. *)
Definition M `{Host} (A : Type) : Type := World -> A * World.

Definition ret `{Host} {A : Type} (a : A) : M A := fun w => (a, w).

Definition bind `{Host} {A B : Type} (m : M A) (k : A -> M B) : M B :=
  fun w => let (a, w') := m w in k a w'.

Notation "x <- c ;; k" := (bind c (fun x => k))
  (at level 100, c at next level, right associativity).

(** [for _, x := range l { s = body x s }] *)
Fixpoint for_range `{Host} {A S : Type} (l : list A) (body : A -> S -> M S)
    (s : S) : M S :=
  match l with
  | [] => ret s
  | x :: l' => s' <- body x s ;; for_range l' body s'
  end.

(** ** package checks: the data model *)

Inductive PriorityLevel : Type :=
| PriorityCritical
| PriorityHigh
| PriorityMedium
| PriorityLow
| PriorityInfo.

Record CheckResult : Type := {
  Control : string;
  Name : string;
  Status : string;
  Severity : string;
  Evidence : string;
  Remediation : string;
  RemediationDetail : string;
  ScreenshotGuide : string;
  ConsoleURL : string;
  Priority : PriorityLevel;
  Timestamp : Time;
  Frameworks : gmap string string
}.

(** The [Checker] interface: [Name() string] and
    [Run(ctx) ([]CheckResult, error)]. *)
Record Checker `{Host} : Type := {
  checker_Name : string;
  checker_Run : M (list CheckResult * option error)
}.

(** The step every [Run] repeats:
    [if result, err := check(ctx); err == nil { results = append(results, result) }] *)
Definition append_if_ok (results : list CheckResult) (r : result CheckResult)
    : list CheckResult :=
  match r with
  | Ok result => results ++ [result]
  | Err _ => results
  end.

(** ** AWS SDK types: the members the checkers read

    A describe call takes the identifier member of its input struct. The
    [DomainStatus] member of a [DescribeDomain] answer is required by the
    service and always set on success. *)

Module opensearch.

Record DomainInfo : Type := {
  DomainName : option string
}.

Record ListDomainNamesOutput : Type := {
  DomainNames : list DomainInfo
}.

Record EncryptionAtRestOptions_t : Type := {
  EncryptionAtRestOptions_Enabled : option bool
}.

Record NodeToNodeEncryptionOptions_t : Type := {
  NodeToNodeEncryptionOptions_Enabled : option bool
}.

Record DomainEndpointOptions_t : Type := {
  EnforceHTTPS : option bool
}.

Record VPCDerivedInfo : Type := {
  SubnetIds : list string
}.

Record LogPublishingOption : Type := {
  LogPublishingOption_Enabled : option bool
}.

Record AdvancedSecurityOptions_t : Type := {
  AdvancedSecurityOptions_Enabled : option bool
}.

Record DomainStatus_t : Type := {
  EncryptionAtRestOptions : option EncryptionAtRestOptions_t;
  NodeToNodeEncryptionOptions : option NodeToNodeEncryptionOptions_t;
  DomainEndpointOptions : option DomainEndpointOptions_t;
  VPCOptions : option VPCDerivedInfo;
  LogPublishingOptions : option (gmap string LogPublishingOption);
  AdvancedSecurityOptions : option AdvancedSecurityOptions_t
}.

Record DescribeDomainOutput : Type := {
  DomainStatus : DomainStatus_t
}.

Record Client `{Host} : Type := {
  ListDomainNames : M (result ListDomainNamesOutput);
  DescribeDomain : option string -> M (result DescribeDomainOutput)
}.

End opensearch.

Module sagemaker.

Record NotebookInstanceSummary : Type := {
  NotebookInstanceName : option string
}.

Record ListNotebookInstancesOutput : Type := {
  NotebookInstances : list NotebookInstanceSummary
}.

Record DescribeNotebookInstanceOutput : Type := {
  NotebookInstance_KmsKeyId : option string;
  DirectInternetAccess : string;
  RootAccess : string
}.

Record EndpointSummary : Type := {
  EndpointName : option string
}.

Record ListEndpointsOutput : Type := {
  Endpoints : list EndpointSummary
}.

Record DescribeEndpointOutput : Type := {
  EndpointConfigName : option string
}.

Record DescribeEndpointConfigOutput : Type := {
  EndpointConfig_KmsKeyId : option string
}.

Record TrainingJobSummary : Type := {
  TrainingJobName : option string
}.

Record ListTrainingJobsOutput : Type := {
  TrainingJobSummaries : list TrainingJobSummary
}.

Record ResourceConfig_t : Type := {
  VolumeKmsKeyId : option string
}.

Record DescribeTrainingJobOutput : Type := {
  ResourceConfig : option ResourceConfig_t
}.

Record ModelSummary : Type := {
  ModelName : option string
}.

Record ListModelsOutput : Type := {
  Models : list ModelSummary
}.

Record DescribeModelOutput : Type := {
  EnableNetworkIsolation : option bool
}.

Record Client `{Host} : Type := {
  ListNotebookInstances : M (result ListNotebookInstancesOutput);
  DescribeNotebookInstance : option string -> M (result DescribeNotebookInstanceOutput);
  ListEndpoints : M (result ListEndpointsOutput);
  DescribeEndpoint : option string -> M (result DescribeEndpointOutput);
  DescribeEndpointConfig : option string -> M (result DescribeEndpointConfigOutput);
  ListTrainingJobs : M (result ListTrainingJobsOutput);
  DescribeTrainingJob : option string -> M (result DescribeTrainingJobOutput);
  ListModels : M (result ListModelsOutput);
  DescribeModel : option string -> M (result DescribeModelOutput)
}.

End sagemaker.

Module elasticache.

Record CacheCluster : Type := {
  CacheClusterId : option string;
  AtRestEncryptionEnabled : option bool;
  TransitEncryptionEnabled : option bool;
  AutoMinorVersionUpgrade : option bool
}.

Record DescribeCacheClustersOutput : Type := {
  CacheClusters : list CacheCluster
}.

Record ReplicationGroup : Type := {
  ReplicationGroupId : option string;
  AuthTokenEnabled : option bool;
  SnapshotRetentionLimit : option Z
}.

Record DescribeReplicationGroupsOutput : Type := {
  ReplicationGroups : list ReplicationGroup
}.

Record Client `{Host} : Type := {
  DescribeCacheClusters : M (result DescribeCacheClustersOutput);
  DescribeReplicationGroups : M (result DescribeReplicationGroupsOutput)
}.

End elasticache.

Module redshift.

Record ClusterParameterGroupStatus : Type := {
  ParameterGroupName : option string
}.

Record Cluster : Type := {
  ClusterIdentifier : option string;
  Encrypted : option bool;
  PubliclyAccessible : option bool;
  ClusterParameterGroups : list ClusterParameterGroupStatus;
  AllowVersionUpgrade : option bool;
  AutomatedSnapshotRetentionPeriod : option Z;
  EnhancedVpcRouting : option bool
}.

Record DescribeClustersOutput : Type := {
  Clusters : list Cluster
}.

Record LoggingStatus : Type := {
  LoggingEnabled : option bool
}.

Record ClusterParameter : Type := {
  ParameterName : option string;
  ParameterValue : option string
}.

Record DescribeClusterParametersOutput : Type := {
  Parameters : list ClusterParameter
}.

Record Client `{Host} : Type := {
  DescribeClusters : M (result DescribeClustersOutput);
  DescribeLoggingStatus : option string -> M (result LoggingStatus);
  DescribeClusterParameters : option string -> M (result DescribeClusterParametersOutput)
}.

End redshift.

(** ** The checkers

    Each check is the source's function: the list call, the loop that
    collects the violating resources (named [<check>_loop] here), and the
    three-way classification. *)

Module OpenSearchChecks.
Import opensearch.

Section Checks.
Context `{Host}.
Variable client : Client.

Definition CheckEncryptionAtRest_loop (domains : list DomainInfo) : M (list string) :=
  for_range domains (fun domain unencrypted =>
    let domainName := ToString (DomainName domain) in
    detail <- DescribeDomain client (DomainName domain) ;;
    match detail with
    | Err _ => ret unencrypted
    | Ok detail =>
      if match EncryptionAtRestOptions (DomainStatus detail) with
         | None => true
         | Some opts => negb (ToBool (EncryptionAtRestOptions_Enabled opts))
         end
      then ret (unencrypted ++ [domainName])
      else ret unencrypted
    end) [].

Definition CheckEncryptionAtRest : M (result CheckResult) :=
  domains <- ListDomainNames client ;;
  match domains with
  | Err err => ret (Err err)
  | Ok domains =>
    unencrypted <- CheckEncryptionAtRest_loop (DomainNames domains) ;;
    if len unencrypted >? 0 then
      now <- time_Now ;;
      ret (Ok {|
        Control := "CC6.3";
        Name := "OpenSearch Encryption at Rest";
        Status := "FAIL";
        Severity := "CRITICAL";
        Evidence := fmt_d (len unencrypted) +:+ " OpenSearch domains without encryption at rest: " +:+ fmt_v unencrypted;
        Remediation := "Enable encryption at rest for OpenSearch domains";
        RemediationDetail := "Update domain configuration to enable encryption at rest with KMS key";
        ScreenshotGuide := "OpenSearch Console → Domains → Select domain → Security → Screenshot showing 'Encryption at rest: Enabled'";
        ConsoleURL := "https://console.aws.amazon.com/aos/home#opensearch/domains";
        Priority := PriorityCritical;
        Timestamp := now;
        Frameworks := GetFrameworkMappings "OPENSEARCH_ENCRYPTION" |})
    else if len (DomainNames domains) =? 0 then
      now <- time_Now ;;
      ret (Ok {|
        Control := "CC6.3";
        Name := "OpenSearch Encryption at Rest";
        Status := "PASS";
        Severity := EmptyString;
        Evidence := "No OpenSearch domains found";
        Remediation := EmptyString;
        RemediationDetail := EmptyString;
        ScreenshotGuide := EmptyString;
        ConsoleURL := EmptyString;
        Priority := PriorityInfo;
        Timestamp := now;
        Frameworks := GetFrameworkMappings "OPENSEARCH_ENCRYPTION" |})
    else
      now <- time_Now ;;
      ret (Ok {|
        Control := "CC6.3";
        Name := "OpenSearch Encryption at Rest";
        Status := "PASS";
        Severity := EmptyString;
        Evidence := "All " +:+ fmt_d (len (DomainNames domains)) +:+ " OpenSearch domains have encryption at rest enabled";
        Remediation := EmptyString;
        RemediationDetail := EmptyString;
        ScreenshotGuide := EmptyString;
        ConsoleURL := EmptyString;
        Priority := PriorityInfo;
        Timestamp := now;
        Frameworks := GetFrameworkMappings "OPENSEARCH_ENCRYPTION" |})
  end.

Definition CheckNodeToNodeEncryption_loop (domains : list DomainInfo) : M (list string) :=
  for_range domains (fun domain noNodeEncryption =>
    let domainName := ToString (DomainName domain) in
    detail <- DescribeDomain client (DomainName domain) ;;
    match detail with
    | Err _ => ret noNodeEncryption
    | Ok detail =>
      if match NodeToNodeEncryptionOptions (DomainStatus detail) with
         | None => true
         | Some opts => negb (ToBool (NodeToNodeEncryptionOptions_Enabled opts))
         end
      then ret (noNodeEncryption ++ [domainName])
      else ret noNodeEncryption
    end) [].

Definition CheckNodeToNodeEncryption : M (result CheckResult) :=
  domains <- ListDomainNames client ;;
  match domains with
  | Err err => ret (Err err)
  | Ok domains =>
    noNodeEncryption <- CheckNodeToNodeEncryption_loop (DomainNames domains) ;;
    if len noNodeEncryption >? 0 then
      now <- time_Now ;;
      ret (Ok {|
        Control := "CC6.4";
        Name := "OpenSearch Node-to-Node Encryption";
        Status := "FAIL";
        Severity := "HIGH";
        Evidence := fmt_d (len noNodeEncryption) +:+ " OpenSearch domains without node-to-node encryption: " +:+ fmt_v noNodeEncryption;
        Remediation := "Enable node-to-node encryption for OpenSearch domains";
        RemediationDetail := "Update domain configuration to enable node-to-node encryption (may require blue/green deployment)";
        ScreenshotGuide := "OpenSearch Console → Domains → Select domain → Security → Screenshot showing 'Node-to-node encryption: Enabled'";
        ConsoleURL := "https://console.aws.amazon.com/aos/home#opensearch/domains";
        Priority := PriorityHigh;
        Timestamp := now;
        Frameworks := GetFrameworkMappings "OPENSEARCH_TRANSIT" |})
    else if len (DomainNames domains) =? 0 then
      now <- time_Now ;;
      ret (Ok {|
        Control := "CC6.4";
        Name := "OpenSearch Node-to-Node Encryption";
        Status := "PASS";
        Severity := EmptyString;
        Evidence := "No OpenSearch domains found";
        Remediation := EmptyString;
        RemediationDetail := EmptyString;
        ScreenshotGuide := EmptyString;
        ConsoleURL := EmptyString;
        Priority := PriorityInfo;
        Timestamp := now;
        Frameworks := GetFrameworkMappings "OPENSEARCH_TRANSIT" |})
    else
      now <- time_Now ;;
      ret (Ok {|
        Control := "CC6.4";
        Name := "OpenSearch Node-to-Node Encryption";
        Status := "PASS";
        Severity := EmptyString;
        Evidence := "All " +:+ fmt_d (len (DomainNames domains)) +:+ " OpenSearch domains have node-to-node encryption enabled";
        Remediation := EmptyString;
        RemediationDetail := EmptyString;
        ScreenshotGuide := EmptyString;
        ConsoleURL := EmptyString;
        Priority := PriorityInfo;
        Timestamp := now;
        Frameworks := GetFrameworkMappings "OPENSEARCH_TRANSIT" |})
  end.

Definition CheckHTTPS_loop (domains : list DomainInfo) : M (list string) :=
  for_range domains (fun domain noHTTPS =>
    let domainName := ToString (DomainName domain) in
    detail <- DescribeDomain client (DomainName domain) ;;
    match detail with
    | Err _ => ret noHTTPS
    | Ok detail =>
      if match DomainEndpointOptions (DomainStatus detail) with
         | None => true
         | Some opts => negb (ToBool (EnforceHTTPS opts))
         end
      then ret (noHTTPS ++ [domainName])
      else ret noHTTPS
    end) [].

Definition CheckHTTPS : M (result CheckResult) :=
  domains <- ListDomainNames client ;;
  match domains with
  | Err err => ret (Err err)
  | Ok domains =>
    noHTTPS <- CheckHTTPS_loop (DomainNames domains) ;;
    if len noHTTPS >? 0 then
      now <- time_Now ;;
      ret (Ok {|
        Control := "CC6.4";
        Name := "OpenSearch HTTPS Required";
        Status := "FAIL";
        Severity := "HIGH";
        Evidence := fmt_d (len noHTTPS) +:+ " OpenSearch domains not enforcing HTTPS: " +:+ fmt_v noHTTPS;
        Remediation := "Enable HTTPS enforcement for OpenSearch domains";
        RemediationDetail := "Update domain endpoint options to enforce HTTPS and use TLS 1.2 minimum";
        ScreenshotGuide := "OpenSearch Console → Domains → Select domain → Security → Screenshot showing 'Require HTTPS: Yes'";
        ConsoleURL := "https://console.aws.amazon.com/aos/home#opensearch/domains";
        Priority := PriorityHigh;
        Timestamp := now;
        Frameworks := GetFrameworkMappings "OPENSEARCH_HTTPS" |})
    else if len (DomainNames domains) =? 0 then
      now <- time_Now ;;
      ret (Ok {|
        Control := "CC6.4";
        Name := "OpenSearch HTTPS Required";
        Status := "PASS";
        Severity := EmptyString;
        Evidence := "No OpenSearch domains found";
        Remediation := EmptyString;
        RemediationDetail := EmptyString;
        ScreenshotGuide := EmptyString;
        ConsoleURL := EmptyString;
        Priority := PriorityInfo;
        Timestamp := now;
        Frameworks := GetFrameworkMappings "OPENSEARCH_HTTPS" |})
    else
      now <- time_Now ;;
      ret (Ok {|
        Control := "CC6.4";
        Name := "OpenSearch HTTPS Required";
        Status := "PASS";
        Severity := EmptyString;
        Evidence := "All " +:+ fmt_d (len (DomainNames domains)) +:+ " OpenSearch domains enforce HTTPS";
        Remediation := EmptyString;
        RemediationDetail := EmptyString;
        ScreenshotGuide := EmptyString;
        ConsoleURL := EmptyString;
        Priority := PriorityInfo;
        Timestamp := now;
        Frameworks := GetFrameworkMappings "OPENSEARCH_HTTPS" |})
  end.

Definition CheckVPCDeployment_loop (domains : list DomainInfo) : M (list string) :=
  for_range domains (fun domain publicDomains =>
    let domainName := ToString (DomainName domain) in
    detail <- DescribeDomain client (DomainName domain) ;;
    match detail with
    | Err _ => ret publicDomains
    | Ok detail =>
      if match VPCOptions (DomainStatus detail) with
         | None => true
         | Some opts => len (SubnetIds opts) =? 0
         end
      then ret (publicDomains ++ [domainName])
      else ret publicDomains
    end) [].

Definition CheckVPCDeployment : M (result CheckResult) :=
  domains <- ListDomainNames client ;;
  match domains with
  | Err err => ret (Err err)
  | Ok domains =>
    publicDomains <- CheckVPCDeployment_loop (DomainNames domains) ;;
    if len publicDomains >? 0 then
      now <- time_Now ;;
      ret (Ok {|
        Control := "CC6.1";
        Name := "OpenSearch VPC Deployment";
        Status := "FAIL";
        Severity := "CRITICAL";
        Evidence := fmt_d (len publicDomains) +:+ " OpenSearch domains are publicly accessible (not in VPC): " +:+ fmt_v publicDomains;
        Remediation := "Deploy OpenSearch domains within a VPC";
        RemediationDetail := "Create new domain in VPC. Note: Moving from public to VPC requires recreating the domain.";
        ScreenshotGuide := "OpenSearch Console → Domains → Select domain → Network → Screenshot showing VPC configuration";
        ConsoleURL := "https://console.aws.amazon.com/aos/home#opensearch/domains";
        Priority := PriorityCritical;
        Timestamp := now;
        Frameworks := GetFrameworkMappings "OPENSEARCH_NETWORK" |})
    else if len (DomainNames domains) =? 0 then
      now <- time_Now ;;
      ret (Ok {|
        Control := "CC6.1";
        Name := "OpenSearch VPC Deployment";
        Status := "PASS";
        Severity := EmptyString;
        Evidence := "No OpenSearch domains found";
        Remediation := EmptyString;
        RemediationDetail := EmptyString;
        ScreenshotGuide := EmptyString;
        ConsoleURL := EmptyString;
        Priority := PriorityInfo;
        Timestamp := now;
        Frameworks := GetFrameworkMappings "OPENSEARCH_NETWORK" |})
    else
      now <- time_Now ;;
      ret (Ok {|
        Control := "CC6.1";
        Name := "OpenSearch VPC Deployment";
        Status := "PASS";
        Severity := EmptyString;
        Evidence := "All " +:+ fmt_d (len (DomainNames domains)) +:+ " OpenSearch domains are deployed in VPC";
        Remediation := EmptyString;
        RemediationDetail := EmptyString;
        ScreenshotGuide := EmptyString;
        ConsoleURL := EmptyString;
        Priority := PriorityInfo;
        Timestamp := now;
        Frameworks := GetFrameworkMappings "OPENSEARCH_NETWORK" |})
  end.

Definition CheckAuditLogs_loop (domains : list DomainInfo) : M (list string) :=
  for_range domains (fun domain noAuditLogs =>
    let domainName := ToString (DomainName domain) in
    detail <- DescribeDomain client (DomainName domain) ;;
    match detail with
    | Err _ => ret noAuditLogs
    | Ok detail =>
      match LogPublishingOptions (DomainStatus detail) with
      | None => ret (noAuditLogs ++ [domainName])
      | Some options =>
        let auditLogEnabled :=
          existsb (fun '(logType, logConfig) =>
                     String.eqb logType "AUDIT_LOGS" && ToBool (LogPublishingOption_Enabled logConfig))
                  (map_to_list options) in
        if negb auditLogEnabled
        then ret (noAuditLogs ++ [domainName])
        else ret noAuditLogs
      end
    end) [].

Definition CheckAuditLogs : M (result CheckResult) :=
  domains <- ListDomainNames client ;;
  match domains with
  | Err err => ret (Err err)
  | Ok domains =>
    noAuditLogs <- CheckAuditLogs_loop (DomainNames domains) ;;
    if len noAuditLogs >? 0 then
      now <- time_Now ;;
      ret (Ok {|
        Control := "CC7.1";
        Name := "OpenSearch Audit Logs";
        Status := "FAIL";
        Severity := "HIGH";
        Evidence := fmt_d (len noAuditLogs) +:+ " OpenSearch domains without audit logging: " +:+ fmt_v noAuditLogs;
        Remediation := "Enable audit logging for OpenSearch domains";
        RemediationDetail := "Configure log publishing options to enable AUDIT_LOGS to CloudWatch Logs";
        ScreenshotGuide := "OpenSearch Console → Domains → Select domain → Logs → Screenshot showing 'Audit logs: Enabled'";
        ConsoleURL := "https://console.aws.amazon.com/aos/home#opensearch/domains";
        Priority := PriorityHigh;
        Timestamp := now;
        Frameworks := GetFrameworkMappings "OPENSEARCH_LOGGING" |})
    else if len (DomainNames domains) =? 0 then
      now <- time_Now ;;
      ret (Ok {|
        Control := "CC7.1";
        Name := "OpenSearch Audit Logs";
        Status := "PASS";
        Severity := EmptyString;
        Evidence := "No OpenSearch domains found";
        Remediation := EmptyString;
        RemediationDetail := EmptyString;
        ScreenshotGuide := EmptyString;
        ConsoleURL := EmptyString;
        Priority := PriorityInfo;
        Timestamp := now;
        Frameworks := GetFrameworkMappings "OPENSEARCH_LOGGING" |})
    else
      now <- time_Now ;;
      ret (Ok {|
        Control := "CC7.1";
        Name := "OpenSearch Audit Logs";
        Status := "PASS";
        Severity := EmptyString;
        Evidence := "All " +:+ fmt_d (len (DomainNames domains)) +:+ " OpenSearch domains have audit logging enabled";
        Remediation := EmptyString;
        RemediationDetail := EmptyString;
        ScreenshotGuide := EmptyString;
        ConsoleURL := EmptyString;
        Priority := PriorityInfo;
        Timestamp := now;
        Frameworks := GetFrameworkMappings "OPENSEARCH_LOGGING" |})
  end.

Definition CheckFineGrainedAccessControl_loop (domains : list DomainInfo) : M (list string) :=
  for_range domains (fun domain noFGAC =>
    let domainName := ToString (DomainName domain) in
    detail <- DescribeDomain client (DomainName domain) ;;
    match detail with
    | Err _ => ret noFGAC
    | Ok detail =>
      if match AdvancedSecurityOptions (DomainStatus detail) with
         | None => true
         | Some opts => negb (ToBool (AdvancedSecurityOptions_Enabled opts))
         end
      then ret (noFGAC ++ [domainName])
      else ret noFGAC
    end) [].

Definition CheckFineGrainedAccessControl : M (result CheckResult) :=
  domains <- ListDomainNames client ;;
  match domains with
  | Err err => ret (Err err)
  | Ok domains =>
    noFGAC <- CheckFineGrainedAccessControl_loop (DomainNames domains) ;;
    if len noFGAC >? 0 then
      now <- time_Now ;;
      ret (Ok {|
        Control := "CC6.6";
        Name := "OpenSearch Fine-Grained Access Control";
        Status := "FAIL";
        Severity := "HIGH";
        Evidence := fmt_d (len noFGAC) +:+ " OpenSearch domains without fine-grained access control: " +:+ fmt_v noFGAC;
        Remediation := "Enable fine-grained access control for OpenSearch domains";
        RemediationDetail := "Enable Advanced Security Options with fine-grained access control. Requires encryption at rest and node-to-node encryption.";
        ScreenshotGuide := "OpenSearch Console → Domains → Select domain → Security → Screenshot showing 'Fine-grained access control: Enabled'";
        ConsoleURL := "https://console.aws.amazon.com/aos/home#opensearch/domains";
        Priority := PriorityHigh;
        Timestamp := now;
        Frameworks := GetFrameworkMappings "OPENSEARCH_ACCESS" |})
    else if len (DomainNames domains) =? 0 then
      now <- time_Now ;;
      ret (Ok {|
        Control := "CC6.6";
        Name := "OpenSearch Fine-Grained Access Control";
        Status := "PASS";
        Severity := EmptyString;
        Evidence := "No OpenSearch domains found";
        Remediation := EmptyString;
        RemediationDetail := EmptyString;
        ScreenshotGuide := EmptyString;
        ConsoleURL := EmptyString;
        Priority := PriorityInfo;
        Timestamp := now;
        Frameworks := GetFrameworkMappings "OPENSEARCH_ACCESS" |})
    else
      now <- time_Now ;;
      ret (Ok {|
        Control := "CC6.6";
        Name := "OpenSearch Fine-Grained Access Control";
        Status := "PASS";
        Severity := EmptyString;
        Evidence := "All " +:+ fmt_d (len (DomainNames domains)) +:+ " OpenSearch domains have fine-grained access control enabled";
        Remediation := EmptyString;
        RemediationDetail := EmptyString;
        ScreenshotGuide := EmptyString;
        ConsoleURL := EmptyString;
        Priority := PriorityInfo;
        Timestamp := now;
        Frameworks := GetFrameworkMappings "OPENSEARCH_ACCESS" |})
  end.

Definition Run : M (list CheckResult * option error) :=
  let results := [] in
  r <- CheckEncryptionAtRest ;;
  let results := append_if_ok results r in
  r <- CheckNodeToNodeEncryption ;;
  let results := append_if_ok results r in
  r <- CheckHTTPS ;;
  let results := append_if_ok results r in
  r <- CheckVPCDeployment ;;
  let results := append_if_ok results r in
  r <- CheckAuditLogs ;;
  let results := append_if_ok results r in
  r <- CheckFineGrainedAccessControl ;;
  let results := append_if_ok results r in
  ret (results, None).

Definition checker : Checker :=
  {| checker_Name := "OpenSearch Security"; checker_Run := Run |}.

End Checks.
End OpenSearchChecks.

Module SageMakerChecks.
Import sagemaker.

Section Checks.
Context `{Host}.
Variable client : Client.

Definition CheckNotebookEncryption_loop (notebooks : list NotebookInstanceSummary) : M (list string) :=
  for_range notebooks (fun nb unencrypted =>
    let nbName := ToString (NotebookInstanceName nb) in
    detail <- DescribeNotebookInstance client (NotebookInstanceName nb) ;;
    match detail with
    | Err _ => ret unencrypted
    | Ok detail =>
      if match NotebookInstance_KmsKeyId detail with
         | None => true
         | Some k => String.eqb k EmptyString
         end
      then ret (unencrypted ++ [nbName])
      else ret unencrypted
    end) [].

Definition CheckNotebookEncryption : M (result CheckResult) :=
  notebooks <- ListNotebookInstances client ;;
  match notebooks with
  | Err err => ret (Err err)
  | Ok notebooks =>
    unencrypted <- CheckNotebookEncryption_loop (NotebookInstances notebooks) ;;
    if len unencrypted >? 0 then
      now <- time_Now ;;
      ret (Ok {|
        Control := "CC6.3";
        Name := "SageMaker Notebook Encryption";
        Status := "FAIL";
        Severity := "HIGH";
        Evidence := fmt_d (len unencrypted) +:+ " notebooks without KMS encryption: " +:+ fmt_v unencrypted;
        Remediation := "Enable KMS encryption for SageMaker notebooks";
        RemediationDetail := "Create new notebook instance with KMS key or recreate existing notebooks with encryption enabled";
        ScreenshotGuide := "SageMaker Console → Notebook instances → Select instance → Configuration → Screenshot showing KMS Key ARN";
        ConsoleURL := "https://console.aws.amazon.com/sagemaker/home#/notebook-instances";
        Priority := PriorityHigh;
        Timestamp := now;
        Frameworks := GetFrameworkMappings "SAGEMAKER_ENCRYPTION" |})
    else if len (NotebookInstances notebooks) =? 0 then
      now <- time_Now ;;
      ret (Ok {|
        Control := "CC6.3";
        Name := "SageMaker Notebook Encryption";
        Status := "PASS";
        Severity := EmptyString;
        Evidence := "No SageMaker notebooks found";
        Remediation := EmptyString;
        RemediationDetail := EmptyString;
        ScreenshotGuide := EmptyString;
        ConsoleURL := EmptyString;
        Priority := PriorityInfo;
        Timestamp := now;
        Frameworks := GetFrameworkMappings "SAGEMAKER_ENCRYPTION" |})
    else
      now <- time_Now ;;
      ret (Ok {|
        Control := "CC6.3";
        Name := "SageMaker Notebook Encryption";
        Status := "PASS";
        Severity := EmptyString;
        Evidence := "All " +:+ fmt_d (len (NotebookInstances notebooks)) +:+ " notebooks are encrypted with KMS";
        Remediation := EmptyString;
        RemediationDetail := EmptyString;
        ScreenshotGuide := EmptyString;
        ConsoleURL := EmptyString;
        Priority := PriorityInfo;
        Timestamp := now;
        Frameworks := GetFrameworkMappings "SAGEMAKER_ENCRYPTION" |})
  end.

Definition CheckNotebookDirectInternet_loop (notebooks : list NotebookInstanceSummary) : M (list string) :=
  for_range notebooks (fun nb directInternet =>
    let nbName := ToString (NotebookInstanceName nb) in
    detail <- DescribeNotebookInstance client (NotebookInstanceName nb) ;;
    match detail with
    | Err _ => ret directInternet
    | Ok detail =>
      if String.eqb (DirectInternetAccess detail) "Enabled"
      then ret (directInternet ++ [nbName])
      else ret directInternet
    end) [].

Definition CheckNotebookDirectInternet : M (result CheckResult) :=
  notebooks <- ListNotebookInstances client ;;
  match notebooks with
  | Err err => ret (Err err)
  | Ok notebooks =>
    directInternet <- CheckNotebookDirectInternet_loop (NotebookInstances notebooks) ;;
    if len directInternet >? 0 then
      now <- time_Now ;;
      ret (Ok {|
        Control := "CC6.1";
        Name := "SageMaker Direct Internet Access";
        Status := "FAIL";
        Severity := "MEDIUM";
        Evidence := fmt_d (len directInternet) +:+ " notebooks have direct internet access enabled: " +:+ fmt_v directInternet;
        Remediation := "Disable direct internet access and use VPC for network isolation";
        RemediationDetail := "Recreate notebook instance in VPC with DirectInternetAccess=Disabled, use NAT gateway for outbound access";
        ScreenshotGuide := "SageMaker Console → Notebook → Network → Screenshot showing 'Direct internet access: Disabled'";
        ConsoleURL := "https://console.aws.amazon.com/sagemaker/home#/notebook-instances";
        Priority := PriorityMedium;
        Timestamp := now;
        Frameworks := GetFrameworkMappings "SAGEMAKER_NETWORK" |})
    else if len (NotebookInstances notebooks) =? 0 then
      now <- time_Now ;;
      ret (Ok {|
        Control := "CC6.1";
        Name := "SageMaker Direct Internet Access";
        Status := "PASS";
        Severity := EmptyString;
        Evidence := "No SageMaker notebooks found";
        Remediation := EmptyString;
        RemediationDetail := EmptyString;
        ScreenshotGuide := EmptyString;
        ConsoleURL := EmptyString;
        Priority := PriorityInfo;
        Timestamp := now;
        Frameworks := GetFrameworkMappings "SAGEMAKER_NETWORK" |})
    else
      now <- time_Now ;;
      ret (Ok {|
        Control := "CC6.1";
        Name := "SageMaker Direct Internet Access";
        Status := "PASS";
        Severity := EmptyString;
        Evidence := "All " +:+ fmt_d (len (NotebookInstances notebooks)) +:+ " notebooks have direct internet access disabled";
        Remediation := EmptyString;
        RemediationDetail := EmptyString;
        ScreenshotGuide := EmptyString;
        ConsoleURL := EmptyString;
        Priority := PriorityInfo;
        Timestamp := now;
        Frameworks := GetFrameworkMappings "SAGEMAKER_NETWORK" |})
  end.

Definition CheckNotebookRootAccess_loop (notebooks : list NotebookInstanceSummary) : M (list string) :=
  for_range notebooks (fun nb rootEnabled =>
    let nbName := ToString (NotebookInstanceName nb) in
    detail <- DescribeNotebookInstance client (NotebookInstanceName nb) ;;
    match detail with
    | Err _ => ret rootEnabled
    | Ok detail =>
      if String.eqb (RootAccess detail) "Enabled"
      then ret (rootEnabled ++ [nbName])
      else ret rootEnabled
    end) [].

Definition CheckNotebookRootAccess : M (result CheckResult) :=
  notebooks <- ListNotebookInstances client ;;
  match notebooks with
  | Err err => ret (Err err)
  | Ok notebooks =>
    rootEnabled <- CheckNotebookRootAccess_loop (NotebookInstances notebooks) ;;
    if len rootEnabled >? 0 then
      now <- time_Now ;;
      ret (Ok {|
        Control := "CC6.6";
        Name := "SageMaker Root Access";
        Status := "FAIL";
        Severity := "MEDIUM";
        Evidence := fmt_d (len rootEnabled) +:+ " notebooks have root access enabled: " +:+ fmt_v rootEnabled;
        Remediation := "Disable root access for notebook instances";
        RemediationDetail := "Update notebook instance to disable root access: aws sagemaker update-notebook-instance --notebook-instance-name NAME --root-access Disabled";
        ScreenshotGuide := "SageMaker Console → Notebook → Permissions → Screenshot showing 'Root access: Disabled'";
        ConsoleURL := "https://console.aws.amazon.com/sagemaker/home#/notebook-instances";
        Priority := PriorityMedium;
        Timestamp := now;
        Frameworks := GetFrameworkMappings "SAGEMAKER_ACCESS" |})
    else if len (NotebookInstances notebooks) =? 0 then
      now <- time_Now ;;
      ret (Ok {|
        Control := "CC6.6";
        Name := "SageMaker Root Access";
        Status := "PASS";
        Severity := EmptyString;
        Evidence := "No SageMaker notebooks found";
        Remediation := EmptyString;
        RemediationDetail := EmptyString;
        ScreenshotGuide := EmptyString;
        ConsoleURL := EmptyString;
        Priority := PriorityInfo;
        Timestamp := now;
        Frameworks := GetFrameworkMappings "SAGEMAKER_ACCESS" |})
    else
      now <- time_Now ;;
      ret (Ok {|
        Control := "CC6.6";
        Name := "SageMaker Root Access";
        Status := "PASS";
        Severity := EmptyString;
        Evidence := "All " +:+ fmt_d (len (NotebookInstances notebooks)) +:+ " notebooks have root access disabled";
        Remediation := EmptyString;
        RemediationDetail := EmptyString;
        ScreenshotGuide := EmptyString;
        ConsoleURL := EmptyString;
        Priority := PriorityInfo;
        Timestamp := now;
        Frameworks := GetFrameworkMappings "SAGEMAKER_ACCESS" |})
  end.

Definition CheckEndpointEncryption_loop (endpoints : list EndpointSummary) : M (list string) :=
  for_range endpoints (fun ep unencrypted =>
    let epName := ToString (EndpointName ep) in
    detail <- DescribeEndpoint client (EndpointName ep) ;;
    match detail with
    | Err _ => ret unencrypted
    | Ok detail =>
      configDetail <- DescribeEndpointConfig client (EndpointConfigName detail) ;;
      match configDetail with
      | Err _ => ret unencrypted
      | Ok configDetail =>
        if match EndpointConfig_KmsKeyId configDetail with
           | None => true
           | Some k => String.eqb k EmptyString
           end
        then ret (unencrypted ++ [epName])
        else ret unencrypted
      end
    end) [].

Definition CheckEndpointEncryption : M (result CheckResult) :=
  endpoints <- ListEndpoints client ;;
  match endpoints with
  | Err err => ret (Err err)
  | Ok endpoints =>
    unencrypted <- CheckEndpointEncryption_loop (Endpoints endpoints) ;;
    if len unencrypted >? 0 then
      now <- time_Now ;;
      ret (Ok {|
        Control := "CC6.3";
        Name := "SageMaker Endpoint Encryption";
        Status := "FAIL";
        Severity := "HIGH";
        Evidence := fmt_d (len unencrypted) +:+ " endpoints without KMS encryption: " +:+ fmt_v unencrypted;
        Remediation := "Enable KMS encryption for SageMaker endpoints";
        RemediationDetail := "Create new endpoint config with KmsKeyId specified, then update endpoint to use new config";
        ScreenshotGuide := "SageMaker Console → Endpoints → Select endpoint → Configuration → Screenshot showing KMS Key ARN";
        ConsoleURL := "https://console.aws.amazon.com/sagemaker/home#/endpoints";
        Priority := PriorityHigh;
        Timestamp := now;
        Frameworks := GetFrameworkMappings "SAGEMAKER_ENCRYPTION" |})
    else if len (Endpoints endpoints) =? 0 then
      now <- time_Now ;;
      ret (Ok {|
        Control := "CC6.3";
        Name := "SageMaker Endpoint Encryption";
        Status := "PASS";
        Severity := EmptyString;
        Evidence := "No SageMaker endpoints found";
        Remediation := EmptyString;
        RemediationDetail := EmptyString;
        ScreenshotGuide := EmptyString;
        ConsoleURL := EmptyString;
        Priority := PriorityInfo;
        Timestamp := now;
        Frameworks := GetFrameworkMappings "SAGEMAKER_ENCRYPTION" |})
    else
      now <- time_Now ;;
      ret (Ok {|
        Control := "CC6.3";
        Name := "SageMaker Endpoint Encryption";
        Status := "PASS";
        Severity := EmptyString;
        Evidence := "All " +:+ fmt_d (len (Endpoints endpoints)) +:+ " endpoints are encrypted with KMS";
        Remediation := EmptyString;
        RemediationDetail := EmptyString;
        ScreenshotGuide := EmptyString;
        ConsoleURL := EmptyString;
        Priority := PriorityInfo;
        Timestamp := now;
        Frameworks := GetFrameworkMappings "SAGEMAKER_ENCRYPTION" |})
  end.

Definition CheckTrainingJobEncryption_loop (jobs : list TrainingJobSummary) : M (list string) :=
  for_range jobs (fun job unencrypted =>
    let jobName := ToString (TrainingJobName job) in
    detail <- DescribeTrainingJob client (TrainingJobName job) ;;
    match detail with
    | Err _ => ret unencrypted
    | Ok detail =>
      if match ResourceConfig detail with
         | None => false
         | Some rc =>
           match VolumeKmsKeyId rc with
           | None => true
           | Some k => String.eqb k EmptyString
           end
         end
      then ret (unencrypted ++ [jobName])
      else ret unencrypted
    end) [].

Definition CheckTrainingJobEncryption : M (result CheckResult) :=
  jobs <- ListTrainingJobs client ;;
  match jobs with
  | Err err => ret (Err err)
  | Ok jobs =>
    unencrypted <- CheckTrainingJobEncryption_loop (TrainingJobSummaries jobs) ;;
    if len unencrypted >? 0 then
      now <- time_Now ;;
      ret (Ok {|
        Control := "CC6.3";
        Name := "SageMaker Training Job Encryption";
        Status := "FAIL";
        Severity := "MEDIUM";
        Evidence := fmt_d (len unencrypted) +:+ " training jobs without volume encryption: " +:+ fmt_v (truncateList unencrypted 5);
        Remediation := "Enable KMS encryption for training job volumes";
        RemediationDetail := "When creating training jobs, specify VolumeKmsKeyId in ResourceConfig";
        ScreenshotGuide := "SageMaker Console → Training jobs → Select job → Configuration → Screenshot showing encryption settings";
        ConsoleURL := "https://console.aws.amazon.com/sagemaker/home#/jobs";
        Priority := PriorityMedium;
        Timestamp := now;
        Frameworks := GetFrameworkMappings "SAGEMAKER_ENCRYPTION" |})
    else if len (TrainingJobSummaries jobs) =? 0 then
      now <- time_Now ;;
      ret (Ok {|
        Control := "CC6.3";
        Name := "SageMaker Training Job Encryption";
        Status := "PASS";
        Severity := EmptyString;
        Evidence := "No SageMaker training jobs found";
        Remediation := EmptyString;
        RemediationDetail := EmptyString;
        ScreenshotGuide := EmptyString;
        ConsoleURL := EmptyString;
        Priority := PriorityInfo;
        Timestamp := now;
        Frameworks := GetFrameworkMappings "SAGEMAKER_ENCRYPTION" |})
    else
      now <- time_Now ;;
      ret (Ok {|
        Control := "CC6.3";
        Name := "SageMaker Training Job Encryption";
        Status := "PASS";
        Severity := EmptyString;
        Evidence := "All " +:+ fmt_d (len (TrainingJobSummaries jobs)) +:+ " recent training jobs have volume encryption enabled";
        Remediation := EmptyString;
        RemediationDetail := EmptyString;
        ScreenshotGuide := EmptyString;
        ConsoleURL := EmptyString;
        Priority := PriorityInfo;
        Timestamp := now;
        Frameworks := GetFrameworkMappings "SAGEMAKER_ENCRYPTION" |})
  end.

Definition CheckModelNetworkIsolation_loop (models : list ModelSummary) : M (list string) :=
  for_range models (fun model notIsolated =>
    let modelName := ToString (ModelName model) in
    detail <- DescribeModel client (ModelName model) ;;
    match detail with
    | Err _ => ret notIsolated
    | Ok detail =>
      if match EnableNetworkIsolation detail with
         | None => true
         | Some b => negb b
         end
      then ret (notIsolated ++ [modelName])
      else ret notIsolated
    end) [].

Definition CheckModelNetworkIsolation : M (result CheckResult) :=
  models <- ListModels client ;;
  match models with
  | Err err => ret (Err err)
  | Ok models =>
    notIsolated <- CheckModelNetworkIsolation_loop (Models models) ;;
    if len notIsolated >? 0 then
      now <- time_Now ;;
      ret (Ok {|
        Control := "CC6.1";
        Name := "SageMaker Model Network Isolation";
        Status := "FAIL";
        Severity := "LOW";
        Evidence := fmt_d (len notIsolated) +:+ " models without network isolation: " +:+ fmt_v (truncateList notIsolated 5);
        Remediation := "Enable network isolation for SageMaker models";
        RemediationDetail := "When creating models, set EnableNetworkIsolation=true to prevent network access during inference";
        ScreenshotGuide := "SageMaker Console → Models → Select model → Network → Screenshot showing isolation settings";
        ConsoleURL := "https://console.aws.amazon.com/sagemaker/home#/models";
        Priority := PriorityLow;
        Timestamp := now;
        Frameworks := GetFrameworkMappings "SAGEMAKER_NETWORK" |})
    else if len (Models models) =? 0 then
      now <- time_Now ;;
      ret (Ok {|
        Control := "CC6.1";
        Name := "SageMaker Model Network Isolation";
        Status := "PASS";
        Severity := EmptyString;
        Evidence := "No SageMaker models found";
        Remediation := EmptyString;
        RemediationDetail := EmptyString;
        ScreenshotGuide := EmptyString;
        ConsoleURL := EmptyString;
        Priority := PriorityInfo;
        Timestamp := now;
        Frameworks := GetFrameworkMappings "SAGEMAKER_NETWORK" |})
    else
      now <- time_Now ;;
      ret (Ok {|
        Control := "CC6.1";
        Name := "SageMaker Model Network Isolation";
        Status := "PASS";
        Severity := EmptyString;
        Evidence := "All " +:+ fmt_d (len (Models models)) +:+ " models have network isolation enabled";
        Remediation := EmptyString;
        RemediationDetail := EmptyString;
        ScreenshotGuide := EmptyString;
        ConsoleURL := EmptyString;
        Priority := PriorityInfo;
        Timestamp := now;
        Frameworks := GetFrameworkMappings "SAGEMAKER_NETWORK" |})
  end.

Definition Run : M (list CheckResult * option error) :=
  let results := [] in
  r <- CheckNotebookEncryption ;;
  let results := append_if_ok results r in
  r <- CheckNotebookDirectInternet ;;
  let results := append_if_ok results r in
  r <- CheckNotebookRootAccess ;;
  let results := append_if_ok results r in
  r <- CheckEndpointEncryption ;;
  let results := append_if_ok results r in
  r <- CheckTrainingJobEncryption ;;
  let results := append_if_ok results r in
  r <- CheckModelNetworkIsolation ;;
  let results := append_if_ok results r in
  ret (results, None).

Definition checker : Checker :=
  {| checker_Name := "SageMaker ML Security"; checker_Run := Run |}.

End Checks.
End SageMakerChecks.

Module ElastiCacheChecks.
Import elasticache.

Section Checks.
Context `{Host}.
Variable client : Client.

Definition CheckEncryptionAtRest_loop (clusters : list CacheCluster) : M (list string) :=
  for_range clusters (fun cluster unencrypted =>
    let clusterID := ToString (CacheClusterId cluster) in
    if negb (ToBool (AtRestEncryptionEnabled cluster))
    then ret (unencrypted ++ [clusterID])
    else ret unencrypted) [].

Definition CheckEncryptionAtRest : M (result CheckResult) :=
  clusters <- DescribeCacheClusters client ;;
  match clusters with
  | Err err => ret (Err err)
  | Ok clusters =>
    unencrypted <- CheckEncryptionAtRest_loop (CacheClusters clusters) ;;
    if len unencrypted >? 0 then
      now <- time_Now ;;
      ret (Ok {|
        Control := "CC6.3";
        Name := "ElastiCache Encryption at Rest";
        Status := "FAIL";
        Severity := "HIGH";
        Evidence := fmt_d (len unencrypted) +:+ " ElastiCache clusters without encryption at rest: " +:+ fmt_v unencrypted;
        Remediation := "Enable encryption at rest for ElastiCache clusters";
        RemediationDetail := "Encryption at rest must be enabled when creating the cluster. Create new cluster with AtRestEncryptionEnabled=true and migrate data.";
        ScreenshotGuide := "ElastiCache Console → Redis/Memcached → Select cluster → Description → Screenshot showing 'Encryption at rest: Enabled'";
        ConsoleURL := "https://console.aws.amazon.com/elasticache/";
        Priority := PriorityHigh;
        Timestamp := now;
        Frameworks := GetFrameworkMappings "ELASTICACHE_ENCRYPTION" |})
    else if len (CacheClusters clusters) =? 0 then
      now <- time_Now ;;
      ret (Ok {|
        Control := "CC6.3";
        Name := "ElastiCache Encryption at Rest";
        Status := "PASS";
        Severity := EmptyString;
        Evidence := "No ElastiCache clusters found";
        Remediation := EmptyString;
        RemediationDetail := EmptyString;
        ScreenshotGuide := EmptyString;
        ConsoleURL := EmptyString;
        Priority := PriorityInfo;
        Timestamp := now;
        Frameworks := GetFrameworkMappings "ELASTICACHE_ENCRYPTION" |})
    else
      now <- time_Now ;;
      ret (Ok {|
        Control := "CC6.3";
        Name := "ElastiCache Encryption at Rest";
        Status := "PASS";
        Severity := EmptyString;
        Evidence := "All " +:+ fmt_d (len (CacheClusters clusters)) +:+ " ElastiCache clusters have encryption at rest enabled";
        Remediation := EmptyString;
        RemediationDetail := EmptyString;
        ScreenshotGuide := EmptyString;
        ConsoleURL := EmptyString;
        Priority := PriorityInfo;
        Timestamp := now;
        Frameworks := GetFrameworkMappings "ELASTICACHE_ENCRYPTION" |})
  end.

Definition CheckEncryptionInTransit_loop (clusters : list CacheCluster) : M (list string) :=
  for_range clusters (fun cluster noTransitEncryption =>
    let clusterID := ToString (CacheClusterId cluster) in
    if negb (ToBool (TransitEncryptionEnabled cluster))
    then ret (noTransitEncryption ++ [clusterID])
    else ret noTransitEncryption) [].

Definition CheckEncryptionInTransit : M (result CheckResult) :=
  clusters <- DescribeCacheClusters client ;;
  match clusters with
  | Err err => ret (Err err)
  | Ok clusters =>
    noTransitEncryption <- CheckEncryptionInTransit_loop (CacheClusters clusters) ;;
    if len noTransitEncryption >? 0 then
      now <- time_Now ;;
      ret (Ok {|
        Control := "CC6.4";
        Name := "ElastiCache Encryption in Transit";
        Status := "FAIL";
        Severity := "HIGH";
        Evidence := fmt_d (len noTransitEncryption) +:+ " ElastiCache clusters without encryption in transit: " +:+ fmt_v noTransitEncryption;
        Remediation := "Enable encryption in transit (TLS) for ElastiCache clusters";
        RemediationDetail := "Transit encryption must be enabled when creating the cluster. Create new cluster with TransitEncryptionEnabled=true.";
        ScreenshotGuide := "ElastiCache Console → Select cluster → Description → Screenshot showing 'Encryption in transit: Enabled'";
        ConsoleURL := "https://console.aws.amazon.com/elasticache/";
        Priority := PriorityHigh;
        Timestamp := now;
        Frameworks := GetFrameworkMappings "ELASTICACHE_TRANSIT" |})
    else if len (CacheClusters clusters) =? 0 then
      now <- time_Now ;;
      ret (Ok {|
        Control := "CC6.4";
        Name := "ElastiCache Encryption in Transit";
        Status := "PASS";
        Severity := EmptyString;
        Evidence := "No ElastiCache clusters found";
        Remediation := EmptyString;
        RemediationDetail := EmptyString;
        ScreenshotGuide := EmptyString;
        ConsoleURL := EmptyString;
        Priority := PriorityInfo;
        Timestamp := now;
        Frameworks := GetFrameworkMappings "ELASTICACHE_TRANSIT" |})
    else
      now <- time_Now ;;
      ret (Ok {|
        Control := "CC6.4";
        Name := "ElastiCache Encryption in Transit";
        Status := "PASS";
        Severity := EmptyString;
        Evidence := "All " +:+ fmt_d (len (CacheClusters clusters)) +:+ " ElastiCache clusters have encryption in transit enabled";
        Remediation := EmptyString;
        RemediationDetail := EmptyString;
        ScreenshotGuide := EmptyString;
        ConsoleURL := EmptyString;
        Priority := PriorityInfo;
        Timestamp := now;
        Frameworks := GetFrameworkMappings "ELASTICACHE_TRANSIT" |})
  end.

Definition CheckAutoMinorVersionUpgrade_loop (clusters : list CacheCluster) : M (list string) :=
  for_range clusters (fun cluster noAutoUpgrade =>
    let clusterID := ToString (CacheClusterId cluster) in
    if negb (ToBool (AutoMinorVersionUpgrade cluster))
    then ret (noAutoUpgrade ++ [clusterID])
    else ret noAutoUpgrade) [].

Definition CheckAutoMinorVersionUpgrade : M (result CheckResult) :=
  clusters <- DescribeCacheClusters client ;;
  match clusters with
  | Err err => ret (Err err)
  | Ok clusters =>
    noAutoUpgrade <- CheckAutoMinorVersionUpgrade_loop (CacheClusters clusters) ;;
    if len noAutoUpgrade >? 0 then
      now <- time_Now ;;
      ret (Ok {|
        Control := "CC7.5";
        Name := "ElastiCache Auto Minor Version Upgrade";
        Status := "FAIL";
        Severity := "MEDIUM";
        Evidence := fmt_d (len noAutoUpgrade) +:+ " ElastiCache clusters without auto minor version upgrade: " +:+ fmt_v noAutoUpgrade;
        Remediation := "Enable auto minor version upgrade for ElastiCache clusters";
        RemediationDetail := "aws elasticache modify-cache-cluster --cache-cluster-id [CLUSTER_ID] --auto-minor-version-upgrade";
        ScreenshotGuide := "ElastiCache Console → Select cluster → Maintenance → Screenshot showing 'Auto minor version upgrade: Yes'";
        ConsoleURL := "https://console.aws.amazon.com/elasticache/";
        Priority := PriorityMedium;
        Timestamp := now;
        Frameworks := GetFrameworkMappings "ELASTICACHE_PATCHING" |})
    else if len (CacheClusters clusters) =? 0 then
      now <- time_Now ;;
      ret (Ok {|
        Control := "CC7.5";
        Name := "ElastiCache Auto Minor Version Upgrade";
        Status := "PASS";
        Severity := EmptyString;
        Evidence := "No ElastiCache clusters found";
        Remediation := EmptyString;
        RemediationDetail := EmptyString;
        ScreenshotGuide := EmptyString;
        ConsoleURL := EmptyString;
        Priority := PriorityInfo;
        Timestamp := now;
        Frameworks := GetFrameworkMappings "ELASTICACHE_PATCHING" |})
    else
      now <- time_Now ;;
      ret (Ok {|
        Control := "CC7.5";
        Name := "ElastiCache Auto Minor Version Upgrade";
        Status := "PASS";
        Severity := EmptyString;
        Evidence := "All " +:+ fmt_d (len (CacheClusters clusters)) +:+ " ElastiCache clusters have auto minor version upgrade enabled";
        Remediation := EmptyString;
        RemediationDetail := EmptyString;
        ScreenshotGuide := EmptyString;
        ConsoleURL := EmptyString;
        Priority := PriorityInfo;
        Timestamp := now;
        Frameworks := GetFrameworkMappings "ELASTICACHE_PATCHING" |})
  end.

Definition CheckAuthToken_loop (repGroups : list ReplicationGroup) : M (list string) :=
  for_range repGroups (fun rg noAuth =>
    let rgID := ToString (ReplicationGroupId rg) in
    if negb (ToBool (AuthTokenEnabled rg))
    then ret (noAuth ++ [rgID])
    else ret noAuth) [].

Definition CheckAuthToken : M (result CheckResult) :=
  repGroups <- DescribeReplicationGroups client ;;
  match repGroups with
  | Err err => ret (Err err)
  | Ok repGroups =>
    noAuth <- CheckAuthToken_loop (ReplicationGroups repGroups) ;;
    if len noAuth >? 0 then
      now <- time_Now ;;
      ret (Ok {|
        Control := "CC6.6";
        Name := "ElastiCache Redis AUTH Token";
        Status := "FAIL";
        Severity := "HIGH";
        Evidence := fmt_d (len noAuth) +:+ " Redis replication groups without AUTH token: " +:+ fmt_v noAuth;
        Remediation := "Enable AUTH token for Redis replication groups";
        RemediationDetail := "AUTH token must be enabled when creating the replication group. Create new group with AuthToken parameter set.";
        ScreenshotGuide := "ElastiCache Console → Redis → Select replication group → Description → Screenshot showing 'AUTH token: Enabled'";
        ConsoleURL := "https://console.aws.amazon.com/elasticache/home#redis:";
        Priority := PriorityHigh;
        Timestamp := now;
        Frameworks := GetFrameworkMappings "ELASTICACHE_AUTH" |})
    else if len (ReplicationGroups repGroups) =? 0 then
      now <- time_Now ;;
      ret (Ok {|
        Control := "CC6.6";
        Name := "ElastiCache Redis AUTH Token";
        Status := "PASS";
        Severity := EmptyString;
        Evidence := "No Redis replication groups found";
        Remediation := EmptyString;
        RemediationDetail := EmptyString;
        ScreenshotGuide := EmptyString;
        ConsoleURL := EmptyString;
        Priority := PriorityInfo;
        Timestamp := now;
        Frameworks := GetFrameworkMappings "ELASTICACHE_AUTH" |})
    else
      now <- time_Now ;;
      ret (Ok {|
        Control := "CC6.6";
        Name := "ElastiCache Redis AUTH Token";
        Status := "PASS";
        Severity := EmptyString;
        Evidence := "All " +:+ fmt_d (len (ReplicationGroups repGroups)) +:+ " Redis replication groups have AUTH token enabled";
        Remediation := EmptyString;
        RemediationDetail := EmptyString;
        ScreenshotGuide := EmptyString;
        ConsoleURL := EmptyString;
        Priority := PriorityInfo;
        Timestamp := now;
        Frameworks := GetFrameworkMappings "ELASTICACHE_AUTH" |})
  end.

Definition CheckBackupRetention_loop (repGroups : list ReplicationGroup) : M (list string) :=
  for_range repGroups (fun rg lowRetention =>
    let rgID := ToString (ReplicationGroupId rg) in
    match SnapshotRetentionLimit rg with
    | Some limit =>
      if limit <? 7
      then ret (lowRetention ++ [rgID +:+ " (" +:+ fmt_d limit +:+ " days)"])
      else ret lowRetention
    | None => ret lowRetention
    end) [].

Definition CheckBackupRetention : M (result CheckResult) :=
  repGroups <- DescribeReplicationGroups client ;;
  match repGroups with
  | Err err => ret (Err err)
  | Ok repGroups =>
    lowRetention <- CheckBackupRetention_loop (ReplicationGroups repGroups) ;;
    if len lowRetention >? 0 then
      now <- time_Now ;;
      ret (Ok {|
        Control := "A1.2";
        Name := "ElastiCache Backup Retention";
        Status := "FAIL";
        Severity := "MEDIUM";
        Evidence := fmt_d (len lowRetention) +:+ " Redis groups with backup retention < 7 days: " +:+ fmt_v lowRetention;
        Remediation := "Increase snapshot retention period to at least 7 days";
        RemediationDetail := "aws elasticache modify-replication-group --replication-group-id [GROUP_ID] --snapshot-retention-limit 7";
        ScreenshotGuide := "ElastiCache Console → Redis → Select group → Backup → Screenshot showing retention >= 7 days";
        ConsoleURL := "https://console.aws.amazon.com/elasticache/home#redis:";
        Priority := PriorityMedium;
        Timestamp := now;
        Frameworks := GetFrameworkMappings "ELASTICACHE_BACKUP" |})
    else if len (ReplicationGroups repGroups) =? 0 then
      now <- time_Now ;;
      ret (Ok {|
        Control := "A1.2";
        Name := "ElastiCache Backup Retention";
        Status := "PASS";
        Severity := EmptyString;
        Evidence := "No Redis replication groups found";
        Remediation := EmptyString;
        RemediationDetail := EmptyString;
        ScreenshotGuide := EmptyString;
        ConsoleURL := EmptyString;
        Priority := PriorityInfo;
        Timestamp := now;
        Frameworks := GetFrameworkMappings "ELASTICACHE_BACKUP" |})
    else
      now <- time_Now ;;
      ret (Ok {|
        Control := "A1.2";
        Name := "ElastiCache Backup Retention";
        Status := "PASS";
        Severity := EmptyString;
        Evidence := "All " +:+ fmt_d (len (ReplicationGroups repGroups)) +:+ " Redis replication groups have adequate backup retention";
        Remediation := EmptyString;
        RemediationDetail := EmptyString;
        ScreenshotGuide := EmptyString;
        ConsoleURL := EmptyString;
        Priority := PriorityInfo;
        Timestamp := now;
        Frameworks := GetFrameworkMappings "ELASTICACHE_BACKUP" |})
  end.

Definition Run : M (list CheckResult * option error) :=
  let results := [] in
  r <- CheckEncryptionAtRest ;;
  let results := append_if_ok results r in
  r <- CheckEncryptionInTransit ;;
  let results := append_if_ok results r in
  r <- CheckAutoMinorVersionUpgrade ;;
  let results := append_if_ok results r in
  r <- CheckAuthToken ;;
  let results := append_if_ok results r in
  r <- CheckBackupRetention ;;
  let results := append_if_ok results r in
  ret (results, None).

Definition checker : Checker :=
  {| checker_Name := "ElastiCache Security"; checker_Run := Run |}.

End Checks.
End ElastiCacheChecks.

Module RedshiftChecks.
Import redshift.

Section Checks.
Context `{Host}.
Variable client : Client.

Definition CheckClusterEncryption_loop (clusters : list Cluster) : M (list string) :=
  for_range clusters (fun cluster unencrypted =>
    let clusterID := ToString (ClusterIdentifier cluster) in
    if negb (ToBool (Encrypted cluster))
    then ret (unencrypted ++ [clusterID])
    else ret unencrypted) [].

Definition CheckClusterEncryption : M (result CheckResult) :=
  clusters <- DescribeClusters client ;;
  match clusters with
  | Err err => ret (Err err)
  | Ok clusters =>
    unencrypted <- CheckClusterEncryption_loop (Clusters clusters) ;;
    if len unencrypted >? 0 then
      now <- time_Now ;;
      ret (Ok {|
        Control := "CC6.3";
        Name := "Redshift Cluster Encryption";
        Status := "FAIL";
        Severity := "CRITICAL";
        Evidence := fmt_d (len unencrypted) +:+ " Redshift clusters NOT encrypted: " +:+ fmt_v unencrypted;
        Remediation := "Enable encryption for Redshift clusters";
        RemediationDetail := "1. Create snapshot of unencrypted cluster" +:+ nl +:+ "2. Restore snapshot with encryption enabled" +:+ nl +:+ "3. Update applications to use new endpoint" +:+ nl +:+ "4. Delete unencrypted cluster";
        ScreenshotGuide := "Redshift Console → Clusters → Select cluster → Properties → Screenshot showing 'Encrypted: Yes'";
        ConsoleURL := "https://console.aws.amazon.com/redshiftv2/home#clusters";
        Priority := PriorityCritical;
        Timestamp := now;
        Frameworks := GetFrameworkMappings "REDSHIFT_ENCRYPTION" |})
    else if len (Clusters clusters) =? 0 then
      now <- time_Now ;;
      ret (Ok {|
        Control := "CC6.3";
        Name := "Redshift Cluster Encryption";
        Status := "PASS";
        Severity := EmptyString;
        Evidence := "No Redshift clusters found";
        Remediation := EmptyString;
        RemediationDetail := EmptyString;
        ScreenshotGuide := EmptyString;
        ConsoleURL := EmptyString;
        Priority := PriorityInfo;
        Timestamp := now;
        Frameworks := GetFrameworkMappings "REDSHIFT_ENCRYPTION" |})
    else
      now <- time_Now ;;
      ret (Ok {|
        Control := "CC6.3";
        Name := "Redshift Cluster Encryption";
        Status := "PASS";
        Severity := EmptyString;
        Evidence := "All " +:+ fmt_d (len (Clusters clusters)) +:+ " Redshift clusters are encrypted";
        Remediation := EmptyString;
        RemediationDetail := EmptyString;
        ScreenshotGuide := EmptyString;
        ConsoleURL := EmptyString;
        Priority := PriorityInfo;
        Timestamp := now;
        Frameworks := GetFrameworkMappings "REDSHIFT_ENCRYPTION" |})
  end.

Definition CheckClusterPublicAccess_loop (clusters : list Cluster) : M (list string) :=
  for_range clusters (fun cluster publicClusters =>
    let clusterID := ToString (ClusterIdentifier cluster) in
    if ToBool (PubliclyAccessible cluster)
    then ret (publicClusters ++ [clusterID])
    else ret publicClusters) [].

Definition CheckClusterPublicAccess : M (result CheckResult) :=
  clusters <- DescribeClusters client ;;
  match clusters with
  | Err err => ret (Err err)
  | Ok clusters =>
    publicClusters <- CheckClusterPublicAccess_loop (Clusters clusters) ;;
    if len publicClusters >? 0 then
      now <- time_Now ;;
      ret (Ok {|
        Control := "CC6.1";
        Name := "Redshift Public Access";
        Status := "FAIL";
        Severity := "CRITICAL";
        Evidence := fmt_d (len publicClusters) +:+ " Redshift clusters are publicly accessible: " +:+ fmt_v publicClusters;
        Remediation := "Disable public accessibility for Redshift clusters";
        RemediationDetail := "aws redshift modify-cluster --cluster-identifier [CLUSTER_ID] --no-publicly-accessible";
        ScreenshotGuide := "Redshift Console → Clusters → Select cluster → Properties → Screenshot showing 'Publicly accessible: No'";
        ConsoleURL := "https://console.aws.amazon.com/redshiftv2/home#clusters";
        Priority := PriorityCritical;
        Timestamp := now;
        Frameworks := GetFrameworkMappings "REDSHIFT_NETWORK" |})
    else if len (Clusters clusters) =? 0 then
      now <- time_Now ;;
      ret (Ok {|
        Control := "CC6.1";
        Name := "Redshift Public Access";
        Status := "PASS";
        Severity := EmptyString;
        Evidence := "No Redshift clusters found";
        Remediation := EmptyString;
        RemediationDetail := EmptyString;
        ScreenshotGuide := EmptyString;
        ConsoleURL := EmptyString;
        Priority := PriorityInfo;
        Timestamp := now;
        Frameworks := GetFrameworkMappings "REDSHIFT_NETWORK" |})
    else
      now <- time_Now ;;
      ret (Ok {|
        Control := "CC6.1";
        Name := "Redshift Public Access";
        Status := "PASS";
        Severity := EmptyString;
        Evidence := "All " +:+ fmt_d (len (Clusters clusters)) +:+ " Redshift clusters are private (not publicly accessible)";
        Remediation := EmptyString;
        RemediationDetail := EmptyString;
        ScreenshotGuide := EmptyString;
        ConsoleURL := EmptyString;
        Priority := PriorityInfo;
        Timestamp := now;
        Frameworks := GetFrameworkMappings "REDSHIFT_NETWORK" |})
  end.

Definition CheckClusterLogging_loop (clusters : list Cluster) : M (list string) :=
  for_range clusters (fun cluster noLogging =>
    let clusterID := ToString (ClusterIdentifier cluster) in
    logging <- DescribeLoggingStatus client (ClusterIdentifier cluster) ;;
    if match logging with
       | Err _ => true
       | Ok logging => negb (ToBool (LoggingEnabled logging))
       end
    then ret (noLogging ++ [clusterID])
    else ret noLogging) [].

Definition CheckClusterLogging : M (result CheckResult) :=
  clusters <- DescribeClusters client ;;
  match clusters with
  | Err err => ret (Err err)
  | Ok clusters =>
    noLogging <- CheckClusterLogging_loop (Clusters clusters) ;;
    if len noLogging >? 0 then
      now <- time_Now ;;
      ret (Ok {|
        Control := "CC7.1";
        Name := "Redshift Audit Logging";
        Status := "FAIL";
        Severity := "HIGH";
        Evidence := fmt_d (len noLogging) +:+ " Redshift clusters without audit logging: " +:+ fmt_v noLogging;
        Remediation := "Enable audit logging for Redshift clusters";
        RemediationDetail := "aws redshift enable-logging --cluster-identifier [CLUSTER_ID] --bucket-name [S3_BUCKET] --s3-key-prefix 'redshift-logs/'";
        ScreenshotGuide := "Redshift Console → Clusters → Select cluster → Properties → Audit logging → Screenshot showing 'Enabled'";
        ConsoleURL := "https://console.aws.amazon.com/redshiftv2/home#clusters";
        Priority := PriorityHigh;
        Timestamp := now;
        Frameworks := GetFrameworkMappings "REDSHIFT_LOGGING" |})
    else if len (Clusters clusters) =? 0 then
      now <- time_Now ;;
      ret (Ok {|
        Control := "CC7.1";
        Name := "Redshift Audit Logging";
        Status := "PASS";
        Severity := EmptyString;
        Evidence := "No Redshift clusters found";
        Remediation := EmptyString;
        RemediationDetail := EmptyString;
        ScreenshotGuide := EmptyString;
        ConsoleURL := EmptyString;
        Priority := PriorityInfo;
        Timestamp := now;
        Frameworks := GetFrameworkMappings "REDSHIFT_LOGGING" |})
    else
      now <- time_Now ;;
      ret (Ok {|
        Control := "CC7.1";
        Name := "Redshift Audit Logging";
        Status := "PASS";
        Severity := EmptyString;
        Evidence := "All " +:+ fmt_d (len (Clusters clusters)) +:+ " Redshift clusters have audit logging enabled";
        Remediation := EmptyString;
        RemediationDetail := EmptyString;
        ScreenshotGuide := EmptyString;
        ConsoleURL := EmptyString;
        Priority := PriorityInfo;
        Timestamp := now;
        Frameworks := GetFrameworkMappings "REDSHIFT_LOGGING" |})
  end.

Definition CheckClusterSSL_loop (clusters : list Cluster) : M (list string) :=
  for_range clusters (fun cluster noSSL =>
    let clusterID := ToString (ClusterIdentifier cluster) in
    for_range (ClusterParameterGroups cluster) (fun pg noSSL =>
      let pgName := ToString (ParameterGroupName pg) in
      params <- DescribeClusterParameters client (Some pgName) ;;
      match params with
      | Err _ => ret noSSL
      | Ok params =>
        let sslRequired :=
          existsb (fun param =>
                     String.eqb (ToString (ParameterName param)) "require_ssl"
                     && String.eqb (ToString (ParameterValue param)) "true")
                  (Parameters params) in
        if negb sslRequired
        then ret (noSSL ++ [clusterID])
        else ret noSSL
      end) noSSL) [].

Definition CheckClusterSSL : M (result CheckResult) :=
  clusters <- DescribeClusters client ;;
  match clusters with
  | Err err => ret (Err err)
  | Ok clusters =>
    noSSL <- CheckClusterSSL_loop (Clusters clusters) ;;
    if len noSSL >? 0 then
      now <- time_Now ;;
      ret (Ok {|
        Control := "CC6.4";
        Name := "Redshift SSL Required";
        Status := "FAIL";
        Severity := "HIGH";
        Evidence := fmt_d (len noSSL) +:+ " Redshift clusters do not require SSL: " +:+ fmt_v noSSL;
        Remediation := "Enable require_ssl parameter for Redshift clusters";
        RemediationDetail := "1. Create/modify parameter group with require_ssl=true" +:+ nl +:+ "2. Associate parameter group with cluster" +:+ nl +:+ "3. Reboot cluster to apply changes";
        ScreenshotGuide := "Redshift Console → Parameter groups → Select group → Parameters → Screenshot showing 'require_ssl: true'";
        ConsoleURL := "https://console.aws.amazon.com/redshiftv2/home#parameter-groups";
        Priority := PriorityHigh;
        Timestamp := now;
        Frameworks := GetFrameworkMappings "REDSHIFT_SSL" |})
    else if len (Clusters clusters) =? 0 then
      now <- time_Now ;;
      ret (Ok {|
        Control := "CC6.4";
        Name := "Redshift SSL Required";
        Status := "PASS";
        Severity := EmptyString;
        Evidence := "No Redshift clusters found";
        Remediation := EmptyString;
        RemediationDetail := EmptyString;
        ScreenshotGuide := EmptyString;
        ConsoleURL := EmptyString;
        Priority := PriorityInfo;
        Timestamp := now;
        Frameworks := GetFrameworkMappings "REDSHIFT_SSL" |})
    else
      now <- time_Now ;;
      ret (Ok {|
        Control := "CC6.4";
        Name := "Redshift SSL Required";
        Status := "PASS";
        Severity := EmptyString;
        Evidence := "All " +:+ fmt_d (len (Clusters clusters)) +:+ " Redshift clusters require SSL connections";
        Remediation := EmptyString;
        RemediationDetail := EmptyString;
        ScreenshotGuide := EmptyString;
        ConsoleURL := EmptyString;
        Priority := PriorityInfo;
        Timestamp := now;
        Frameworks := GetFrameworkMappings "REDSHIFT_SSL" |})
  end.

Definition CheckClusterVersionUpgrade_loop (clusters : list Cluster) : M (list string) :=
  for_range clusters (fun cluster noAutoUpgrade =>
    let clusterID := ToString (ClusterIdentifier cluster) in
    if negb (ToBool (AllowVersionUpgrade cluster))
    then ret (noAutoUpgrade ++ [clusterID])
    else ret noAutoUpgrade) [].

Definition CheckClusterVersionUpgrade : M (result CheckResult) :=
  clusters <- DescribeClusters client ;;
  match clusters with
  | Err err => ret (Err err)
  | Ok clusters =>
    noAutoUpgrade <- CheckClusterVersionUpgrade_loop (Clusters clusters) ;;
    if len noAutoUpgrade >? 0 then
      now <- time_Now ;;
      ret (Ok {|
        Control := "CC7.5";
        Name := "Redshift Auto Version Upgrade";
        Status := "FAIL";
        Severity := "MEDIUM";
        Evidence := fmt_d (len noAutoUpgrade) +:+ " Redshift clusters have auto version upgrade disabled: " +:+ fmt_v noAutoUpgrade;
        Remediation := "Enable automatic version upgrades for Redshift clusters";
        RemediationDetail := "aws redshift modify-cluster --cluster-identifier [CLUSTER_ID] --allow-version-upgrade";
        ScreenshotGuide := "Redshift Console → Clusters → Select cluster → Maintenance → Screenshot showing 'Allow version upgrade: Yes'";
        ConsoleURL := "https://console.aws.amazon.com/redshiftv2/home#clusters";
        Priority := PriorityMedium;
        Timestamp := now;
        Frameworks := GetFrameworkMappings "REDSHIFT_PATCHING" |})
    else if len (Clusters clusters) =? 0 then
      now <- time_Now ;;
      ret (Ok {|
        Control := "CC7.5";
        Name := "Redshift Auto Version Upgrade";
        Status := "PASS";
        Severity := EmptyString;
        Evidence := "No Redshift clusters found";
        Remediation := EmptyString;
        RemediationDetail := EmptyString;
        ScreenshotGuide := EmptyString;
        ConsoleURL := EmptyString;
        Priority := PriorityInfo;
        Timestamp := now;
        Frameworks := GetFrameworkMappings "REDSHIFT_PATCHING" |})
    else
      now <- time_Now ;;
      ret (Ok {|
        Control := "CC7.5";
        Name := "Redshift Auto Version Upgrade";
        Status := "PASS";
        Severity := EmptyString;
        Evidence := "All " +:+ fmt_d (len (Clusters clusters)) +:+ " Redshift clusters have auto version upgrade enabled";
        Remediation := EmptyString;
        RemediationDetail := EmptyString;
        ScreenshotGuide := EmptyString;
        ConsoleURL := EmptyString;
        Priority := PriorityInfo;
        Timestamp := now;
        Frameworks := GetFrameworkMappings "REDSHIFT_PATCHING" |})
  end.

Definition CheckClusterBackupRetention_loop (clusters : list Cluster) : M (list string) :=
  for_range clusters (fun cluster lowRetention =>
    let clusterID := ToString (ClusterIdentifier cluster) in
    match AutomatedSnapshotRetentionPeriod cluster with
    | Some period =>
      if period <? 7
      then ret (lowRetention ++ [clusterID +:+ " (" +:+ fmt_d period +:+ " days)"])
      else ret lowRetention
    | None => ret lowRetention
    end) [].

Definition CheckClusterBackupRetention : M (result CheckResult) :=
  clusters <- DescribeClusters client ;;
  match clusters with
  | Err err => ret (Err err)
  | Ok clusters =>
    lowRetention <- CheckClusterBackupRetention_loop (Clusters clusters) ;;
    if len lowRetention >? 0 then
      now <- time_Now ;;
      ret (Ok {|
        Control := "A1.2";
        Name := "Redshift Backup Retention";
        Status := "FAIL";
        Severity := "MEDIUM";
        Evidence := fmt_d (len lowRetention) +:+ " Redshift clusters with backup retention < 7 days: " +:+ fmt_v lowRetention;
        Remediation := "Increase automated snapshot retention period to at least 7 days";
        RemediationDetail := "aws redshift modify-cluster --cluster-identifier [CLUSTER_ID] --automated-snapshot-retention-period 7";
        ScreenshotGuide := "Redshift Console → Clusters → Select cluster → Backup → Screenshot showing retention period >= 7 days";
        ConsoleURL := "https://console.aws.amazon.com/redshiftv2/home#clusters";
        Priority := PriorityMedium;
        Timestamp := now;
        Frameworks := GetFrameworkMappings "REDSHIFT_BACKUP" |})
    else if len (Clusters clusters) =? 0 then
      now <- time_Now ;;
      ret (Ok {|
        Control := "A1.2";
        Name := "Redshift Backup Retention";
        Status := "PASS";
        Severity := EmptyString;
        Evidence := "No Redshift clusters found";
        Remediation := EmptyString;
        RemediationDetail := EmptyString;
        ScreenshotGuide := EmptyString;
        ConsoleURL := EmptyString;
        Priority := PriorityInfo;
        Timestamp := now;
        Frameworks := GetFrameworkMappings "REDSHIFT_BACKUP" |})
    else
      now <- time_Now ;;
      ret (Ok {|
        Control := "A1.2";
        Name := "Redshift Backup Retention";
        Status := "PASS";
        Severity := EmptyString;
        Evidence := "All " +:+ fmt_d (len (Clusters clusters)) +:+ " Redshift clusters have adequate backup retention (>= 7 days)";
        Remediation := EmptyString;
        RemediationDetail := EmptyString;
        ScreenshotGuide := EmptyString;
        ConsoleURL := EmptyString;
        Priority := PriorityInfo;
        Timestamp := now;
        Frameworks := GetFrameworkMappings "REDSHIFT_BACKUP" |})
  end.

Definition CheckClusterEnhancedVPCRouting_loop (clusters : list Cluster) : M (list string) :=
  for_range clusters (fun cluster noEnhancedRouting =>
    let clusterID := ToString (ClusterIdentifier cluster) in
    if negb (ToBool (EnhancedVpcRouting cluster))
    then ret (noEnhancedRouting ++ [clusterID])
    else ret noEnhancedRouting) [].

Definition CheckClusterEnhancedVPCRouting : M (result CheckResult) :=
  clusters <- DescribeClusters client ;;
  match clusters with
  | Err err => ret (Err err)
  | Ok clusters =>
    noEnhancedRouting <- CheckClusterEnhancedVPCRouting_loop (Clusters clusters) ;;
    if len noEnhancedRouting >? 0 then
      now <- time_Now ;;
      ret (Ok {|
        Control := "CC6.1";
        Name := "Redshift Enhanced VPC Routing";
        Status := "FAIL";
        Severity := "MEDIUM";
        Evidence := fmt_d (len noEnhancedRouting) +:+ " Redshift clusters without enhanced VPC routing: " +:+ fmt_v noEnhancedRouting;
        Remediation := "Enable enhanced VPC routing for better network security";
        RemediationDetail := "aws redshift modify-cluster --cluster-identifier [CLUSTER_ID] --enhanced-vpc-routing" +:+ nl +:+ "Note: This causes brief cluster unavailability";
        ScreenshotGuide := "Redshift Console → Clusters → Select cluster → Properties → Network → Screenshot showing 'Enhanced VPC routing: Enabled'";
        ConsoleURL := "https://console.aws.amazon.com/redshiftv2/home#clusters";
        Priority := PriorityMedium;
        Timestamp := now;
        Frameworks := GetFrameworkMappings "REDSHIFT_NETWORK" |})
    else if len (Clusters clusters) =? 0 then
      now <- time_Now ;;
      ret (Ok {|
        Control := "CC6.1";
        Name := "Redshift Enhanced VPC Routing";
        Status := "PASS";
        Severity := EmptyString;
        Evidence := "No Redshift clusters found";
        Remediation := EmptyString;
        RemediationDetail := EmptyString;
        ScreenshotGuide := EmptyString;
        ConsoleURL := EmptyString;
        Priority := PriorityInfo;
        Timestamp := now;
        Frameworks := GetFrameworkMappings "REDSHIFT_NETWORK" |})
    else
      now <- time_Now ;;
      ret (Ok {|
        Control := "CC6.1";
        Name := "Redshift Enhanced VPC Routing";
        Status := "PASS";
        Severity := EmptyString;
        Evidence := "All " +:+ fmt_d (len (Clusters clusters)) +:+ " Redshift clusters have enhanced VPC routing enabled";
        Remediation := EmptyString;
        RemediationDetail := EmptyString;
        ScreenshotGuide := EmptyString;
        ConsoleURL := EmptyString;
        Priority := PriorityInfo;
        Timestamp := now;
        Frameworks := GetFrameworkMappings "REDSHIFT_NETWORK" |})
  end.

Definition Run : M (list CheckResult * option error) :=
  let results := [] in
  r <- CheckClusterEncryption ;;
  let results := append_if_ok results r in
  r <- CheckClusterPublicAccess ;;
  let results := append_if_ok results r in
  r <- CheckClusterLogging ;;
  let results := append_if_ok results r in
  r <- CheckClusterSSL ;;
  let results := append_if_ok results r in
  r <- CheckClusterVersionUpgrade ;;
  let results := append_if_ok results r in
  r <- CheckClusterBackupRetention ;;
  let results := append_if_ok results r in
  r <- CheckClusterEnhancedVPCRouting ;;
  let results := append_if_ok results r in
  ret (results, None).

Definition checker : Checker :=
  {| checker_Name := "Redshift Data Warehouse Security"; checker_Run := Run |}.

End Checks.
End RedshiftChecks.

(** ** The corpus of leaf checks *)

Record AWS `{Host} : Type := {
  opensearch_client : opensearch.Client;
  sagemaker_client : sagemaker.Client;
  elasticache_client : elasticache.Client;
  redshift_client : redshift.Client
}.

Inductive Leaf : Type :=
| OpenSearch_EncryptionAtRest
| OpenSearch_NodeToNodeEncryption
| OpenSearch_HTTPS
| OpenSearch_VPCDeployment
| OpenSearch_AuditLogs
| OpenSearch_FineGrainedAccessControl
| SageMaker_NotebookEncryption
| SageMaker_NotebookDirectInternet
| SageMaker_NotebookRootAccess
| SageMaker_EndpointEncryption
| SageMaker_TrainingJobEncryption
| SageMaker_ModelNetworkIsolation
| ElastiCache_EncryptionAtRest
| ElastiCache_EncryptionInTransit
| ElastiCache_AutoMinorVersionUpgrade
| ElastiCache_AuthToken
| ElastiCache_BackupRetention
| Redshift_ClusterEncryption
| Redshift_ClusterPublicAccess
| Redshift_ClusterLogging
| Redshift_ClusterSSL
| Redshift_ClusterVersionUpgrade
| Redshift_ClusterBackupRetention
| Redshift_ClusterEnhancedVPCRouting.

Definition all_leaves : list Leaf :=
  [ OpenSearch_EncryptionAtRest; OpenSearch_NodeToNodeEncryption; OpenSearch_HTTPS;
    OpenSearch_VPCDeployment; OpenSearch_AuditLogs; OpenSearch_FineGrainedAccessControl;
    SageMaker_NotebookEncryption; SageMaker_NotebookDirectInternet;
    SageMaker_NotebookRootAccess; SageMaker_EndpointEncryption;
    SageMaker_TrainingJobEncryption; SageMaker_ModelNetworkIsolation;
    ElastiCache_EncryptionAtRest; ElastiCache_EncryptionInTransit;
    ElastiCache_AutoMinorVersionUpgrade; ElastiCache_AuthToken; ElastiCache_BackupRetention;
    Redshift_ClusterEncryption; Redshift_ClusterPublicAccess; Redshift_ClusterLogging;
    Redshift_ClusterSSL; Redshift_ClusterVersionUpgrade; Redshift_ClusterBackupRetention;
    Redshift_ClusterEnhancedVPCRouting ].

Section Corpus.
Context `{Host}.
Variable aws : AWS.

(** The check a leaf names. *)
Definition run_leaf (leaf : Leaf) : M (result CheckResult) :=
  match leaf with
  | OpenSearch_EncryptionAtRest => OpenSearchChecks.CheckEncryptionAtRest (opensearch_client aws)
  | OpenSearch_NodeToNodeEncryption => OpenSearchChecks.CheckNodeToNodeEncryption (opensearch_client aws)
  | OpenSearch_HTTPS => OpenSearchChecks.CheckHTTPS (opensearch_client aws)
  | OpenSearch_VPCDeployment => OpenSearchChecks.CheckVPCDeployment (opensearch_client aws)
  | OpenSearch_AuditLogs => OpenSearchChecks.CheckAuditLogs (opensearch_client aws)
  | OpenSearch_FineGrainedAccessControl => OpenSearchChecks.CheckFineGrainedAccessControl (opensearch_client aws)
  | SageMaker_NotebookEncryption => SageMakerChecks.CheckNotebookEncryption (sagemaker_client aws)
  | SageMaker_NotebookDirectInternet => SageMakerChecks.CheckNotebookDirectInternet (sagemaker_client aws)
  | SageMaker_NotebookRootAccess => SageMakerChecks.CheckNotebookRootAccess (sagemaker_client aws)
  | SageMaker_EndpointEncryption => SageMakerChecks.CheckEndpointEncryption (sagemaker_client aws)
  | SageMaker_TrainingJobEncryption => SageMakerChecks.CheckTrainingJobEncryption (sagemaker_client aws)
  | SageMaker_ModelNetworkIsolation => SageMakerChecks.CheckModelNetworkIsolation (sagemaker_client aws)
  | ElastiCache_EncryptionAtRest => ElastiCacheChecks.CheckEncryptionAtRest (elasticache_client aws)
  | ElastiCache_EncryptionInTransit => ElastiCacheChecks.CheckEncryptionInTransit (elasticache_client aws)
  | ElastiCache_AutoMinorVersionUpgrade => ElastiCacheChecks.CheckAutoMinorVersionUpgrade (elasticache_client aws)
  | ElastiCache_AuthToken => ElastiCacheChecks.CheckAuthToken (elasticache_client aws)
  | ElastiCache_BackupRetention => ElastiCacheChecks.CheckBackupRetention (elasticache_client aws)
  | Redshift_ClusterEncryption => RedshiftChecks.CheckClusterEncryption (redshift_client aws)
  | Redshift_ClusterPublicAccess => RedshiftChecks.CheckClusterPublicAccess (redshift_client aws)
  | Redshift_ClusterLogging => RedshiftChecks.CheckClusterLogging (redshift_client aws)
  | Redshift_ClusterSSL => RedshiftChecks.CheckClusterSSL (redshift_client aws)
  | Redshift_ClusterVersionUpgrade => RedshiftChecks.CheckClusterVersionUpgrade (redshift_client aws)
  | Redshift_ClusterBackupRetention => RedshiftChecks.CheckClusterBackupRetention (redshift_client aws)
  | Redshift_ClusterEnhancedVPCRouting => RedshiftChecks.CheckClusterEnhancedVPCRouting (redshift_client aws)
  end.

(** The identifiers of the resources a list call answers with. *)
Definition identifiers {R X : Type} (call : M (result R)) (items : R -> list X)
    (id : X -> option string) : M (result (list (option string))) :=
  r <- call ;;
  match r with
  | Err err => ret (Err err)
  | Ok r => ret (Ok (map id (items r)))
  end.

(** The list call with which a leaf discovers its resources. *)
Definition leaf_listing (leaf : Leaf) : M (result (list (option string))) :=
  match leaf with
  | OpenSearch_EncryptionAtRest | OpenSearch_NodeToNodeEncryption | OpenSearch_HTTPS
  | OpenSearch_VPCDeployment | OpenSearch_AuditLogs | OpenSearch_FineGrainedAccessControl =>
      identifiers (opensearch.ListDomainNames (opensearch_client aws))
        opensearch.DomainNames opensearch.DomainName
  | SageMaker_NotebookEncryption | SageMaker_NotebookDirectInternet
  | SageMaker_NotebookRootAccess =>
      identifiers (sagemaker.ListNotebookInstances (sagemaker_client aws))
        sagemaker.NotebookInstances sagemaker.NotebookInstanceName
  | SageMaker_EndpointEncryption =>
      identifiers (sagemaker.ListEndpoints (sagemaker_client aws))
        sagemaker.Endpoints sagemaker.EndpointName
  | SageMaker_TrainingJobEncryption =>
      identifiers (sagemaker.ListTrainingJobs (sagemaker_client aws))
        sagemaker.TrainingJobSummaries sagemaker.TrainingJobName
  | SageMaker_ModelNetworkIsolation =>
      identifiers (sagemaker.ListModels (sagemaker_client aws))
        sagemaker.Models sagemaker.ModelName
  | ElastiCache_EncryptionAtRest | ElastiCache_EncryptionInTransit
  | ElastiCache_AutoMinorVersionUpgrade =>
      identifiers (elasticache.DescribeCacheClusters (elasticache_client aws))
        elasticache.CacheClusters elasticache.CacheClusterId
  | ElastiCache_AuthToken | ElastiCache_BackupRetention =>
      identifiers (elasticache.DescribeReplicationGroups (elasticache_client aws))
        elasticache.ReplicationGroups elasticache.ReplicationGroupId
  | Redshift_ClusterEncryption | Redshift_ClusterPublicAccess | Redshift_ClusterLogging
  | Redshift_ClusterSSL | Redshift_ClusterVersionUpgrade | Redshift_ClusterBackupRetention
  | Redshift_ClusterEnhancedVPCRouting =>
      identifiers (redshift.DescribeClusters (redshift_client aws))
        redshift.Clusters redshift.ClusterIdentifier
  end.

(** The list call of a check followed by its collecting loop. *)
Definition collect {R X : Type} (call : M (result R)) (items : R -> list X)
    (loop : list X -> M (list string)) : M (result (list string)) :=
  r <- call ;;
  match r with
  | Err err => ret (Err err)
  | Ok r => violators <- loop (items r) ;; ret (Ok violators)
  end.

(** The violating resources a leaf collects: what its loop leaves in
    [unencrypted], [noHTTPS], [lowRetention], ... *)
Definition leaf_violators (leaf : Leaf) : M (result (list string)) :=
  let os := opensearch_client aws in
  let sm := sagemaker_client aws in
  let ec := elasticache_client aws in
  let rs := redshift_client aws in
  match leaf with
  | OpenSearch_EncryptionAtRest =>
      collect (opensearch.ListDomainNames os) opensearch.DomainNames
        (OpenSearchChecks.CheckEncryptionAtRest_loop os)
  | OpenSearch_NodeToNodeEncryption =>
      collect (opensearch.ListDomainNames os) opensearch.DomainNames
        (OpenSearchChecks.CheckNodeToNodeEncryption_loop os)
  | OpenSearch_HTTPS =>
      collect (opensearch.ListDomainNames os) opensearch.DomainNames
        (OpenSearchChecks.CheckHTTPS_loop os)
  | OpenSearch_VPCDeployment =>
      collect (opensearch.ListDomainNames os) opensearch.DomainNames
        (OpenSearchChecks.CheckVPCDeployment_loop os)
  | OpenSearch_AuditLogs =>
      collect (opensearch.ListDomainNames os) opensearch.DomainNames
        (OpenSearchChecks.CheckAuditLogs_loop os)
  | OpenSearch_FineGrainedAccessControl =>
      collect (opensearch.ListDomainNames os) opensearch.DomainNames
        (OpenSearchChecks.CheckFineGrainedAccessControl_loop os)
  | SageMaker_NotebookEncryption =>
      collect (sagemaker.ListNotebookInstances sm) sagemaker.NotebookInstances
        (SageMakerChecks.CheckNotebookEncryption_loop sm)
  | SageMaker_NotebookDirectInternet =>
      collect (sagemaker.ListNotebookInstances sm) sagemaker.NotebookInstances
        (SageMakerChecks.CheckNotebookDirectInternet_loop sm)
  | SageMaker_NotebookRootAccess =>
      collect (sagemaker.ListNotebookInstances sm) sagemaker.NotebookInstances
        (SageMakerChecks.CheckNotebookRootAccess_loop sm)
  | SageMaker_EndpointEncryption =>
      collect (sagemaker.ListEndpoints sm) sagemaker.Endpoints
        (SageMakerChecks.CheckEndpointEncryption_loop sm)
  | SageMaker_TrainingJobEncryption =>
      collect (sagemaker.ListTrainingJobs sm) sagemaker.TrainingJobSummaries
        (SageMakerChecks.CheckTrainingJobEncryption_loop sm)
  | SageMaker_ModelNetworkIsolation =>
      collect (sagemaker.ListModels sm) sagemaker.Models
        (SageMakerChecks.CheckModelNetworkIsolation_loop sm)
  | ElastiCache_EncryptionAtRest =>
      collect (elasticache.DescribeCacheClusters ec) elasticache.CacheClusters
        (ElastiCacheChecks.CheckEncryptionAtRest_loop)
  | ElastiCache_EncryptionInTransit =>
      collect (elasticache.DescribeCacheClusters ec) elasticache.CacheClusters
        (ElastiCacheChecks.CheckEncryptionInTransit_loop)
  | ElastiCache_AutoMinorVersionUpgrade =>
      collect (elasticache.DescribeCacheClusters ec) elasticache.CacheClusters
        (ElastiCacheChecks.CheckAutoMinorVersionUpgrade_loop)
  | ElastiCache_AuthToken =>
      collect (elasticache.DescribeReplicationGroups ec) elasticache.ReplicationGroups
        (ElastiCacheChecks.CheckAuthToken_loop)
  | ElastiCache_BackupRetention =>
      collect (elasticache.DescribeReplicationGroups ec) elasticache.ReplicationGroups
        (ElastiCacheChecks.CheckBackupRetention_loop)
  | Redshift_ClusterEncryption =>
      collect (redshift.DescribeClusters rs) redshift.Clusters
        (RedshiftChecks.CheckClusterEncryption_loop)
  | Redshift_ClusterPublicAccess =>
      collect (redshift.DescribeClusters rs) redshift.Clusters
        (RedshiftChecks.CheckClusterPublicAccess_loop)
  | Redshift_ClusterLogging =>
      collect (redshift.DescribeClusters rs) redshift.Clusters
        (RedshiftChecks.CheckClusterLogging_loop rs)
  | Redshift_ClusterSSL =>
      collect (redshift.DescribeClusters rs) redshift.Clusters
        (RedshiftChecks.CheckClusterSSL_loop rs)
  | Redshift_ClusterVersionUpgrade =>
      collect (redshift.DescribeClusters rs) redshift.Clusters
        (RedshiftChecks.CheckClusterVersionUpgrade_loop)
  | Redshift_ClusterBackupRetention =>
      collect (redshift.DescribeClusters rs) redshift.Clusters
        (RedshiftChecks.CheckClusterBackupRetention_loop)
  | Redshift_ClusterEnhancedVPCRouting =>
      collect (redshift.DescribeClusters rs) redshift.Clusters
        (RedshiftChecks.CheckClusterEnhancedVPCRouting_loop)
  end.

End Corpus.

(** The resource type a leaf inspects, as its evidence names it. *)
Definition resource_type (leaf : Leaf) : string :=
  match leaf with
  | OpenSearch_EncryptionAtRest | OpenSearch_NodeToNodeEncryption | OpenSearch_HTTPS
  | OpenSearch_VPCDeployment | OpenSearch_AuditLogs | OpenSearch_FineGrainedAccessControl =>
      "OpenSearch domains"
  | SageMaker_NotebookEncryption | SageMaker_NotebookDirectInternet
  | SageMaker_NotebookRootAccess => "SageMaker notebooks"
  | SageMaker_EndpointEncryption => "SageMaker endpoints"
  | SageMaker_TrainingJobEncryption => "SageMaker training jobs"
  | SageMaker_ModelNetworkIsolation => "SageMaker models"
  | ElastiCache_EncryptionAtRest | ElastiCache_EncryptionInTransit
  | ElastiCache_AutoMinorVersionUpgrade => "ElastiCache clusters"
  | ElastiCache_AuthToken | ElastiCache_BackupRetention => "Redis replication groups"
  | Redshift_ClusterEncryption | Redshift_ClusterPublicAccess | Redshift_ClusterLogging
  | Redshift_ClusterSSL | Redshift_ClusterVersionUpgrade | Redshift_ClusterBackupRetention
  | Redshift_ClusterEnhancedVPCRouting => "Redshift clusters"
  end.

(** What a leaf is expected to say when it finds nothing. *)
Definition nothing_found (leaf : Leaf) : string :=
  "No " +:+ resource_type leaf +:+ " found".

(** What the evidence of a failing leaf says between the count and the
    list of violating resources. *)
Definition violation (leaf : Leaf) : string :=
  match leaf with
  | OpenSearch_EncryptionAtRest => " OpenSearch domains without encryption at rest: "
  | OpenSearch_NodeToNodeEncryption => " OpenSearch domains without node-to-node encryption: "
  | OpenSearch_HTTPS => " OpenSearch domains not enforcing HTTPS: "
  | OpenSearch_VPCDeployment => " OpenSearch domains are publicly accessible (not in VPC): "
  | OpenSearch_AuditLogs => " OpenSearch domains without audit logging: "
  | OpenSearch_FineGrainedAccessControl => " OpenSearch domains without fine-grained access control: "
  | SageMaker_NotebookEncryption => " notebooks without KMS encryption: "
  | SageMaker_NotebookDirectInternet => " notebooks have direct internet access enabled: "
  | SageMaker_NotebookRootAccess => " notebooks have root access enabled: "
  | SageMaker_EndpointEncryption => " endpoints without KMS encryption: "
  | SageMaker_TrainingJobEncryption => " training jobs without volume encryption: "
  | SageMaker_ModelNetworkIsolation => " models without network isolation: "
  | ElastiCache_EncryptionAtRest => " ElastiCache clusters without encryption at rest: "
  | ElastiCache_EncryptionInTransit => " ElastiCache clusters without encryption in transit: "
  | ElastiCache_AutoMinorVersionUpgrade => " ElastiCache clusters without auto minor version upgrade: "
  | ElastiCache_AuthToken => " Redis replication groups without AUTH token: "
  | ElastiCache_BackupRetention => " Redis groups with backup retention < 7 days: "
  | Redshift_ClusterEncryption => " Redshift clusters NOT encrypted: "
  | Redshift_ClusterPublicAccess => " Redshift clusters are publicly accessible: "
  | Redshift_ClusterLogging => " Redshift clusters without audit logging: "
  | Redshift_ClusterSSL => " Redshift clusters do not require SSL: "
  | Redshift_ClusterVersionUpgrade => " Redshift clusters have auto version upgrade disabled: "
  | Redshift_ClusterBackupRetention => " Redshift clusters with backup retention < 7 days: "
  | Redshift_ClusterEnhancedVPCRouting => " Redshift clusters without enhanced VPC routing: "
  end.

(** The leaves that pass their list of violating resources through
    [truncateList] before printing it. *)
Definition truncates (leaf : Leaf) : bool :=
  match leaf with
  | SageMaker_TrainingJobEncryption | SageMaker_ModelNetworkIsolation => true
  | _ => false
  end.

(** The list a failing leaf prints, given the violating resources. *)
Definition shown `{Host} (leaf : Leaf) (violators : list string) : list string :=
  if truncates leaf then truncateList violators 5 else violators.

(** How an entry of the list of violating resources names a resource: by
    its identifier, which the retention checks follow with the retention
    found. *)
Definition names_resource (leaf : Leaf) (id entry : string) : Prop :=
  match leaf with
  | ElastiCache_BackupRetention | Redshift_ClusterBackupRetention =>
      exists days : Z, entry = id +:+ " (" +:+ fmt_d days +:+ " days)"
  | _ => entry = id
  end.

(** ** The checkers of the corpus and their [Run] *)

Inductive CheckerId : Type :=
| OpenSearch
| SageMaker
| ElastiCache
| Redshift.

(** The sub-checks of a checker, in the order its [Run] calls them. *)
Definition sub_checks (id : CheckerId) : list Leaf :=
  match id with
  | OpenSearch =>
      [ OpenSearch_EncryptionAtRest; OpenSearch_NodeToNodeEncryption; OpenSearch_HTTPS;
        OpenSearch_VPCDeployment; OpenSearch_AuditLogs; OpenSearch_FineGrainedAccessControl ]
  | SageMaker =>
      [ SageMaker_NotebookEncryption; SageMaker_NotebookDirectInternet;
        SageMaker_NotebookRootAccess; SageMaker_EndpointEncryption;
        SageMaker_TrainingJobEncryption; SageMaker_ModelNetworkIsolation ]
  | ElastiCache =>
      [ ElastiCache_EncryptionAtRest; ElastiCache_EncryptionInTransit;
        ElastiCache_AutoMinorVersionUpgrade; ElastiCache_AuthToken;
        ElastiCache_BackupRetention ]
  | Redshift =>
      [ Redshift_ClusterEncryption; Redshift_ClusterPublicAccess; Redshift_ClusterLogging;
        Redshift_ClusterSSL; Redshift_ClusterVersionUpgrade; Redshift_ClusterBackupRetention;
        Redshift_ClusterEnhancedVPCRouting ]
  end.

(** The method a leaf is in the source. *)
Definition method_name (leaf : Leaf) : string :=
  match leaf with
  | OpenSearch_EncryptionAtRest => "OpenSearchChecks.CheckEncryptionAtRest"
  | OpenSearch_NodeToNodeEncryption => "OpenSearchChecks.CheckNodeToNodeEncryption"
  | OpenSearch_HTTPS => "OpenSearchChecks.CheckHTTPS"
  | OpenSearch_VPCDeployment => "OpenSearchChecks.CheckVPCDeployment"
  | OpenSearch_AuditLogs => "OpenSearchChecks.CheckAuditLogs"
  | OpenSearch_FineGrainedAccessControl => "OpenSearchChecks.CheckFineGrainedAccessControl"
  | SageMaker_NotebookEncryption => "SageMakerChecks.CheckNotebookEncryption"
  | SageMaker_NotebookDirectInternet => "SageMakerChecks.CheckNotebookDirectInternet"
  | SageMaker_NotebookRootAccess => "SageMakerChecks.CheckNotebookRootAccess"
  | SageMaker_EndpointEncryption => "SageMakerChecks.CheckEndpointEncryption"
  | SageMaker_TrainingJobEncryption => "SageMakerChecks.CheckTrainingJobEncryption"
  | SageMaker_ModelNetworkIsolation => "SageMakerChecks.CheckModelNetworkIsolation"
  | ElastiCache_EncryptionAtRest => "ElastiCacheChecks.CheckEncryptionAtRest"
  | ElastiCache_EncryptionInTransit => "ElastiCacheChecks.CheckEncryptionInTransit"
  | ElastiCache_AutoMinorVersionUpgrade => "ElastiCacheChecks.CheckAutoMinorVersionUpgrade"
  | ElastiCache_AuthToken => "ElastiCacheChecks.CheckAuthToken"
  | ElastiCache_BackupRetention => "ElastiCacheChecks.CheckBackupRetention"
  | Redshift_ClusterEncryption => "RedshiftChecks.CheckClusterEncryption"
  | Redshift_ClusterPublicAccess => "RedshiftChecks.CheckClusterPublicAccess"
  | Redshift_ClusterLogging => "RedshiftChecks.CheckClusterLogging"
  | Redshift_ClusterSSL => "RedshiftChecks.CheckClusterSSL"
  | Redshift_ClusterVersionUpgrade => "RedshiftChecks.CheckClusterVersionUpgrade"
  | Redshift_ClusterBackupRetention => "RedshiftChecks.CheckClusterBackupRetention"
  | Redshift_ClusterEnhancedVPCRouting => "RedshiftChecks.CheckClusterEnhancedVPCRouting"
  end.

(** The results a sequence of outcomes contributes, and the failures it
    hides: the (name, error) pairs of the checks that could not run. *)
Fixpoint successes (outcomes : list (result CheckResult)) : list CheckResult :=
  match outcomes with
  | [] => []
  | Ok r :: rest => r :: successes rest
  | Err _ :: rest => successes rest
  end.

Fixpoint omissions (leaves : list Leaf) (outcomes : list (result CheckResult))
    : list (string * error) :=
  match leaves, outcomes with
  | leaf :: leaves', Err e :: rest => (method_name leaf, e) :: omissions leaves' rest
  | _ :: leaves', Ok _ :: rest => omissions leaves' rest
  | _, _ => []
  end.

Definition is_failure {A : Type} (r : result A) : bool :=
  match r with Ok _ => false | Err _ => true end.

Section Checkers.
Context `{Host}.

Definition checker_of (aws : AWS) (id : CheckerId) : Checker :=
  match id with
  | OpenSearch => OpenSearchChecks.checker (opensearch_client aws)
  | SageMaker => SageMakerChecks.checker (sagemaker_client aws)
  | ElastiCache => ElastiCacheChecks.checker (elasticache_client aws)
  | Redshift => RedshiftChecks.checker (redshift_client aws)
  end.

(** The checks of a list run one after the other, every outcome kept. *)
Fixpoint run_all (checks : list (M (result CheckResult)))
    : M (list (result CheckResult)) :=
  match checks with
  | [] => ret []
  | check :: rest => r <- check ;; rs <- run_all rest ;; ret (r :: rs)
  end.

(** What each sub-check of a checker answers when the checker runs. *)
Definition outcomes (aws : AWS) (id : CheckerId) : M (list (result CheckResult)) :=
  run_all (map (run_leaf aws) (sub_checks id)).

(** The reading of "the omission is surfaced": what [Run] returns
    determines the (name, error) pairs of the sub-checks that failed. *)
Definition surfaces_omissions (id : CheckerId) : Prop :=
  exists report : list CheckResult * option error -> list (string * error),
    forall (aws : AWS) (w : World),
      report (fst (checker_Run (checker_of aws id) w))
      = omissions (sub_checks id) (fst (outcomes aws id w)).

(** Modelled from the spec: the Runner of section 4.1, which is not among
    the sources. It invokes each Checker in order and returns the
    concatenation of the successful results; a Checker that returns an error
    contributes no result and is recorded as a (checkerName, error) pair in
    a separate omissions list. *)
Fixpoint Runner (checkers : list Checker)
    : M (list CheckResult * list (string * error)) :=
  match checkers with
  | [] => ret ([], [])
  | c :: rest =>
    out <- checker_Run c ;;
    tail <- Runner rest ;;
    match snd out with
    | None => ret (fst out ++ fst tail, snd tail)
    | Some err => ret (fst tail, (checker_Name c, err) :: snd tail)
    end
  end.

(** The reading of "a single, consistent truncation policy": one function
    of the violating resources gives the list every failing leaf shows. *)
Definition consistent_truncation : Prop :=
  exists policy : list string -> list string,
    forall (aws : AWS) (leaf : Leaf) (w w' w2 : World) (r : CheckResult)
           (violators : list string),
      run_leaf aws leaf w = (Ok r, w') ->
      Status r = "FAIL" ->
      leaf_violators aws leaf w = (Ok violators, w2) ->
      Evidence r
      = fmt_d (len violators) +:+ violation leaf +:+ fmt_v (policy violators).

End Checkers.

(** The identifiers of the unencrypted clusters of a Redshift listing. *)
Definition unencrypted_clusters (clusters : list redshift.Cluster) : list string :=
  map (fun cluster => ToString (redshift.ClusterIdentifier cluster))
      (List.filter (fun cluster => negb (ToBool (redshift.Encrypted cluster))) clusters).

(** ** A concrete host and accounts, for the scenarios *)

(** Modelled from the spec: [truncateList], which [sagemaker.go] calls and
    package [checks] declares elsewhere. The spec describes it as the top
    [max] entries followed by a count of the rest ("+N more"). *)
Definition truncateList_top (items : list string) (max : Z) : list string :=
  if len items <=? max then items
  else firstn (Z.to_nat max) items ++ ["+" +:+ fmt_d (len items - max) +:+ " more"].

(** A world that is a clock, with an empty mapping table. *)
Definition clock_host : Host := {|
  World := Z;
  time_Now := fun w => (w, w + 1);
  GetFrameworkMappings := fun _ => ∅;
  truncateList := truncateList_top
|}.

Section Accounts.
#[local] Existing Instance clock_host.

(** An account in which every call answers the same error. *)
Definition refusing_opensearch (err : error) : opensearch.Client := {|
  opensearch.ListDomainNames := ret (Err err);
  opensearch.DescribeDomain := fun _ => ret (Err err)
|}.

Definition refusing_sagemaker (err : error) : sagemaker.Client := {|
  sagemaker.ListNotebookInstances := ret (Err err);
  sagemaker.DescribeNotebookInstance := fun _ => ret (Err err);
  sagemaker.ListEndpoints := ret (Err err);
  sagemaker.DescribeEndpoint := fun _ => ret (Err err);
  sagemaker.DescribeEndpointConfig := fun _ => ret (Err err);
  sagemaker.ListTrainingJobs := ret (Err err);
  sagemaker.DescribeTrainingJob := fun _ => ret (Err err);
  sagemaker.ListModels := ret (Err err);
  sagemaker.DescribeModel := fun _ => ret (Err err)
|}.

Definition refusing_elasticache (err : error) : elasticache.Client := {|
  elasticache.DescribeCacheClusters := ret (Err err);
  elasticache.DescribeReplicationGroups := ret (Err err)
|}.

Definition refusing_redshift (err : error) : redshift.Client := {|
  redshift.DescribeClusters := ret (Err err);
  redshift.DescribeLoggingStatus := fun _ => ret (Err err);
  redshift.DescribeClusterParameters := fun _ => ret (Err err)
|}.

Definition refusing_account (err : error) : AWS := {|
  opensearch_client := refusing_opensearch err;
  sagemaker_client := refusing_sagemaker err;
  elasticache_client := refusing_elasticache err;
  redshift_client := refusing_redshift err
|}.

(** An account with no resource of any type. *)
Definition empty_account : AWS := {|
  opensearch_client := {|
    opensearch.ListDomainNames := ret (Ok {| opensearch.DomainNames := [] |});
    opensearch.DescribeDomain := fun _ => ret (Err "ResourceNotFoundException") |};
  sagemaker_client := {|
    sagemaker.ListNotebookInstances := ret (Ok {| sagemaker.NotebookInstances := [] |});
    sagemaker.DescribeNotebookInstance := fun _ => ret (Err "ValidationException");
    sagemaker.ListEndpoints := ret (Ok {| sagemaker.Endpoints := [] |});
    sagemaker.DescribeEndpoint := fun _ => ret (Err "ValidationException");
    sagemaker.DescribeEndpointConfig := fun _ => ret (Err "ValidationException");
    sagemaker.ListTrainingJobs := ret (Ok {| sagemaker.TrainingJobSummaries := [] |});
    sagemaker.DescribeTrainingJob := fun _ => ret (Err "ValidationException");
    sagemaker.ListModels := ret (Ok {| sagemaker.Models := [] |});
    sagemaker.DescribeModel := fun _ => ret (Err "ValidationException") |};
  elasticache_client := {|
    elasticache.DescribeCacheClusters := ret (Ok {| elasticache.CacheClusters := [] |});
    elasticache.DescribeReplicationGroups :=
      ret (Ok {| elasticache.ReplicationGroups := [] |}) |};
  redshift_client := {|
    redshift.DescribeClusters := ret (Ok {| redshift.Clusters := [] |});
    redshift.DescribeLoggingStatus := fun _ => ret (Err "ClusterNotFound");
    redshift.DescribeClusterParameters := fun _ => ret (Err "ClusterParameterGroupNotFound") |}
|}.

(** Scenario A: three Redshift clusters, of which [cluster-a] is not
    encrypted. *)
Definition redshift_cluster (id : string) (encrypted : bool) : redshift.Cluster := {|
  redshift.ClusterIdentifier := Some id;
  redshift.Encrypted := Some encrypted;
  redshift.PubliclyAccessible := Some false;
  redshift.ClusterParameterGroups := [];
  redshift.AllowVersionUpgrade := Some true;
  redshift.AutomatedSnapshotRetentionPeriod := Some 7;
  redshift.EnhancedVpcRouting := Some true
|}.

Definition scenario_A_clusters : list redshift.Cluster :=
  [ redshift_cluster "cluster-a" false;
    redshift_cluster "cluster-b" true;
    redshift_cluster "cluster-c" true ].

Definition scenario_A_redshift : redshift.Client := {|
  redshift.DescribeClusters := ret (Ok {| redshift.Clusters := scenario_A_clusters |});
  redshift.DescribeLoggingStatus :=
    fun _ => ret (Ok {| redshift.LoggingEnabled := Some true |});
  redshift.DescribeClusterParameters :=
    fun _ => ret (Ok {| redshift.Parameters := [] |})
|}.

Definition scenario_A_account : AWS := {|
  opensearch_client := opensearch_client empty_account;
  sagemaker_client := sagemaker_client empty_account;
  elasticache_client := elasticache_client empty_account;
  redshift_client := scenario_A_redshift
|}.

(** An account with one Redis replication group that keeps its snapshots
    for three days. *)
Definition short_retention_account : AWS := {|
  opensearch_client := opensearch_client empty_account;
  sagemaker_client := sagemaker_client empty_account;
  elasticache_client := {|
    elasticache.DescribeCacheClusters := ret (Ok {| elasticache.CacheClusters := [] |});
    elasticache.DescribeReplicationGroups :=
      ret (Ok {| elasticache.ReplicationGroups :=
                   [ {| elasticache.ReplicationGroupId := Some "sessions";
                        elasticache.AuthTokenEnabled := Some true;
                        elasticache.SnapshotRetentionLimit := Some 3 |} ] |}) |};
  redshift_client := redshift_client empty_account
|}.

(** An account with six SageMaker notebooks and six training jobs of the
    same names, none of them encrypted. *)
Definition six_names : list string := ["n1"; "n2"; "n3"; "n4"; "n5"; "n6"].

Definition six_unencrypted_sagemaker : sagemaker.Client := {|
  sagemaker.ListNotebookInstances :=
    ret (Ok {| sagemaker.NotebookInstances :=
                 map (fun n => {| sagemaker.NotebookInstanceName := Some n |}) six_names |});
  sagemaker.DescribeNotebookInstance :=
    fun _ => ret (Ok {| sagemaker.NotebookInstance_KmsKeyId := None;
                        sagemaker.DirectInternetAccess := "Disabled";
                        sagemaker.RootAccess := "Disabled" |});
  sagemaker.ListEndpoints := ret (Ok {| sagemaker.Endpoints := [] |});
  sagemaker.DescribeEndpoint := fun _ => ret (Err "ValidationException");
  sagemaker.DescribeEndpointConfig := fun _ => ret (Err "ValidationException");
  sagemaker.ListTrainingJobs :=
    ret (Ok {| sagemaker.TrainingJobSummaries :=
                 map (fun n => {| sagemaker.TrainingJobName := Some n |}) six_names |});
  sagemaker.DescribeTrainingJob :=
    fun _ => ret (Ok {| sagemaker.ResourceConfig :=
                          Some {| sagemaker.VolumeKmsKeyId := None |} |});
  sagemaker.ListModels := ret (Ok {| sagemaker.Models := [] |});
  sagemaker.DescribeModel := fun _ => ret (Err "ValidationException")
|}.

Definition six_unencrypted_account : AWS := {|
  opensearch_client := opensearch_client empty_account;
  sagemaker_client := six_unencrypted_sagemaker;
  elasticache_client := elasticache_client empty_account;
  redshift_client := redshift_client empty_account
|}.

End Accounts.

(** ** package offline: the scan cache

    The file system is a finite map from paths to contents. The operating
    system can refuse a write, a read, a stat or a removal; a write can
    also fail after the file was opened and truncated, and leave only the
    first bytes behind. A path that exists but cannot be read (a
    directory, a file without read permission) is a path of the map that
    the host refuses to read. [encoding/json], [path/filepath.Join], the
    directory listing and the layout of [time.Format] are the host's;
    [float64] is kept abstract. A [time.Duration] is an [int64] of
    nanoseconds; a [time.Time] is an instant in nanoseconds, far from the
    ends of what [time.Time] can hold. A function that can panic returns
    an [outcome]. *)

Module offline.

Inductive outcome (A : Type) : Type :=
| Returns (a : A)
| Panics (msg : string).
Arguments Returns {A} a.
Arguments Panics {A} msg.

(** [s[:n]]: panics when [n] exceeds the length of [s]. *)
Definition slice_to (s : string) (n : nat) : outcome string :=
  if (n <=? String.length s)%nat then Returns (substring 0 n s)
  else Panics "slice bounds out of range".

Fixpoint has_separator (s : string) : bool :=
  match s with
  | EmptyString => false
  | String c rest => Ascii.eqb c "/"%char || has_separator rest
  end.

(** [filepath.Ext]: the suffix beginning at the final dot in the final
    element of the path, empty if there is no dot. *)
Fixpoint Ext (path : string) : string :=
  match path with
  | EmptyString => EmptyString
  | String c rest =>
    match Ext rest with
    | EmptyString =>
      if Ascii.eqb c "."%char && negb (has_separator rest) then path else EmptyString
    | ext => ext
    end
  end.

(** How [os.WriteFile] fails: the open is refused and the file stays as
    it was, or the write breaks off after the file was opened with
    [O_TRUNC], with [written] bytes in it. *)
Inductive fault : Type :=
| Refused (err : error)
| Broken (written : nat) (err : error).

(** What [os.ReadFile] answers. *)
Inductive read_result : Type :=
| Read (data : string)
| NotExist
| ReadError (err : error).

(** Arithmetic on [int64] wraps around. *)
Definition int64 (z : Z) : Z := (z + 2 ^ 63) mod 2 ^ 64 - 2 ^ 63.

Record DirEntry : Type := {
  entry_Name : string;
  IsDir : bool;
  Size : Z
}.

Section Cache.
Variable float64 : Type.

Record CachedControl : Type := {
  ID : string;
  Name : string;
  Category : string;
  Severity : string;
  Status : string;
  Evidence : string;
  Remediation : string;
  RemediationDetail : string;
  Priority : string;
  Impact : string;
  ScreenshotGuide : string;
  ConsoleURL : string;
  Frameworks : gmap string string
}.

Record CachedScan : Type := {
  Timestamp : Time;
  Provider : string;
  Framework : string;
  AccountID : string;
  Score : float64;
  TotalControls : Z;
  PassedControls : Z;
  FailedControls : Z;
  Controls : list CachedControl;
  Recommendations : list string;
  Version : string
}.

Record Cache : Type := {
  basePath : string
}.

(** One entry of the ["scans"] list of [GetCacheInfo]. *)
Record ScanInfo : Type := {
  info_filename : string;
  info_provider : string;
  info_framework : string;
  info_account : string;
  info_timestamp : Time;
  info_score : float64;
  info_size : Z
}.

Record CacheInfo : Type := {
  cache_path : string;
  total_files : Z;
  scans : list ScanInfo
}.

(** The host. *)
Variable MarshalIndent : CachedScan -> result string.
Variable Unmarshal : string -> result CachedScan.
Variable Join : string -> string -> string.
Variable Format : Time -> string.
Variable ReadDir : string -> gmap string string -> result (list DirEntry).
Variable write_fault : string -> string -> option fault.
Variable read_refused : string -> option error.
Variable stat_refused : string -> option error.
Variable remove_refused : string -> option error.

Definition WriteFile (path data : string) (fs : gmap string string)
    : option error * gmap string string :=
  match write_fault path data with
  | Some (Refused err) => (Some err, fs)
  | Some (Broken written err) => (Some err, <[path := substring 0 written data]> fs)
  | None => (None, <[path := data]> fs)
  end.

(** A read that the host refuses fails with an error that is not
    [ErrNotExist]. *)
Definition ReadFile (path : string) (fs : gmap string string) : read_result :=
  match read_refused path with
  | Some err => ReadError err
  | None =>
    match fs !! path with
    | Some data => Read data
    | None => NotExist
    end
  end.

Definition Stat (path : string) (fs : gmap string string) : option error :=
  match stat_refused path with
  | Some err => Some err
  | None =>
    match fs !! path with
    | Some _ => None
    | None => Some "no such file or directory"
    end
  end.

Definition Remove (path : string) (fs : gmap string string)
    : option error * gmap string string :=
  match remove_refused path with
  | Some err => (Some err, fs)
  | None =>
    match fs !! path with
    | Some _ => (None, delete path fs)
    | None => (Some "no such file or directory", fs)
    end
  end.

Definition getScanFilename (provider accountID framework : string) (timestamp : Time)
    : string :=
  "scan-" +:+ provider +:+ "-" +:+ accountID +:+ "-" +:+ framework +:+ "-"
  +:+ Format timestamp +:+ ".json".

Definition getLatestFilename (provider accountID framework : string) : string :=
  "latest-" +:+ provider +:+ "-" +:+ accountID +:+ "-" +:+ framework +:+ ".json".

Definition Save (c : Cache) (scan : CachedScan) (fs : gmap string string)
    : option error * gmap string string :=
  let filename :=
    getScanFilename (Provider scan) (AccountID scan) (Framework scan) (Timestamp scan) in
  let scanPath := Join (basePath c) filename in
  match MarshalIndent scan with
  | Err err => (Some ("failed to marshal scan data: " +:+ err), fs)
  | Ok data =>
    match WriteFile scanPath data fs with
    | (Some err, fs1) => (Some ("failed to write cache file: " +:+ err), fs1)
    | (None, fs1) =>
      let latestPath :=
        Join (basePath c)
          (getLatestFilename (Provider scan) (AccountID scan) (Framework scan)) in
      match WriteFile latestPath data fs1 with
      | (Some err, fs2) => (Some ("failed to write latest cache file: " +:+ err), fs2)
      | (None, fs2) => (None, fs2)
      end
    end
  end.

Definition loadFromFile (c : Cache) (filePath : string) (fs : gmap string string)
    : result CachedScan :=
  match ReadFile filePath fs with
  | NotExist => Err ("no cached scan found at " +:+ filePath)
  | ReadError err => Err ("failed to read cache file: " +:+ err)
  | Read data =>
    match Unmarshal data with
    | Err err => Err ("failed to parse cache file: " +:+ err)
    | Ok scan => Ok scan
    end
  end.

Definition LoadLatest (c : Cache) (provider accountID framework : string)
    (fs : gmap string string) : result CachedScan :=
  let latestPath := Join (basePath c) (getLatestFilename provider accountID framework) in
  loadFromFile c latestPath fs.

Definition LoadByTimestamp (c : Cache) (provider accountID framework : string)
    (timestamp : Time) (fs : gmap string string) : result CachedScan :=
  let filename := getScanFilename provider accountID framework timestamp in
  let scanPath := Join (basePath c) filename in
  loadFromFile c scanPath fs.

(** The loop of [GetCacheInfo] over the directory entries. *)
Fixpoint GetCacheInfo_loop (c : Cache) (fs : gmap string string)
    (entries : list DirEntry) (scans : list ScanInfo) : outcome (list ScanInfo) :=
  match entries with
  | [] => Returns scans
  | entry :: rest =>
    if IsDir entry then GetCacheInfo_loop c fs rest scans
    else if negb (String.eqb (Ext (entry_Name entry)) ".json")
    then GetCacheInfo_loop c fs rest scans
    else
      match slice_to (entry_Name entry) 6 with
      | Panics msg => Panics msg
      | Returns prefix =>
        if String.eqb prefix "latest" then GetCacheInfo_loop c fs rest scans
        else
          match loadFromFile c (Join (basePath c) (entry_Name entry)) fs with
          | Err _ => GetCacheInfo_loop c fs rest scans
          | Ok scan =>
            GetCacheInfo_loop c fs rest
              (scans ++ [ {| info_filename := entry_Name entry;
                             info_provider := Provider scan;
                             info_framework := Framework scan;
                             info_account := AccountID scan;
                             info_timestamp := Timestamp scan;
                             info_score := Score scan;
                             info_size := Size entry |} ])
          end
      end
  end.

Definition GetCacheInfo (c : Cache) (fs : gmap string string)
    : outcome (result CacheInfo) :=
  match ReadDir (basePath c) fs with
  | Err err => Returns (Err ("failed to read cache directory: " +:+ err))
  | Ok entries =>
    match GetCacheInfo_loop c fs entries [] with
    | Panics msg => Panics msg
    | Returns scans =>
      Returns (Ok {| cache_path := basePath c;
                     total_files := len entries;
                     scans := scans |})
    end
  end.

(** The loop of [ClearOlderThan]: the files removed so far and the file
    system. *)
Fixpoint ClearOlderThan_loop (c : Cache) (cutoff : Time) (entries : list DirEntry)
    (removed : Z) (fs : gmap string string) : outcome (Z * gmap string string) :=
  match entries with
  | [] => Returns (removed, fs)
  | entry :: rest =>
    if IsDir entry then ClearOlderThan_loop c cutoff rest removed fs
    else
      match slice_to (entry_Name entry) 6 with
      | Panics msg => Panics msg
      | Returns prefix =>
        if String.eqb prefix "latest" then ClearOlderThan_loop c cutoff rest removed fs
        else
          match loadFromFile c (Join (basePath c) (entry_Name entry)) fs with
          | Err _ => ClearOlderThan_loop c cutoff rest removed fs
          | Ok scan =>
            if Timestamp scan <? cutoff then
              match Remove (Join (basePath c) (entry_Name entry)) fs with
              | (None, fs') => ClearOlderThan_loop c cutoff rest (removed + 1) fs'
              | (Some _, fs') => ClearOlderThan_loop c cutoff rest removed fs'
              end
            else ClearOlderThan_loop c cutoff rest removed fs
          end
      end
  end.

(** [now] is what [time.Now()] reads; the negation of the duration is an
    [int64] negation. *)
Definition ClearOlderThan (c : Cache) (duration : Z) (now : Time)
    (fs : gmap string string) : outcome ((Z * option error) * gmap string string) :=
  match ReadDir (basePath c) fs with
  | Err err => Returns ((0, Some ("failed to read cache directory: " +:+ err)), fs)
  | Ok entries =>
    let cutoff := now + int64 (- duration) in
    match ClearOlderThan_loop c cutoff entries 0 fs with
    | Panics msg => Panics msg
    | Returns (removed, fs') => Returns ((removed, None), fs')
    end
  end.

Definition HasCachedScan (c : Cache) (provider accountID framework : string)
    (fs : gmap string string) : bool :=
  let latestPath := Join (basePath c) (getLatestFilename provider accountID framework) in
  match Stat latestPath fs with
  | None => true
  | Some _ => false
  end.

Definition LoadFromFile (c : Cache) (filePath : string) (fs : gmap string string)
    : result CachedScan :=
  loadFromFile c filePath fs.

(** [filepath.Glob], the host's. *)
Variable Glob : string -> gmap string string -> result (list string).

Fixpoint ListScans_loop (c : Cache) (fs : gmap string string) (matches : list string)
    (scans : list CachedScan) : list CachedScan :=
  match matches with
  | [] => scans
  | m :: rest =>
    match loadFromFile c m fs with
    | Err _ => ListScans_loop c fs rest scans
    | Ok scan => ListScans_loop c fs rest (scans ++ [scan])
    end
  end.

Definition ListScans (c : Cache) (provider accountID framework : string)
    (fs : gmap string string) : result (list CachedScan) :=
  let pattern :=
    "scan-" +:+ provider +:+ "-" +:+ accountID +:+ "-" +:+ framework +:+ "-*.json" in
  match Glob (Join (basePath c) pattern) fs with
  | Err err => Err ("failed to list cache files: " +:+ err)
  | Ok matches => Ok (ListScans_loop c fs matches [])
  end.

(** The loop of [Clear]: it stops at the first removal that fails. *)
Fixpoint Clear_loop (c : Cache) (entries : list DirEntry) (fs : gmap string string)
    : option error * gmap string string :=
  match entries with
  | [] => (None, fs)
  | entry :: rest =>
    if IsDir entry then Clear_loop c rest fs
    else
      match Remove (Join (basePath c) (entry_Name entry)) fs with
      | (Some err, fs') =>
          (Some ("failed to remove " +:+ entry_Name entry +:+ ": " +:+ err), fs')
      | (None, fs') => Clear_loop c rest fs'
      end
  end.

Definition Clear (c : Cache) (fs : gmap string string)
    : option error * gmap string string :=
  match ReadDir (basePath c) fs with
  | Err err => (Some ("failed to read cache directory: " +:+ err), fs)
  | Ok entries => Clear_loop c entries fs
  end.

(** The paths of the files (not the directories) of a listing. *)
Definition file_paths (c : Cache) (entries : list DirEntry) : list string :=
  map (fun entry => Join (basePath c) (entry_Name entry))
      (List.filter (fun entry => negb (IsDir entry)) entries).

(** The entry of [GetCacheInfo] for a directory entry and the scan loaded
    from it. *)
Definition scan_info (entry : DirEntry) (scan : CachedScan) : ScanInfo := {|
  info_filename := entry_Name entry;
  info_provider := Provider scan;
  info_framework := Framework scan;
  info_account := AccountID scan;
  info_timestamp := Timestamp scan;
  info_score := Score scan;
  info_size := Size entry
|}.

(** Whether [ClearOlderThan] picks an entry for removal: a file whose
    name does not begin with "latest" and that holds a scan from before
    the cutoff. *)
Definition expired (c : Cache) (cutoff : Time) (fs : gmap string string)
    (entry : DirEntry) : bool :=
  negb (IsDir entry)
  && negb (String.eqb (substring 0 6 (entry_Name entry)) "latest")
  && match loadFromFile c (Join (basePath c) (entry_Name entry)) fs with
     | Ok scan => Timestamp scan <? cutoff
     | Err _ => false
     end.

(** What [GetCacheInfo] reports for a directory entry, if anything. *)
Definition listed (c : Cache) (fs : gmap string string) (entry : DirEntry)
    : option ScanInfo :=
  if IsDir entry then None
  else if negb (String.eqb (Ext (entry_Name entry)) ".json") then None
  else if String.eqb (substring 0 6 (entry_Name entry)) "latest" then None
  else
    match loadFromFile c (Join (basePath c) (entry_Name entry)) fs with
    | Ok scan => Some (scan_info entry scan)
    | Err _ => None
    end.

(** What a load answers for a path that holds [data]. *)
Definition if_readable (path : string) (r : result CachedScan) : result CachedScan :=
  match read_refused path with
  | Some err => Err ("failed to read cache file: " +:+ err)
  | None => r
  end.

Definition decoded (path data : string) : result CachedScan :=
  if_readable path
    match Unmarshal data with
    | Err err => Err ("failed to parse cache file: " +:+ err)
    | Ok scan => Ok scan
    end.

(** The scan of a path that loads. *)
Definition loadable (c : Cache) (fs : gmap string string) (path : string)
    : option CachedScan :=
  match loadFromFile c path fs with
  | Ok scan => Some scan
  | Err _ => None
  end.

End Cache.

(** *** A concrete host for the scenarios: scores are integers, a scan is
    stored as its provider, account and framework on three lines, and a
    path is the directory, a slash and the file name. *)

Definition demo_scan (provider account framework : string) : CachedScan Z := {|
  Timestamp := 0;
  Provider := provider;
  Framework := framework;
  AccountID := account;
  Score := 0;
  TotalControls := 0;
  PassedControls := 0;
  FailedControls := 0;
  Controls := [];
  Recommendations := [];
  Version := EmptyString
|}.

Definition demo_Marshal (scan : CachedScan Z) : result string :=
  Ok (Provider Z scan +:+ nl +:+ AccountID Z scan +:+ nl +:+ Framework Z scan).

Fixpoint lines_of (s : string) (line : string) : list string :=
  match s with
  | EmptyString => [line]
  | String c rest =>
    if Ascii.eqb c (ascii_of_nat 10) then line :: lines_of rest EmptyString
    else lines_of rest (line +:+ String c EmptyString)
  end.

Definition demo_Unmarshal (data : string) : result (CachedScan Z) :=
  match lines_of data EmptyString with
  | [provider; account; framework] => Ok (demo_scan provider account framework)
  | _ => Err "unexpected end of JSON input"
  end.

(** A second codec that keeps the timestamp too, as a decimal on a first
    line. *)
Definition stamped_scan (t : Time) (provider account framework : string)
    : CachedScan Z := {|
  Timestamp := t;
  Provider := provider;
  Framework := framework;
  AccountID := account;
  Score := 0;
  TotalControls := 0;
  PassedControls := 0;
  FailedControls := 0;
  Controls := [];
  Recommendations := [];
  Version := EmptyString
|}.

Definition stamped_Marshal (scan : CachedScan Z) : result string :=
  Ok (fmt_d (Timestamp Z scan) +:+ nl +:+ Provider Z scan +:+ nl
      +:+ AccountID Z scan +:+ nl +:+ Framework Z scan).

Definition stamped_Unmarshal (data : string) : result (CachedScan Z) :=
  match lines_of data EmptyString with
  | [t; provider; account; framework] =>
    match NilZero.int_of_string t with
    | Some i => Ok (stamped_scan (Z.of_int i) provider account framework)
    | None => Err "invalid character looking for beginning of value"
    end
  | _ => Err "unexpected end of JSON input"
  end.

(** How [encoding/json] treats a string: [Marshal] writes the
    replacement character U+FFFD for every byte that does not begin a
    valid UTF-8 encoding, and [Unmarshal] reads that character back.
    [encoded_size] is the size [utf8.DecodeRuneInString] finds at the head
    of a string, when there is a valid encoding there. *)
Definition between (lo hi : nat) (b : ascii) : bool :=
  (lo <=? nat_of_ascii b)%nat && (nat_of_ascii b <=? hi)%nat.

Definition continuation (b : ascii) : bool := between 128 191 b.

Definition encoded_size (s : string) : option nat :=
  match s with
  | EmptyString => None
  | String b0 rest =>
    let n0 := nat_of_ascii b0 in
    if (n0 <? 128)%nat then Some 1%nat
    else if (n0 <? 194)%nat then None
    else if (n0 <? 224)%nat then
      match rest with
      | String b1 _ => if continuation b1 then Some 2%nat else None
      | _ => None
      end
    else if (n0 <? 240)%nat then
      match rest with
      | String b1 (String b2 _) =>
        if between (if (n0 =? 224)%nat then 160 else 128)
                   (if (n0 =? 237)%nat then 159 else 191) b1
           && continuation b2
        then Some 3%nat else None
      | _ => None
      end
    else if (n0 <? 245)%nat then
      match rest with
      | String b1 (String b2 (String b3 _)) =>
        if between (if (n0 =? 240)%nat then 144 else 128)
                   (if (n0 =? 244)%nat then 143 else 191) b1
           && continuation b2 && continuation b3
        then Some 4%nat else None
      | _ => None
      end
    else None
  end.

(** U+FFFD in UTF-8. *)
Definition replacement : string :=
  String (ascii_of_nat 239) (String (ascii_of_nat 191)
    (String (ascii_of_nat 189) EmptyString)).

(** [pending] bytes of a valid encoding are still to be copied. *)
Fixpoint json_string_from (s : string) (pending : nat) : string :=
  match s with
  | EmptyString => EmptyString
  | String b rest =>
    match pending with
    | S k => String b (json_string_from rest k)
    | O =>
      match encoded_size s with
      | Some size => String b (json_string_from rest (size - 1))
      | None => replacement +:+ json_string_from rest 0
      end
    end
  end.

Definition json_string (s : string) : string := json_string_from s 0.

(** The codec of the scenarios with the strings written as
    [encoding/json] writes them. *)
Definition coercing_Marshal (scan : CachedScan Z) : result string :=
  Ok (json_string (Provider Z scan) +:+ nl +:+ json_string (AccountID Z scan) +:+ nl
      +:+ json_string (Framework Z scan)).

(** A provider name that is not valid UTF-8: the one byte 0xFF. *)
Definition invalid_name : string := String (ascii_of_nat 255) EmptyString.

Definition demo_Join (dir file : string) : string := dir +:+ "/" +:+ file.

Definition demo_Format (t : Time) : string := fmt_d t.

(** A directory listing that answers with fixed entries. *)
Definition listing (entries : list DirEntry) (dir : string) (fs : gmap string string)
    : result (list DirEntry) := Ok entries.

Definition demo_cache : Cache := {| basePath := "/home/user/.auditkit/cache" |}.

Definition never_refused (path : string) : option error := None.

Definition never_fails (path data : string) : option fault := None.

(** A disk that fills up while one path is written, after [written]
    bytes. *)
Definition break_only (broken : string) (written : nat) (path data : string)
    : option fault :=
  if String.eqb path broken then Some (Broken written "no space left on device")
  else None.

(** An operating system that refuses one path. *)
Definition refuse_only (refused : string) (path : string) : option error :=
  if String.eqb path refused then Some "permission denied" else None.

Definition file (name : string) : DirEntry :=
  {| entry_Name := name; IsDir := false; Size := 64 |}.

Definition directory (name : string) : DirEntry :=
  {| entry_Name := name; IsDir := true; Size := 4096 |}.

(** A glob that answers with fixed matches. *)
Definition matching (matches : list string) (pattern : string)
    (fs : gmap string string) : result (list string) := Ok matches.

End offline.

(** ** The collapsing and scoring stages

    The sources hold the leaf checks and the cache; the stages below are
    described by the specification only. *)

Module engine.

(** The [Status] enumeration of the data model. *)
Inductive Status : Type :=
| PASS
| FAIL
| WARN
| MANUAL
| INFO.

(** Modelled from the spec: the status precedence of the
    RequirementCollapser (section 4.3, step 2), which is not among the
    sources: FAIL dominates over WARN, which dominates over MANUAL, which
    dominates over PASS/INFO. *)
Definition precedence (s : Status) : nat :=
  match s with
  | FAIL => 3
  | WARN => 2
  | MANUAL => 1
  | PASS | INFO => 0
  end.

(** Modelled from the spec: the status of higher precedence of two. PASS
    and INFO share the lowest level; between them the bucket reports PASS,
    the status the ScoreAggregator counts. *)
Definition stronger (a b : Status) : Status :=
  match a, b with
  | FAIL, _ | _, FAIL => FAIL
  | WARN, _ | _, WARN => WARN
  | MANUAL, _ | _, MANUAL => MANUAL
  | PASS, _ | _, PASS => PASS
  | INFO, INFO => INFO
  end.

(** Modelled from the spec: the status of a RequirementVerdict bucket
    (section 4.3, steps 2 and 5), which is not among the sources: the
    highest-precedence status among the contributors, and MANUAL for a
    bucket without contributors. *)
Definition collapse_status (contributors : list Status) : Status :=
  match contributors with
  | [] => MANUAL
  | first :: rest => fold_left stronger rest first
  end.

Definition status_eqb (a b : Status) : bool :=
  match a, b with
  | PASS, PASS | FAIL, FAIL | WARN, WARN | MANUAL, MANUAL | INFO, INFO => true
  | _, _ => false
  end.

Fixpoint count_status (s : Status) (verdicts : list Status) : Z :=
  match verdicts with
  | [] => 0
  | v :: rest => (if status_eqb s v then 1 else 0) + count_status s rest
  end.

(** Modelled from the spec: the ScoreAggregator (section 4.4), which is
    not among the sources:
    Score = 100 * passed_requirements / (total_requirements - manual_requirements),
    and, when that denominator is zero, no score at all ([None], the
    "N/A" of the spec) rather than a division or a default. *)
Definition score_of_counts (passed total manual : Z) : option Q :=
  if total - manual =? 0 then None
  else Some ((100 * passed) # (Z.to_pos (total - manual))).

Definition Score (verdicts : list Status) : option Q :=
  score_of_counts (count_status PASS verdicts) (len verdicts)
    (count_status MANUAL verdicts).

End engine.

(** ** More about the leaf checks *)

(** The [Name] a leaf gives its results. *)
Definition check_name (leaf : Leaf) : string :=
  match leaf with
  | OpenSearch_EncryptionAtRest => "OpenSearch Encryption at Rest"
  | OpenSearch_NodeToNodeEncryption => "OpenSearch Node-to-Node Encryption"
  | OpenSearch_HTTPS => "OpenSearch HTTPS Required"
  | OpenSearch_VPCDeployment => "OpenSearch VPC Deployment"
  | OpenSearch_AuditLogs => "OpenSearch Audit Logs"
  | OpenSearch_FineGrainedAccessControl => "OpenSearch Fine-Grained Access Control"
  | SageMaker_NotebookEncryption => "SageMaker Notebook Encryption"
  | SageMaker_NotebookDirectInternet => "SageMaker Direct Internet Access"
  | SageMaker_NotebookRootAccess => "SageMaker Root Access"
  | SageMaker_EndpointEncryption => "SageMaker Endpoint Encryption"
  | SageMaker_TrainingJobEncryption => "SageMaker Training Job Encryption"
  | SageMaker_ModelNetworkIsolation => "SageMaker Model Network Isolation"
  | ElastiCache_EncryptionAtRest => "ElastiCache Encryption at Rest"
  | ElastiCache_EncryptionInTransit => "ElastiCache Encryption in Transit"
  | ElastiCache_AutoMinorVersionUpgrade => "ElastiCache Auto Minor Version Upgrade"
  | ElastiCache_AuthToken => "ElastiCache Redis AUTH Token"
  | ElastiCache_BackupRetention => "ElastiCache Backup Retention"
  | Redshift_ClusterEncryption => "Redshift Cluster Encryption"
  | Redshift_ClusterPublicAccess => "Redshift Public Access"
  | Redshift_ClusterLogging => "Redshift Audit Logging"
  | Redshift_ClusterSSL => "Redshift SSL Required"
  | Redshift_ClusterVersionUpgrade => "Redshift Auto Version Upgrade"
  | Redshift_ClusterBackupRetention => "Redshift Backup Retention"
  | Redshift_ClusterEnhancedVPCRouting => "Redshift Enhanced VPC Routing"
  end.

(** What the evidence of a passing leaf says after "All <n> ". *)
Definition all_clear (leaf : Leaf) : string :=
  match leaf with
  | OpenSearch_EncryptionAtRest => "OpenSearch domains have encryption at rest enabled"
  | OpenSearch_NodeToNodeEncryption => "OpenSearch domains have node-to-node encryption enabled"
  | OpenSearch_HTTPS => "OpenSearch domains enforce HTTPS"
  | OpenSearch_VPCDeployment => "OpenSearch domains are deployed in VPC"
  | OpenSearch_AuditLogs => "OpenSearch domains have audit logging enabled"
  | OpenSearch_FineGrainedAccessControl => "OpenSearch domains have fine-grained access control enabled"
  | SageMaker_NotebookEncryption => "notebooks are encrypted with KMS"
  | SageMaker_NotebookDirectInternet => "notebooks have direct internet access disabled"
  | SageMaker_NotebookRootAccess => "notebooks have root access disabled"
  | SageMaker_EndpointEncryption => "endpoints are encrypted with KMS"
  | SageMaker_TrainingJobEncryption => "recent training jobs have volume encryption enabled"
  | SageMaker_ModelNetworkIsolation => "models have network isolation enabled"
  | ElastiCache_EncryptionAtRest => "ElastiCache clusters have encryption at rest enabled"
  | ElastiCache_EncryptionInTransit => "ElastiCache clusters have encryption in transit enabled"
  | ElastiCache_AutoMinorVersionUpgrade => "ElastiCache clusters have auto minor version upgrade enabled"
  | ElastiCache_AuthToken => "Redis replication groups have AUTH token enabled"
  | ElastiCache_BackupRetention => "Redis replication groups have adequate backup retention"
  | Redshift_ClusterEncryption => "Redshift clusters are encrypted"
  | Redshift_ClusterPublicAccess => "Redshift clusters are private (not publicly accessible)"
  | Redshift_ClusterLogging => "Redshift clusters have audit logging enabled"
  | Redshift_ClusterSSL => "Redshift clusters require SSL connections"
  | Redshift_ClusterVersionUpgrade => "Redshift clusters have auto version upgrade enabled"
  | Redshift_ClusterBackupRetention => "Redshift clusters have adequate backup retention (>= 7 days)"
  | Redshift_ClusterEnhancedVPCRouting => "Redshift clusters have enhanced VPC routing enabled"
  end.

(** The priority that goes with a severity. *)
Definition priority_of_severity (severity : string) : option PriorityLevel :=
  if String.eqb severity "CRITICAL" then Some PriorityCritical
  else if String.eqb severity "HIGH" then Some PriorityHigh
  else if String.eqb severity "MEDIUM" then Some PriorityMedium
  else if String.eqb severity "LOW" then Some PriorityLow
  else None.

(** What a passing leaf is expected to say, given how many resources its
    list call answered with. *)
Definition passing_evidence (leaf : Leaf) (listed : Z) : string :=
  if listed =? 0 then nothing_found leaf
  else "All " +:+ fmt_d listed +:+ " " +:+ all_clear leaf.

(** A describe call that answers every request with an error. *)
Definition always_refuses `{Host} {A : Type} (call : option string -> M (result A)) : Prop :=
  forall (id : option string) (w : World), is_failure (fst (call id w)) = true.

(** The reading that the describe call a leaf relies on always fails, for
    the leaves that skip a resource whose describe call fails. *)
Definition describes_refused `{Host} (aws : AWS) (leaf : Leaf) : Prop :=
  match leaf with
  | OpenSearch_EncryptionAtRest | OpenSearch_NodeToNodeEncryption | OpenSearch_HTTPS
  | OpenSearch_VPCDeployment | OpenSearch_AuditLogs | OpenSearch_FineGrainedAccessControl =>
      always_refuses (opensearch.DescribeDomain (opensearch_client aws))
  | SageMaker_NotebookEncryption | SageMaker_NotebookDirectInternet
  | SageMaker_NotebookRootAccess =>
      always_refuses (sagemaker.DescribeNotebookInstance (sagemaker_client aws))
  | SageMaker_EndpointEncryption =>
      always_refuses (sagemaker.DescribeEndpoint (sagemaker_client aws))
  | SageMaker_TrainingJobEncryption =>
      always_refuses (sagemaker.DescribeTrainingJob (sagemaker_client aws))
  | SageMaker_ModelNetworkIsolation =>
      always_refuses (sagemaker.DescribeModel (sagemaker_client aws))
  | Redshift_ClusterSSL =>
      always_refuses (redshift.DescribeClusterParameters (redshift_client aws))
  | _ => False
  end.

(** The entries a loop without describe calls collects: those of the
    resources [entry] gives one for, in listing order. *)
Definition collected {X : Type} (entry : X -> option string) (l : list X) : list string :=
  flat_map (fun x => match entry x with Some e => [e] | None => [] end) l.

Definition unless (flag : option bool) (id : option string) : option string :=
  if ToBool flag then None else Some (ToString id).

Definition retention_entry (id : option string) (retention : option Z) : option string :=
  match retention with
  | Some days =>
    if days <? 7 then Some (ToString id +:+ " (" +:+ fmt_d days +:+ " days)") else None
  | None => None
  end.

(** What the ElastiCache cluster checks hold against a cache cluster. *)
Definition cache_cluster_entry (leaf : Leaf) (c : elasticache.CacheCluster)
    : option string :=
  match leaf with
  | ElastiCache_EncryptionAtRest =>
      unless (elasticache.AtRestEncryptionEnabled c) (elasticache.CacheClusterId c)
  | ElastiCache_EncryptionInTransit =>
      unless (elasticache.TransitEncryptionEnabled c) (elasticache.CacheClusterId c)
  | ElastiCache_AutoMinorVersionUpgrade =>
      unless (elasticache.AutoMinorVersionUpgrade c) (elasticache.CacheClusterId c)
  | _ => None
  end.

(** What the ElastiCache replication-group checks hold against a group. *)
Definition replication_group_entry (leaf : Leaf) (g : elasticache.ReplicationGroup)
    : option string :=
  match leaf with
  | ElastiCache_AuthToken =>
      unless (elasticache.AuthTokenEnabled g) (elasticache.ReplicationGroupId g)
  | ElastiCache_BackupRetention =>
      retention_entry (elasticache.ReplicationGroupId g) (elasticache.SnapshotRetentionLimit g)
  | _ => None
  end.

(** What the Redshift checks that read the cluster listing alone hold
    against a cluster. *)
Definition redshift_cluster_entry (leaf : Leaf) (c : redshift.Cluster) : option string :=
  match leaf with
  | Redshift_ClusterEncryption =>
      unless (redshift.Encrypted c) (redshift.ClusterIdentifier c)
  | Redshift_ClusterPublicAccess =>
      if ToBool (redshift.PubliclyAccessible c)
      then Some (ToString (redshift.ClusterIdentifier c)) else None
  | Redshift_ClusterVersionUpgrade =>
      unless (redshift.AllowVersionUpgrade c) (redshift.ClusterIdentifier c)
  | Redshift_ClusterBackupRetention =>
      retention_entry (redshift.ClusterIdentifier c)
        (redshift.AutomatedSnapshotRetentionPeriod c)
  | Redshift_ClusterEnhancedVPCRouting =>
      unless (redshift.EnhancedVpcRouting c) (redshift.ClusterIdentifier c)
  | _ => None
  end.

Definition reads_cache_clusters (leaf : Leaf) : bool :=
  match leaf with
  | ElastiCache_EncryptionAtRest | ElastiCache_EncryptionInTransit
  | ElastiCache_AutoMinorVersionUpgrade => true
  | _ => false
  end.

Definition reads_replication_groups (leaf : Leaf) : bool :=
  match leaf with
  | ElastiCache_AuthToken | ElastiCache_BackupRetention => true
  | _ => false
  end.

Definition reads_clusters_only (leaf : Leaf) : bool :=
  match leaf with
  | Redshift_ClusterEncryption | Redshift_ClusterPublicAccess
  | Redshift_ClusterVersionUpgrade | Redshift_ClusterBackupRetention
  | Redshift_ClusterEnhancedVPCRouting => true
  | _ => false
  end.

(** The parameter groups of a cluster listing, all clusters together. *)
Definition parameter_groups (clusters : list redshift.Cluster) : nat :=
  list_sum (map (fun c => length (redshift.ClusterParameterGroups c)) clusters).

(** Whether the parameters of a parameter group require SSL. *)
Definition requires_ssl (params : redshift.DescribeClusterParametersOutput) : bool :=
  existsb (fun param =>
             String.eqb (ToString (redshift.ParameterName param)) "require_ssl"
             && String.eqb (ToString (redshift.ParameterValue param)) "true")
          (redshift.Parameters params).

(** Every parameter group can be described and none requires SSL. *)
Definition never_requires_ssl `{Host} (client : redshift.Client) : Prop :=
  forall (name : option string) (w : World),
    match fst (redshift.DescribeClusterParameters client name w) with
    | Ok params => requires_ssl params = false
    | Err _ => False
    end.

(** Each cluster, once for each of its parameter groups. *)
Definition once_per_parameter_group (clusters : list redshift.Cluster) : list string :=
  flat_map (fun c => repeat (ToString (redshift.ClusterIdentifier c))
                            (length (redshift.ClusterParameterGroups c)))
           clusters.

(** *** More accounts for the scenarios *)

Section MoreAccounts.
#[local] Existing Instance clock_host.

(** Two OpenSearch domains that cannot be described. *)
Definition unreadable_domains_account : AWS := {|
  opensearch_client := {|
    opensearch.ListDomainNames :=
      ret (Ok {| opensearch.DomainNames :=
                   [ {| opensearch.DomainName := Some "logs" |};
                     {| opensearch.DomainName := Some "search" |} ] |});
    opensearch.DescribeDomain := fun _ => ret (Err "AccessDeniedException") |};
  sagemaker_client := sagemaker_client empty_account;
  elasticache_client := elasticache_client empty_account;
  redshift_client := redshift_client empty_account
|}.

(** The clusters of scenario A, with a logging status that cannot be read. *)
Definition unreadable_logging_account : AWS := {|
  opensearch_client := opensearch_client empty_account;
  sagemaker_client := sagemaker_client empty_account;
  elasticache_client := elasticache_client empty_account;
  redshift_client := {|
    redshift.DescribeClusters := ret (Ok {| redshift.Clusters := scenario_A_clusters |});
    redshift.DescribeLoggingStatus := fun _ => ret (Err "AccessDenied");
    redshift.DescribeClusterParameters := fun _ => ret (Err "AccessDenied") |}
|}.

(** One Redshift cluster with two parameter groups, neither of which
    requires SSL. *)
Definition two_groups_cluster : redshift.Cluster := {|
  redshift.ClusterIdentifier := Some "warehouse";
  redshift.Encrypted := Some true;
  redshift.PubliclyAccessible := Some false;
  redshift.ClusterParameterGroups :=
    [ {| redshift.ParameterGroupName := Some "default.redshift-1.0" |};
      {| redshift.ParameterGroupName := Some "custom" |} ];
  redshift.AllowVersionUpgrade := Some true;
  redshift.AutomatedSnapshotRetentionPeriod := Some 7;
  redshift.EnhancedVpcRouting := Some true
|}.

Definition two_groups_account : AWS := {|
  opensearch_client := opensearch_client empty_account;
  sagemaker_client := sagemaker_client empty_account;
  elasticache_client := elasticache_client empty_account;
  redshift_client := {|
    redshift.DescribeClusters := ret (Ok {| redshift.Clusters := [two_groups_cluster] |});
    redshift.DescribeLoggingStatus :=
      fun _ => ret (Ok {| redshift.LoggingEnabled := Some true |});
    redshift.DescribeClusterParameters :=
      fun _ => ret (Ok {| redshift.Parameters :=
                            [ {| redshift.ParameterName := Some "require_ssl";
                                 redshift.ParameterValue := Some "false" |} ] |}) |}
|}.

(** Two cache clusters, of which [sessions] is not encrypted at rest. *)
Definition cache_clusters_account : AWS := {|
  opensearch_client := opensearch_client empty_account;
  sagemaker_client := sagemaker_client empty_account;
  elasticache_client := {|
    elasticache.DescribeCacheClusters :=
      ret (Ok {| elasticache.CacheClusters :=
                   [ {| elasticache.CacheClusterId := Some "sessions";
                        elasticache.AtRestEncryptionEnabled := None;
                        elasticache.TransitEncryptionEnabled := Some true;
                        elasticache.AutoMinorVersionUpgrade := Some true |};
                     {| elasticache.CacheClusterId := Some "catalog";
                        elasticache.AtRestEncryptionEnabled := Some true;
                        elasticache.TransitEncryptionEnabled := Some true;
                        elasticache.AutoMinorVersionUpgrade := Some true |} ] |});
    elasticache.DescribeReplicationGroups :=
      ret (Ok {| elasticache.ReplicationGroups := [] |}) |};
  redshift_client := redshift_client empty_account
|}.

End MoreAccounts.

(** ** package cli: coloured text and boxes

    A string is the sequence of runes that [for _, r := range s] yields, a
    rune being its code point; [string(r)] is then the one-rune string and
    [+] is [++]. Strings are taken to be valid UTF-8, so that [len(s)] is
    the sum of the encoded lengths of the runes. [int] is 64 bits wide.
    Whether colours are enabled is read from the environment and is a
    parameter here. *)

Module cli.

Definition rune : Type := Z.

Inductive outcome (A : Type) : Type :=
| Returns (a : A)
| Panics (msg : string).
Arguments Returns {A} a.
Arguments Panics {A} msg.

(** The runes of an ASCII literal. *)
Fixpoint runes (s : string) : list rune :=
  match s with
  | EmptyString => []
  | String c rest => Z.of_nat (nat_of_ascii c) :: runes rest
  end.

(** ['\033'] and ['m']. *)
Definition ESC : rune := 27.
Definition letter_m : rune := 109.

Definition Reset : list rune := ESC :: runes "[0m".
Definition Bold : list rune := ESC :: runes "[1m".
Definition Dim : list rune := ESC :: runes "[2m".
Definition Red : list rune := ESC :: runes "[31m".
Definition Green : list rune := ESC :: runes "[32m".
Definition Yellow : list rune := ESC :: runes "[33m".
Definition Blue : list rune := ESC :: runes "[34m".
Definition Magenta : list rune := ESC :: runes "[35m".
Definition Cyan : list rune := ESC :: runes "[36m".
Definition White : list rune := ESC :: runes "[37m".
Definition BrightRed : list rune := ESC :: runes "[91m".
Definition BrightGreen : list rune := ESC :: runes "[92m".
Definition BrightYellow : list rune := ESC :: runes "[93m".
Definition BrightBlue : list rune := ESC :: runes "[94m".
Definition BrightCyan : list rune := ESC :: runes "[96m".
Definition BgRed : list rune := ESC :: runes "[41m".
Definition BgGreen : list rune := ESC :: runes "[42m".
Definition BgYellow : list rune := ESC :: runes "[43m".

Definition Color (IsColorEnabled : bool) (color text : list rune) : list rune :=
  if negb IsColorEnabled then text
  else color ++ text ++ Reset.

Definition Pass (IsColorEnabled : bool) : list rune :=
  Color IsColorEnabled Green (runes "[PASS]").
Definition Fail (IsColorEnabled : bool) : list rune :=
  Color IsColorEnabled Red (runes "[FAIL]").
Definition Warn (IsColorEnabled : bool) : list rune :=
  Color IsColorEnabled Yellow (runes "[WARN]").
Definition Info (IsColorEnabled : bool) : list rune :=
  Color IsColorEnabled Cyan (runes "[INFO]").
Definition Critical (IsColorEnabled : bool) : list rune :=
  Color IsColorEnabled (Bold ++ BrightRed) (runes "[CRITICAL]").
Definition High (IsColorEnabled : bool) : list rune :=
  Color IsColorEnabled Yellow (runes "[HIGH]").
Definition Medium (IsColorEnabled : bool) : list rune :=
  Color IsColorEnabled Blue (runes "[MEDIUM]").
Definition Low (IsColorEnabled : bool) : list rune :=
  Color IsColorEnabled Dim (runes "[LOW]").

(** The loop of [visibleLength]: the state is [inEscape] and [length]. *)
Fixpoint visibleLength_loop (s : list rune) (inEscape : bool) (length : Z) : bool * Z :=
  match s with
  | [] => (inEscape, length)
  | r :: rest =>
    if r =? ESC then visibleLength_loop rest true length
    else if inEscape then
      visibleLength_loop rest (if r =? letter_m then false else inEscape) length
    else visibleLength_loop rest inEscape (length + 1)
  end.

Definition visibleLength (s : list rune) : Z :=
  snd (visibleLength_loop s false 0).

(** Whether a string stops inside an escape sequence. *)
Definition ends_in_escape (s : list rune) : bool :=
  fst (visibleLength_loop s false 0).

(** The loop of [truncateWithEllipsis]; the [break] returns [result]. *)
Fixpoint truncateWithEllipsis_loop (s : list rune) (width : Z) (result : list rune)
    (length : Z) (inEscape : bool) : list rune :=
  match s with
  | [] => result
  | r :: rest =>
    if r =? ESC then truncateWithEllipsis_loop rest width (result ++ [r]) length true
    else if inEscape then
      truncateWithEllipsis_loop rest width (result ++ [r]) length
        (if r =? letter_m then false else inEscape)
    else if length >=? width - 3 then result
    else truncateWithEllipsis_loop rest width (result ++ [r]) (length + 1) inEscape
  end.

Definition truncateWithEllipsis (s : list rune) (width : Z) : list rune :=
  if width <=? 3 then runes "..."
  else truncateWithEllipsis_loop s width [] 0 false ++ runes "...".

(** Arithmetic on [int] wraps around. *)
Definition int (z : Z) : Z := (z + 2 ^ 63) mod 2 ^ 64 - 2 ^ 63.

Definition maxInt : Z := 2 ^ 63 - 1.

(** The bytes of the UTF-8 encoding of a rune, and [len(s)]. *)
Definition rune_len (r : rune) : Z :=
  if r <? 128 then 1 else if r <? 2048 then 2 else if r <? 65536 then 3 else 4.

Definition len_bytes (s : list rune) : Z :=
  fold_right (fun r n => rune_len r + n) 0 s.

(** [strings.Repeat]: it panics on a negative count and on a result
    longer than an [int] can tell. *)
Definition Repeat (s : list rune) (count : Z) : outcome (list rune) :=
  if count <? 0 then Panics "strings: negative Repeat count"
  else if len_bytes s * count >? maxInt
  then Panics "strings: Repeat output length overflow"
  else Returns (concat (repeat s (Z.to_nat count))).

Definition BoxTopLeft : list rune := [9484].
Definition BoxTopRight : list rune := [9488].
Definition BoxBottomLeft : list rune := [9492].
Definition BoxBottomRight : list rune := [9496].
Definition BoxHorizontal : list rune := [9472].
Definition BoxVertical : list rune := [9474].
Definition BoxTeeRight : list rune := [9500].
Definition BoxTeeLeft : list rune := [9508].
Definition BoxDoubleTopLeft : list rune := [9556].
Definition BoxDoubleTopRight : list rune := [9559].
Definition BoxDoubleBottomLeft : list rune := [9562].
Definition BoxDoubleBottomRight : list rune := [9565].
Definition BoxDoubleHorizontal : list rune := [9552].
Definition BoxDoubleVertical : list rune := [9553].

Record Box : Type := {
  width : Z;
  title : list rune;
  content : list (list rune);
  double : bool;
  color : list rune
}.

Definition NewBox (width : Z) : Box :=
  {| width := width; title := []; content := []; double := false; color := [] |}.

Definition SetTitle (b : Box) (title : list rune) : Box :=
  {| width := width b; title := title; content := content b; double := double b;
     color := color b |}.

Definition SetDouble (b : Box) (double : bool) : Box :=
  {| width := width b; title := title b; content := content b; double := double;
     color := color b |}.

Definition SetColor (b : Box) (color : list rune) : Box :=
  {| width := width b; title := title b; content := content b; double := double b;
     color := color |}.

Definition AddLine (b : Box) (line : list rune) : Box :=
  {| width := width b; title := title b; content := content b ++ [line];
     double := double b; color := color b |}.

Definition separator : list rune := runes "---SEPARATOR---".

Definition AddSeparator (b : Box) : Box :=
  {| width := width b; title := title b; content := content b ++ [separator];
     double := double b; color := color b |}.

(** The top border of [Box.String], appended to the builder [sb]. *)
Definition Box_String_top (b : Box) (tl tr h : list rune) (sb : list rune)
    : outcome (list rune) :=
  if negb (bool_decide (title b = [])) then
    let titleLen := int (len_bytes (title b) + 2) in
    let leftPad := Z.quot (int (int (width b - 2) - titleLen)) 2 in
    let rightPad := int (int (int (width b - 2) - titleLen) - leftPad) in
    match Repeat h leftPad with
    | Panics msg => Panics msg
    | Returns leftLine =>
      match Repeat h rightPad with
      | Panics msg => Panics msg
      | Returns rightLine =>
        Returns (sb ++ color b ++ tl ++ leftLine ++ (runes " " ++ title b ++ runes " ")
                 ++ rightLine ++ tr ++ (Reset ++ [10]))
      end
    end
  else
    match Repeat h (int (width b - 2)) with
    | Panics msg => Panics msg
    | Returns middle => Returns (sb ++ color b ++ tl ++ middle ++ tr ++ (Reset ++ [10]))
    end.

(** One turn of the loop of [Box.String] over the content. *)
Definition Box_String_line (b : Box) (h v : list rune) (line : list rune)
    (sb : list rune) : outcome (list rune) :=
  if bool_decide (line = runes "---SEPARATOR---") then
    match Repeat h (int (width b - 2)) with
    | Panics msg => Panics msg
    | Returns middle =>
      Returns (sb ++ color b ++ BoxTeeRight ++ middle ++ BoxTeeLeft ++ (Reset ++ [10]))
    end
  else
    let lineLen := visibleLength line in
    let contentWidth := int (width b - 4) in
    let displayLine :=
      if lineLen >? contentWidth then truncateWithEllipsis line contentWidth else line in
    let padding := int (contentWidth - visibleLength displayLine) in
    let padding := if padding <? 0 then 0 else padding in
    match Repeat (runes " ") padding with
    | Panics msg => Panics msg
    | Returns spaces =>
      Returns (sb ++ color b ++ v ++ Reset
               ++ (runes " " ++ displayLine ++ spaces ++ runes " ")
               ++ color b ++ v ++ (Reset ++ [10]))
    end.

Fixpoint Box_String_loop (b : Box) (h v : list rune) (content : list (list rune))
    (sb : list rune) : outcome (list rune) :=
  match content with
  | [] => Returns sb
  | line :: rest =>
    match Box_String_line b h v line sb with
    | Panics msg => Panics msg
    | Returns sb' => Box_String_loop b h v rest sb'
    end
  end.

Definition Box_String (b : Box) : outcome (list rune) :=
  let '(tl, tr, bl, br, h, v) :=
    if double b
    then (BoxDoubleTopLeft, BoxDoubleTopRight, BoxDoubleBottomLeft, BoxDoubleBottomRight,
          BoxDoubleHorizontal, BoxDoubleVertical)
    else (BoxTopLeft, BoxTopRight, BoxBottomLeft, BoxBottomRight,
          BoxHorizontal, BoxVertical) in
  match Box_String_top b tl tr h [] with
  | Panics msg => Panics msg
  | Returns sb =>
    match Box_String_loop b h v (content b) sb with
    | Panics msg => Panics msg
    | Returns sb =>
      match Repeat h (int (width b - 2)) with
      | Panics msg => Panics msg
      | Returns middle =>
        Returns (sb ++ color b ++ bl ++ middle ++ br ++ (Reset ++ [10]))
      end
    end
  end.

(** A colour code, or several: nothing of it shows and it stops outside
    an escape sequence. *)
Definition invisible (code : list rune) : bool :=
  negb (fst (visibleLength_loop code false 0))
  && (snd (visibleLength_loop code false 0) =? 0).

(** Printable ASCII. *)
Definition printable (r : rune) : bool := (32 <=? r) && (r <? 127).

End cli.
(** * Proofs *)

(** ** Running computations *)

Section MonadFacts.
Context `{Host}.

Lemma bind_run {A B : Type} (m : M A) (k : A -> M B) (w : World) :
  (x <- m ;; k x) w = k (fst (m w)) (snd (m w)).
Proof. unfold bind. destruct (m w); reflexivity. Qed.

Lemma ret_run {A : Type} (a : A) (w : World) : ret a w = (a, w).
Proof. reflexivity. Qed.

Lemma for_range_nil {A S : Type} (body : A -> S -> M S) (s : S) (w : World) :
  for_range [] body s w = (s, w).
Proof. reflexivity. Qed.

Lemma for_range_cons {A S : Type} (x : A) (l : list A) (body : A -> S -> M S)
    (s : S) (w : World) :
  for_range (x :: l) body s w
  = for_range l body (fst (body x s w)) (snd (body x s w)).
Proof. simpl. apply bind_run. Qed.

(** A property of the accumulator that every iteration keeps holds when
    the loop ends. *)
Lemma for_range_invariant {A S : Type} (P : S -> Prop) (body : A -> S -> M S)
    (l : list A) :
  (forall x s w, In x l -> P s -> P (fst (body x s w))) ->
  forall s w, P s -> P (fst (for_range l body s w)).
Proof.
  induction l as [|x l IH]; intros Hbody s w Hs.
  - exact Hs.
  - rewrite for_range_cons. apply IH.
    + intros y s' w' Hy. apply Hbody. right; exact Hy.
    + apply Hbody; [left; reflexivity | exact Hs].
Qed.

End MonadFacts.

(** ** Unfolding the checks *)

Create HintDb leaf_checks discriminated.
#[global] Hint Unfold
  OpenSearchChecks.CheckEncryptionAtRest OpenSearchChecks.CheckNodeToNodeEncryption OpenSearchChecks.CheckHTTPS OpenSearchChecks.CheckVPCDeployment OpenSearchChecks.CheckAuditLogs OpenSearchChecks.CheckFineGrainedAccessControl
  SageMakerChecks.CheckNotebookEncryption SageMakerChecks.CheckNotebookDirectInternet SageMakerChecks.CheckNotebookRootAccess SageMakerChecks.CheckEndpointEncryption SageMakerChecks.CheckTrainingJobEncryption SageMakerChecks.CheckModelNetworkIsolation
  ElastiCacheChecks.CheckEncryptionAtRest ElastiCacheChecks.CheckEncryptionInTransit ElastiCacheChecks.CheckAutoMinorVersionUpgrade ElastiCacheChecks.CheckAuthToken ElastiCacheChecks.CheckBackupRetention
  RedshiftChecks.CheckClusterEncryption RedshiftChecks.CheckClusterPublicAccess RedshiftChecks.CheckClusterLogging RedshiftChecks.CheckClusterSSL RedshiftChecks.CheckClusterVersionUpgrade RedshiftChecks.CheckClusterBackupRetention RedshiftChecks.CheckClusterEnhancedVPCRouting
  : leaf_checks.

Create HintDb leaf_loops discriminated.
#[global] Hint Unfold
  OpenSearchChecks.CheckEncryptionAtRest_loop OpenSearchChecks.CheckNodeToNodeEncryption_loop OpenSearchChecks.CheckHTTPS_loop OpenSearchChecks.CheckVPCDeployment_loop OpenSearchChecks.CheckAuditLogs_loop OpenSearchChecks.CheckFineGrainedAccessControl_loop
  SageMakerChecks.CheckNotebookEncryption_loop SageMakerChecks.CheckNotebookDirectInternet_loop SageMakerChecks.CheckNotebookRootAccess_loop SageMakerChecks.CheckEndpointEncryption_loop SageMakerChecks.CheckTrainingJobEncryption_loop SageMakerChecks.CheckModelNetworkIsolation_loop
  ElastiCacheChecks.CheckEncryptionAtRest_loop ElastiCacheChecks.CheckEncryptionInTransit_loop ElastiCacheChecks.CheckAutoMinorVersionUpgrade_loop ElastiCacheChecks.CheckAuthToken_loop ElastiCacheChecks.CheckBackupRetention_loop
  RedshiftChecks.CheckClusterEncryption_loop RedshiftChecks.CheckClusterPublicAccess_loop RedshiftChecks.CheckClusterLogging_loop RedshiftChecks.CheckClusterSSL_loop RedshiftChecks.CheckClusterVersionUpgrade_loop RedshiftChecks.CheckClusterBackupRetention_loop RedshiftChecks.CheckClusterEnhancedVPCRouting_loop
  : leaf_loops.

(** ** Vacuous compliance *)

Section VacuousPass.
Context `{Host}.
Variable aws : AWS.

Lemma identifiers_nil {R X : Type} (call : M (result R)) (items : R -> list X)
    (id : X -> option string) (w w1 : World) :
  identifiers call items id w = (Ok [], w1) ->
  exists r, call w = (Ok r, w1) /\ items r = [].
Proof.
  unfold identifiers. rewrite bind_run.
  destruct (call w) as [[r|e] w0]; simpl; intros Heq; inversion Heq; subst.
  exists r. split; [reflexivity|].
  destruct (items r); [reflexivity | discriminate].
Qed.

Ltac run_empty_listing Hcall Hnil :=
  rewrite bind_run, Hcall; simpl; rewrite bind_run, Hnil; simpl;
  rewrite bind_run; simpl;
  eexists; eexists; split; [reflexivity|]; simpl;
  repeat split.

(** C1. A leaf check whose list call succeeds with an empty list returns
    PASS with priority INFO and the evidence that no resources of its type
    were found; it never reports FAIL. *)
Theorem vacuous_pass (leaf : Leaf) (w w1 : World) :
  leaf_listing aws leaf w = (Ok [], w1) ->
  exists r w',
    run_leaf aws leaf w = (Ok r, w')
    /\ Status r = "PASS"
    /\ Priority r = PriorityInfo
    /\ Severity r = EmptyString
    /\ Evidence r = nothing_found leaf.
Proof.
  intros Hl.
  destruct leaf; simpl in Hl; apply identifiers_nil in Hl;
    destruct Hl as [resp [Hcall Hnil]]; simpl.
  all: autounfold with leaf_checks leaf_loops.
  all: run_empty_listing Hcall Hnil.
Qed.

End VacuousPass.

(** ** Failing results *)

Lemma append_nonempty_r (s1 s2 : string) :
  s2 <> EmptyString -> s1 +:+ s2 <> EmptyString.
Proof.
  intros Hs2 Heq. destruct s1; simpl in Heq; [contradiction | discriminate].
Qed.

Lemma fmt_v_nonempty (l : list string) : fmt_v l <> EmptyString.
Proof. unfold fmt_v. simpl. discriminate. Qed.

Lemma evidence_nonempty (n : Z) (phrase : string) (l : list string) :
  fmt_d n +:+ phrase +:+ fmt_v l <> EmptyString.
Proof. do 2 apply append_nonempty_r. apply fmt_v_nonempty. Qed.

Lemma len_pos_nonempty {A : Type} (l : list A) : (len l >? 0) = true -> l <> [].
Proof. intros Hl ->. discriminate. Qed.

Section FailingResults.
Context `{Host}.
Variable aws : AWS.

(** One step of a computation under analysis: name the outcome of the
    next call. *)
Ltac step_in Hrun :=
  match type of Hrun with
  | context [let (_, _) := ?c in _] => destruct c as [? ?] eqn:?
  | context [match ?c with _ => _ end] => destruct c eqn:?
  end.

Ltac step :=
  match goal with
  | |- context [let (_, _) := ?c in _] => destruct c as [? ?] eqn:?
  | |- context [match ?c with _ => _ end] => destruct c eqn:?
  end.

(** One iteration of a collecting loop: the accumulator is unchanged, or
    gains an entry that names the resource [x] at hand. *)
Ltac keep_names x Hx Hs :=
  unfold bind, ret; simpl;
  repeat step; simpl;
  try exact Hs;
  let entry := fresh "entry" in
  let He := fresh "He" in
  intros entry He; apply in_app_or in He; destruct He as [He|[<-|[]]];
  [ apply Hs, He
  | eexists; split; [apply in_map, Hx | first [reflexivity | eexists; reflexivity]] ].

Ltac loop_invariant :=
  match goal with
  | |- forall entry, In entry (fst ?lp) -> _ =>
      pattern (fst lp); apply for_range_invariant; cbv beta
  end.

Ltac loop_names :=
  loop_invariant; [| intros ? []];
  let x := fresh "x" in
  let Hx := fresh "Hx" in
  let Hs := fresh "Hs" in
  intros x ? ? Hx Hs;
  first [ loop_invariant; [| exact Hs];
          let Hs' := fresh "Hs" in
          intros ? ? ? ? Hs'; keep_names x Hx Hs'
        | keep_names x Hx Hs ].

(** The violating resources a leaf collects name resources of its
    listing. *)
Lemma violators_name_resources (leaf : Leaf) (w w2 : World) (violators : list string) :
  leaf_violators aws leaf w = (Ok violators, w2) ->
  exists ids w1,
    leaf_listing aws leaf w = (Ok ids, w1)
    /\ forall entry, In entry violators ->
         exists id, In id ids /\ names_resource leaf (ToString id) entry.
Proof.
  intros Hv.
  destruct leaf; simpl in Hv; unfold collect in Hv; rewrite bind_run in Hv;
    match type of Hv with
    | context [fst (?c w)] => destruct (c w) as [[resp|e] w1] eqn:Hcall
    end;
    simpl in Hv; try (unfold ret in Hv; discriminate Hv);
    rewrite bind_run in Hv; unfold ret in Hv; inversion Hv; subst; clear Hv.
  all: eexists; eexists;
       split; [unfold leaf_listing, identifiers; rewrite bind_run, Hcall; reflexivity|].
  all: autounfold with leaf_loops; loop_names.
Qed.

(** A result with status FAIL comes from a non-empty collection of
    violating resources, with a severity, and its evidence is their count,
    what is wrong with them, and the list the leaf shows. *)
Lemma failing_result_shape (leaf : Leaf) (w w' : World) (r : CheckResult) :
  run_leaf aws leaf w = (Ok r, w') ->
  Status r = "FAIL" ->
  exists violators w2,
    leaf_violators aws leaf w = (Ok violators, w2)
    /\ violators <> []
    /\ Severity r <> EmptyString
    /\ Evidence r
       = fmt_d (len violators) +:+ violation leaf +:+ fmt_v (shown leaf violators).
Proof.
  intros Hrun Hfail.
  destruct leaf; simpl in Hrun; autounfold with leaf_checks in Hrun;
    unfold bind at 1 in Hrun; step_in Hrun; step_in Hrun;
    try discriminate Hrun;
    unfold bind at 1 in Hrun; step_in Hrun;
    match type of Hrun with
    | context [len ?v >? 0] => destruct (len v >? 0) eqn:Hlen
    end.
  all: try (match type of Hrun with
            | context [len ?v =? 0] => destruct (len v =? 0)
            end).
  all: unfold bind, ret in Hrun; step_in Hrun;
       inversion Hrun; subst; simpl in Hfail; try discriminate Hfail; simpl.
  all: match goal with
       | Hloop : _ = (?v, ?w2) |- _ =>
           match type of Hlen with (len v >? 0) = true =>
             exists v, w2;
             split; [unfold collect, bind, ret;
                     match goal with Hc : _ = (Ok _, _) |- _ => rewrite Hc end;
                     rewrite Hloop; reflexivity|];
             split; [apply len_pos_nonempty, Hlen|];
             split; [discriminate | reflexivity]
           end
       end.
Qed.

(** C2. A result with status FAIL carries a severity and an evidence that
    are not empty. The evidence is the count of the violating resources
    the leaf collected (at least one), what is wrong with them, and their
    list, passed through [truncateList] by the leaves that truncate; each
    violating entry names a resource of the listing. *)
Theorem fail_has_severity_and_evidence (leaf : Leaf) (w w' : World) (r : CheckResult) :
  run_leaf aws leaf w = (Ok r, w') ->
  Status r = "FAIL" ->
  Severity r <> EmptyString
  /\ Evidence r <> EmptyString
  /\ exists ids w1 violators w2,
       leaf_listing aws leaf w = (Ok ids, w1)
       /\ leaf_violators aws leaf w = (Ok violators, w2)
       /\ violators <> []
       /\ (forall entry, In entry violators ->
             exists id, In id ids /\ names_resource leaf (ToString id) entry)
       /\ Evidence r
          = fmt_d (len violators) +:+ violation leaf +:+ fmt_v (shown leaf violators).
Proof.
  intros Hrun Hfail.
  destruct (failing_result_shape leaf w w' r Hrun Hfail)
    as (violators & w2 & Hv & Hne & Hsev & Hev).
  destruct (violators_name_resources leaf w w2 violators Hv)
    as (ids & w1 & Hids & Hnames).
  split; [exact Hsev|].
  split; [rewrite Hev; apply evidence_nonempty|].
  exists ids, w1, violators, w2. auto.
Qed.

End FailingResults.

(** ** What [Run] returns *)

Section RunFacts.
Context `{Host}.

Ltac next_outcome :=
  match goal with
  | |- context [let (_, _) := ?c in _] => destruct c as [[?|?] ?]
  end.

(** [Run] returns the results of the sub-checks that succeeded, in the
    order of the calls, and no error. *)
Lemma Run_outcomes (aws : AWS) (id : CheckerId) (w : World) :
  checker_Run (checker_of aws id) w
  = ((successes (fst (outcomes aws id w)), None), snd (outcomes aws id w)).
Proof.
  destruct id; unfold outcomes; simpl;
    unfold OpenSearchChecks.Run, SageMakerChecks.Run, ElastiCacheChecks.Run,
      RedshiftChecks.Run;
    unfold bind, ret;
    repeat next_outcome; reflexivity.
Qed.

Lemma successes_omissions_length (leaves : list Leaf) (rs : list (result CheckResult)) :
  length rs = length leaves ->
  (length (successes rs) + length (omissions leaves rs) = length leaves)%nat.
Proof.
  revert rs. induction leaves as [|leaf leaves IH]; intros [|[r|e] rs] Hlen;
    simpl in *; try discriminate; try reflexivity.
  - rewrite IH by congruence. reflexivity.
  - rewrite <- plus_n_Sm. rewrite IH by congruence. reflexivity.
Qed.

Lemma run_all_length (checks : list (M (result CheckResult))) (w : World) :
  length (fst (run_all checks w)) = length checks.
Proof.
  revert w. induction checks as [|c checks IH]; intros w; simpl.
  - reflexivity.
  - rewrite !bind_run. simpl. rewrite IH. reflexivity.
Qed.

Lemma successes_In (rs : list (result CheckResult)) (r : CheckResult) :
  In r (successes rs) <-> In (Ok r) rs.
Proof.
  induction rs as [|[r'|e] rs IH]; simpl.
  - tauto.
  - rewrite IH. split; intros [Heq|Hin]; auto; left; congruence.
  - rewrite IH. split; [auto | intros [Heq|Hin]; [discriminate | exact Hin]].
Qed.

Lemma successes_all_failures (rs : list (result CheckResult)) :
  forallb is_failure rs = true -> successes rs = [].
Proof.
  induction rs as [|[r|e] rs IH]; simpl; intros Hall;
    [reflexivity | discriminate | exact (IH Hall)].
Qed.

(** C3, as the code has it. For each checker of the corpus, [Run] returns
    exactly the results of the sub-checks that succeeded, in order, and a
    nil error: a sub-check that returns an error contributes no result
    (no FAIL or PASS is made up for it), so results and failed sub-checks
    add up to the number of sub-checks. The errors themselves are
    discarded. *)
Theorem failed_checks_are_left_out (aws : AWS) (id : CheckerId) (w : World) :
  let rs := fst (outcomes aws id w) in
  checker_Run (checker_of aws id) w = ((successes rs, None), snd (outcomes aws id w))
  /\ (length (successes rs) + length (omissions (sub_checks id) rs)
      = length (sub_checks id))%nat
  /\ forall r, In r (successes rs) <-> In (Ok r) rs.
Proof.
  intros rs. split; [apply Run_outcomes|]. split.
  - apply successes_omissions_length. unfold rs, outcomes.
    rewrite run_all_length. apply length_map.
  - intros r. apply successes_In.
Qed.

Lemma Runner_no_omissions (aws : AWS) (ids : list CheckerId) (w : World) :
  snd (fst (Runner (map (checker_of aws) ids) w)) = [].
Proof.
  revert w. induction ids as [|id ids IH]; intros w; simpl.
  - reflexivity.
  - rewrite bind_run, Run_outcomes. simpl. rewrite bind_run. simpl. apply IH.
Qed.

(** C9. For every checker of the corpus and every world, [Run] returns a
    nil error: its results are those of the sub-checks that succeeded, the
    empty list when every sub-check fails. A Runner that records the
    checkers returning an error therefore records none of these. *)
Theorem run_returns_no_error (aws : AWS) (id : CheckerId) (w : World) :
  snd (fst (checker_Run (checker_of aws id) w)) = None
  /\ fst (fst (checker_Run (checker_of aws id) w)) = successes (fst (outcomes aws id w))
  /\ (forallb is_failure (fst (outcomes aws id w)) = true ->
      fst (checker_Run (checker_of aws id) w) = ([], None))
  /\ forall (ids : list CheckerId) (w0 : World),
       snd (fst (Runner (map (checker_of aws) ids) w0)) = [].
Proof.
  rewrite Run_outcomes. simpl.
  split; [reflexivity|]. split; [reflexivity|]. split.
  - intros Hall. rewrite (successes_all_failures _ Hall). reflexivity.
  - apply Runner_no_omissions.
Qed.

End RunFacts.

(** When every call is refused, every sub-check fails and [Run] returns an
    empty list and no error. *)
Example run_refused_everywhere :
  forallb (fun id =>
    forallb is_failure (fst (outcomes (H := clock_host) (refusing_account "AccessDenied") id 0))
    && match fst (checker_Run (checker_of (H := clock_host) (refusing_account "AccessDenied") id) 0) with
       | ([], None) => true
       | _ => false
       end)
    [OpenSearch; SageMaker; ElastiCache; Redshift] = true.
Proof. vm_compute. reflexivity. Qed.

(** C3, counterexample. Two accounts whose ElastiCache calls are refused
    with different errors: [Run] returns the same value on both, an empty
    list and a nil error, although the failed sub-checks and their errors
    differ. So the return value of [Run] does not surface the omissions. *)
Lemma omissions_not_surfaced :
  fst (checker_Run (checker_of (H := clock_host) (refusing_account "AccessDenied") ElastiCache) 0)
  = fst (checker_Run (checker_of (H := clock_host) (refusing_account "Throttling") ElastiCache) 0)
  /\ omissions (sub_checks ElastiCache)
       (fst (outcomes (H := clock_host) (refusing_account "AccessDenied") ElastiCache 0))
     <> omissions (sub_checks ElastiCache)
          (fst (outcomes (H := clock_host) (refusing_account "Throttling") ElastiCache 0))
  /\ ~ surfaces_omissions (H := clock_host) ElastiCache.
Proof.
  assert (Hrun :
    fst (checker_Run (checker_of (H := clock_host) (refusing_account "AccessDenied") ElastiCache) 0)
    = fst (checker_Run (checker_of (H := clock_host) (refusing_account "Throttling") ElastiCache) 0))
    by (vm_compute; reflexivity).
  assert (Hom :
    omissions (sub_checks ElastiCache)
      (fst (outcomes (H := clock_host) (refusing_account "AccessDenied") ElastiCache 0))
    <> omissions (sub_checks ElastiCache)
         (fst (outcomes (H := clock_host) (refusing_account "Throttling") ElastiCache 0)))
    by (vm_compute; discriminate).
  split; [exact Hrun|]. split; [exact Hom|].
  intros [report Hreport]. apply Hom.
  rewrite <- (Hreport (refusing_account "AccessDenied") 0).
  rewrite <- (Hreport (refusing_account "Throttling") 0).
  rewrite Hrun. reflexivity.
Qed.

(** ** Redshift cluster encryption *)

Section RedshiftEncryption.
Context `{Host}.
Import redshift.

Lemma unencrypted_loop_collects (clusters : list Cluster) (acc : list string) (w : World) :
  for_range clusters (fun cluster unencrypted =>
      let clusterID := ToString (ClusterIdentifier cluster) in
      if negb (ToBool (Encrypted cluster))
      then ret (unencrypted ++ [clusterID])
      else ret unencrypted) acc w
  = (acc ++ unencrypted_clusters clusters, w).
Proof.
  revert acc. induction clusters as [|c clusters IH]; intros acc.
  - simpl. rewrite app_nil_r. reflexivity.
  - rewrite for_range_cons. unfold unencrypted_clusters. simpl.
    destruct (negb (ToBool (Encrypted c))); simpl; rewrite IH.
    + rewrite <- app_assoc. reflexivity.
    + reflexivity.
Qed.

Lemma unencrypted_clusters_nonempty (clusters : list Cluster) :
  (exists cluster, In cluster clusters /\ ToBool (Encrypted cluster) = false) ->
  unencrypted_clusters clusters <> [].
Proof.
  intros (c & Hin & Henc) Hnil.
  assert (Hc : In (ToString (ClusterIdentifier c)) (unencrypted_clusters clusters)).
  { unfold unencrypted_clusters.
    apply (in_map (fun cluster => ToString (ClusterIdentifier cluster))).
    apply filter_In. split; [exact Hin | rewrite Henc; reflexivity]. }
  rewrite Hnil in Hc. destruct Hc.
Qed.

(** C6. When the cluster listing holds at least one cluster that is not
    encrypted, [CheckClusterEncryption] returns FAIL with severity CRITICAL
    and the evidence "<n> Redshift clusters NOT encrypted: [<ids>]", for the
    identifiers of the unencrypted clusters, in listing order, and their
    count. *)
Theorem unencrypted_cluster_fails (client : Client) (w w1 : World)
    (clusters : DescribeClustersOutput) :
  DescribeClusters client w = (Ok clusters, w1) ->
  (exists cluster, In cluster (Clusters clusters) /\ ToBool (Encrypted cluster) = false) ->
  exists r w',
    RedshiftChecks.CheckClusterEncryption client w = (Ok r, w')
    /\ Status r = "FAIL"
    /\ Severity r = "CRITICAL"
    /\ Evidence r
       = fmt_d (len (unencrypted_clusters (Clusters clusters)))
         +:+ " Redshift clusters NOT encrypted: "
         +:+ fmt_v (unencrypted_clusters (Clusters clusters)).
Proof.
  intros Hcall Hsome.
  apply unencrypted_clusters_nonempty in Hsome.
  unfold RedshiftChecks.CheckClusterEncryption, RedshiftChecks.CheckClusterEncryption_loop.
  rewrite bind_run, Hcall. simpl.
  rewrite bind_run, unencrypted_loop_collects. simpl.
  destruct (unencrypted_clusters (Clusters clusters)) as [|u us] eqn:Hu;
    [contradiction|].
  replace (len (u :: us) >? 0) with true
    by (unfold len; simpl length; symmetry; apply Z.gtb_lt; lia).
  rewrite bind_run. simpl.
  eexists; eexists; split; [reflexivity|]. simpl. auto.
Qed.

End RedshiftEncryption.

(** Scenario A: three clusters, [cluster-a] alone not encrypted. *)
Lemma scenario_A :
  (exists cluster, In cluster scenario_A_clusters
                   /\ ToBool (redshift.Encrypted cluster) = false)
  /\ exists r w',
       RedshiftChecks.CheckClusterEncryption (H := clock_host) scenario_A_redshift 0
       = (Ok r, w')
       /\ Status r = "FAIL"
       /\ Severity r = "CRITICAL"
       /\ Evidence r = "1 Redshift clusters NOT encrypted: [cluster-a]".
Proof.
  assert (Hsome : exists cluster, In cluster scenario_A_clusters
                                  /\ ToBool (redshift.Encrypted cluster) = false).
  { exists (redshift_cluster "cluster-a" false). split; [left; reflexivity | reflexivity]. }
  split; [exact Hsome|].
  destruct (unencrypted_cluster_fails (H := clock_host) scenario_A_redshift 0 0
              {| redshift.Clusters := scenario_A_clusters |} eq_refl Hsome)
    as (r & w' & Hrun & Hstatus & Hsev & Hev).
  exists r, w'. repeat split; assumption.
Defined.

(** ** Truncation of the evidence *)

Lemma append_cancel_l (s x y : string) : s +:+ x = s +:+ y -> x = y.
Proof.
  induction s as [|c s IH]; simpl; intros Heq; [exact Heq|].
  injection Heq as Heq. exact (IH Heq).
Qed.

Section Truncation.
Context `{Host}.

(** C7, as the code has it. A failing leaf shows the violating resources
    it collected after their count; the SageMaker training-job and model
    checks pass the list through [truncateList] with a budget of 5, and
    every other leaf shows the list in full. *)
Theorem only_two_leaves_truncate (aws : AWS) (leaf : Leaf) (w w' : World)
    (r : CheckResult) :
  run_leaf aws leaf w = (Ok r, w') ->
  Status r = "FAIL" ->
  (truncates leaf = true <->
     leaf = SageMaker_TrainingJobEncryption \/ leaf = SageMaker_ModelNetworkIsolation)
  /\ exists violators w2,
       leaf_violators aws leaf w = (Ok violators, w2)
       /\ Evidence r
          = fmt_d (len violators) +:+ violation leaf
            +:+ fmt_v (if truncates leaf then truncateList violators 5 else violators).
Proof.
  intros Hrun Hfail. split.
  - destruct leaf; simpl; split; intros Hl;
      try discriminate; auto; destruct Hl as [Hl|Hl]; discriminate.
  - destruct (failing_result_shape aws leaf w w' r Hrun Hfail)
      as (violators & w2 & Hv & _ & _ & Hev).
    exists violators, w2. split; [exact Hv | exact Hev].
Qed.

End Truncation.

(** Six unencrypted training jobs: the evidence shows five of them. *)
Lemma six_training_jobs_truncated :
  exists r w',
    run_leaf (H := clock_host) six_unencrypted_account SageMaker_TrainingJobEncryption 0
    = (Ok r, w')
    /\ Status r = "FAIL"
    /\ Evidence r
       = "6 training jobs without volume encryption: [n1 n2 n3 n4 n5 +1 more]".
Proof.
  assert (Hrun :
    exists r w',
      run_leaf (H := clock_host) six_unencrypted_account SageMaker_TrainingJobEncryption 0
      = (Ok r, w') /\ Status r = "FAIL").
  { eexists; eexists; split; vm_compute; reflexivity. }
  destruct Hrun as (r & w' & Hrun & Hfail).
  exists r, w'. split; [exact Hrun|]. split; [exact Hfail|].
  destruct (only_two_leaves_truncate (H := clock_host) _ _ _ _ _ Hrun Hfail)
    as (_ & violators & w2 & Hv & Hev).
  vm_compute in Hv. injection Hv as <- _.
  rewrite Hev. vm_compute. reflexivity.
Defined.

(** C7, counterexample. With six unencrypted notebooks and six unencrypted
    training jobs of the same names, the notebook check shows all six
    names and the training-job check shows five and a count: no single
    policy gives both lists. *)
Lemma truncation_not_consistent :
  (exists r1 r2 w1 w2 w3 w4,
     run_leaf (H := clock_host) six_unencrypted_account SageMaker_NotebookEncryption 0
     = (Ok r1, w1)
     /\ run_leaf (H := clock_host) six_unencrypted_account SageMaker_TrainingJobEncryption 0
        = (Ok r2, w2)
     /\ leaf_violators (H := clock_host) six_unencrypted_account
          SageMaker_NotebookEncryption 0 = (Ok six_names, w3)
     /\ leaf_violators (H := clock_host) six_unencrypted_account
          SageMaker_TrainingJobEncryption 0 = (Ok six_names, w4)
     /\ Evidence r1 = "6 notebooks without KMS encryption: [n1 n2 n3 n4 n5 n6]"
     /\ Evidence r2
        = "6 training jobs without volume encryption: [n1 n2 n3 n4 n5 +1 more]")
  /\ ~ consistent_truncation (H := clock_host).
Proof.
  assert (Hboth :
    exists r1 r2 w1 w2 w3 w4,
     run_leaf (H := clock_host) six_unencrypted_account SageMaker_NotebookEncryption 0
     = (Ok r1, w1)
     /\ run_leaf (H := clock_host) six_unencrypted_account SageMaker_TrainingJobEncryption 0
        = (Ok r2, w2)
     /\ leaf_violators (H := clock_host) six_unencrypted_account
          SageMaker_NotebookEncryption 0 = (Ok six_names, w3)
     /\ leaf_violators (H := clock_host) six_unencrypted_account
          SageMaker_TrainingJobEncryption 0 = (Ok six_names, w4)
     /\ Evidence r1 = "6 notebooks without KMS encryption: [n1 n2 n3 n4 n5 n6]"
     /\ Evidence r2
        = "6 training jobs without volume encryption: [n1 n2 n3 n4 n5 +1 more]").
  { do 6 eexists. repeat split; vm_compute; reflexivity. }
  split; [exact Hboth|].
  destruct Hboth as (r1 & r2 & w1 & w2 & w3 & w4 & Hr1 & Hr2 & Hv1 & Hv2 & He1 & He2).
  intros [policy Hpolicy].
  assert (Hf1 : Status r1 = "FAIL")
    by (vm_compute in Hr1; injection Hr1 as <- _; reflexivity).
  assert (Hf2 : Status r2 = "FAIL")
    by (vm_compute in Hr2; injection Hr2 as <- _; reflexivity).
  pose proof (Hpolicy _ _ _ _ _ _ _ Hr1 Hf1 Hv1) as H1.
  pose proof (Hpolicy _ _ _ _ _ _ _ Hr2 Hf2 Hv2) as H2.
  rewrite He1 in H1. rewrite He2 in H2.
  apply (append_cancel_l "6 notebooks without KMS encryption: "
           "[n1 n2 n3 n4 n5 n6]" (fmt_v (policy six_names))) in H1.
  apply (append_cancel_l "6 training jobs without volume encryption: "
           "[n1 n2 n3 n4 n5 +1 more]" (fmt_v (policy six_names))) in H2.
  rewrite <- H1 in H2. discriminate H2.
Qed.

(** ** Scenarios for the leaf properties *)

(** Scenario B and its kin: in an account without resources every leaf
    passes vacuously; for the Redshift encryption check the evidence is
    "No Redshift clusters found". *)
Lemma scenario_B :
  leaf_listing (H := clock_host) empty_account Redshift_ClusterEncryption 0 = (Ok [], 0)
  /\ exists r w',
       run_leaf (H := clock_host) empty_account Redshift_ClusterEncryption 0 = (Ok r, w')
       /\ Status r = "PASS"
       /\ Priority r = PriorityInfo
       /\ Evidence r = "No Redshift clusters found".
Proof.
  split; [reflexivity|].
  destruct (vacuous_pass (H := clock_host) empty_account Redshift_ClusterEncryption 0 0 eq_refl)
    as (r & w' & Hrun & Hstatus & Hprio & _ & Hev).
  exists r, w'. repeat split; assumption.
Defined.

(** A Redis replication group keeping snapshots for three days: the
    backup-retention check fails with severity MEDIUM and names the group
    and its retention. *)
Lemma short_retention_fails :
  exists r w',
    run_leaf (H := clock_host) short_retention_account ElastiCache_BackupRetention 0
    = (Ok r, w')
    /\ Status r = "FAIL"
    /\ Severity r = "MEDIUM"
    /\ Severity r <> EmptyString
    /\ Evidence r <> EmptyString
    /\ Evidence r = "1 Redis groups with backup retention < 7 days: [sessions (3 days)]".
Proof.
  assert (Hrun :
    exists r w',
      run_leaf (H := clock_host) short_retention_account ElastiCache_BackupRetention 0
      = (Ok r, w')
      /\ Status r = "FAIL" /\ Severity r = "MEDIUM"
      /\ Evidence r = "1 Redis groups with backup retention < 7 days: [sessions (3 days)]").
  { eexists; eexists; repeat split; vm_compute; reflexivity. }
  destruct Hrun as (r & w' & Hrun & Hfail & Hsev & Hev).
  destruct (fail_has_severity_and_evidence (H := clock_host) _ _ _ _ _ Hrun Hfail)
    as (Hs & He & _).
  exists r, w'. repeat split; assumption.
Defined.
(** ** The scan cache *)

Section CacheFacts.
Import offline.
Variable float64 : Type.
Variable MarshalIndent : CachedScan float64 -> result string.
Variable Unmarshal : string -> result (CachedScan float64).
Variable Join : string -> string -> string.
Variable Format : Time -> string.
Variable write_fault : string -> string -> option fault.
Variable read_refused : string -> option error.

#[local] Abbreviation Save := (Save float64 MarshalIndent Join Format write_fault).
#[local] Abbreviation LoadLatest := (LoadLatest float64 Unmarshal Join read_refused).
#[local] Abbreviation LoadByTimestamp :=
  (LoadByTimestamp float64 Unmarshal Join Format read_refused).
#[local] Abbreviation loadFromFile := (loadFromFile float64 Unmarshal read_refused).
#[local] Abbreviation decoded := (decoded float64 Unmarshal read_refused).
#[local] Abbreviation if_readable := (if_readable float64 read_refused).

(** A [Save] that succeeds has written the marshalled scan to the
    timestamped file and to the latest file. *)
Lemma Save_writes (c : Cache) (scan : CachedScan float64) (fs fs' : gmap string string) :
  Save c scan fs = (None, fs') ->
  exists data,
    MarshalIndent scan = Ok data
    /\ fs' !! Join (basePath c)
               (getScanFilename Format (Provider _ scan) (AccountID _ scan)
                  (Framework _ scan) (Timestamp _ scan)) = Some data
    /\ fs' !! Join (basePath c)
               (getLatestFilename (Provider _ scan) (AccountID _ scan) (Framework _ scan))
       = Some data.
Proof.
  unfold offline.Save, WriteFile. intros Hsave.
  destruct (MarshalIndent scan) as [data|err]; [|discriminate].
  destruct (write_fault (Join (basePath c) (getScanFilename _ _ _ _ _)) data)
    as [[?|? ?]|]; [discriminate|discriminate|].
  destruct (write_fault (Join (basePath c) (getLatestFilename _ _ _)) data)
    as [[?|? ?]|]; [discriminate|discriminate|].
  injection Hsave as <-. exists data. split; [reflexivity|]. split.
  - match goal with
    | |- <[?p1 := _]> (<[?p2 := _]> _) !! _ = _ =>
        destruct (decide (p1 = p2)) as [->|Hne]
    end.
    + apply lookup_insert_eq.
    + rewrite lookup_insert_ne by exact Hne. apply lookup_insert_eq.
  - apply lookup_insert_eq.
Qed.

(** A load of a path that holds [data] decodes [data], when the path can
    be read. *)
Lemma loadFromFile_holding (c : Cache) (path data : string) (fs : gmap string string) :
  fs !! path = Some data -> loadFromFile c path fs = decoded path data.
Proof.
  intros Hdata. unfold offline.loadFromFile, offline.decoded, offline.if_readable, ReadFile.
  rewrite Hdata. destruct (read_refused path); reflexivity.
Qed.

(** C8, as amended. After [Save] of a scan succeeds, the timestamped file
    and the latest file hold the same bytes, those [MarshalIndent] gave
    for the scan, and [LoadLatest] for the scan's provider, account and
    framework answers with what [Unmarshal] makes of these bytes (with a
    read error when the file cannot be read), as [LoadByTimestamp] does.
    [LoadLatest] returns the saved scan when [Unmarshal] gives the scan
    back from these bytes, which [encoding/json] does not do for every
    scan. *)
Theorem load_latest_after_save (c : Cache) (scan : CachedScan float64)
    (fs fs' : gmap string string) :
  Save c scan fs = (None, fs') ->
  exists data,
    MarshalIndent scan = Ok data
    /\ fs' !! Join (basePath c)
               (getScanFilename Format (Provider _ scan) (AccountID _ scan)
                  (Framework _ scan) (Timestamp _ scan)) = Some data
    /\ fs' !! Join (basePath c)
               (getLatestFilename (Provider _ scan) (AccountID _ scan)
                  (Framework _ scan)) = Some data
    /\ LoadLatest c (Provider _ scan) (AccountID _ scan) (Framework _ scan) fs'
       = decoded (Join (basePath c)
                    (getLatestFilename (Provider _ scan) (AccountID _ scan)
                       (Framework _ scan))) data
    /\ LoadByTimestamp c (Provider _ scan) (AccountID _ scan) (Framework _ scan)
         (Timestamp _ scan) fs'
       = decoded (Join (basePath c)
                    (getScanFilename Format (Provider _ scan) (AccountID _ scan)
                       (Framework _ scan) (Timestamp _ scan))) data
    /\ (Unmarshal data = Ok scan ->
        LoadLatest c (Provider _ scan) (AccountID _ scan) (Framework _ scan) fs'
        = if_readable (Join (basePath c)
                         (getLatestFilename (Provider _ scan) (AccountID _ scan)
                            (Framework _ scan))) (Ok scan)).
Proof.
  intros Hsave.
  destruct (Save_writes c scan fs fs' Hsave) as (data & Hdata & Hscan & Hlatest).
  exists data. split; [exact Hdata|]. split; [exact Hscan|]. split; [exact Hlatest|].
  assert (Hload :
    LoadLatest c (Provider _ scan) (AccountID _ scan) (Framework _ scan) fs'
    = decoded (Join (basePath c)
                 (getLatestFilename (Provider _ scan) (AccountID _ scan)
                    (Framework _ scan))) data)
    by (apply loadFromFile_holding; exact Hlatest).
  split; [exact Hload|]. split.
  - apply loadFromFile_holding. exact Hscan.
  - intros Hback. rewrite Hload. unfold offline.decoded. rewrite Hback. reflexivity.
Qed.

Variable ReadDir : string -> gmap string string -> result (list DirEntry).
Variable remove_refused : string -> option error.

(** A file whose name is shorter than six bytes makes the prefix test
    panic, unless an earlier test skips the entry. *)
Lemma slice_to_short (name : string) :
  (String.length name < 6)%nat -> slice_to name 6 = Panics "slice bounds out of range".
Proof.
  intros Hshort. unfold slice_to.
  destruct (6 <=? String.length name)%nat eqn:Hle; [|reflexivity].
  apply Nat.leb_le in Hle. lia.
Qed.

Lemma ClearOlderThan_loop_short_name (c : Cache) (cutoff : Time) (entry : DirEntry)
    (rest : list DirEntry) (removed : Z) (fs : gmap string string) :
  IsDir entry = false ->
  (String.length (entry_Name entry) < 6)%nat ->
  ClearOlderThan_loop float64 Unmarshal Join read_refused remove_refused c cutoff
    (entry :: rest)
    removed fs = Panics "slice bounds out of range".
Proof.
  intros Hfile Hshort. simpl. rewrite Hfile, (slice_to_short _ Hshort). reflexivity.
Qed.

Lemma slice_to_long (name : string) :
  (6 <= String.length name)%nat -> slice_to name 6 = Returns (substring 0 6 name).
Proof.
  intros Hlong. unfold slice_to.
  destruct (6 <=? String.length name)%nat eqn:Hle; [reflexivity|].
  apply Nat.leb_gt in Hle. lia.
Qed.

(** With names of six bytes or more the loops run to their end. *)
Lemma ClearOlderThan_loop_long_names (c : Cache) (cutoff : Time)
    (entries : list DirEntry) :
  Forall (fun entry => (6 <= String.length (entry_Name entry))%nat) entries ->
  forall removed fs, exists removed' fs',
    ClearOlderThan_loop float64 Unmarshal Join read_refused remove_refused c cutoff
      entries removed fs
    = Returns (removed', fs').
Proof.
  induction 1 as [|entry rest Hlong _ IH]; intros removed fs; simpl.
  - eexists; eexists; reflexivity.
  - rewrite (slice_to_long _ Hlong).
    destruct (IsDir entry); [apply IH|].
    destruct (String.eqb _ "latest"); [apply IH|].
    destruct (loadFromFile _ _ _) as [scan|err]; [|apply IH].
    destruct (Timestamp _ scan <? cutoff); [|apply IH].
    destruct (Remove _ _ _) as [[err|] fs1]; apply IH.
Qed.

Lemma GetCacheInfo_loop_long_names (c : Cache) (fs : gmap string string)
    (entries : list DirEntry) :
  Forall (fun entry => (6 <= String.length (entry_Name entry))%nat) entries ->
  forall scans, exists scans',
    GetCacheInfo_loop float64 Unmarshal Join read_refused c fs entries scans
    = Returns scans'.
Proof.
  induction 1 as [|entry rest Hlong _ IH]; intros scans; simpl.
  - eexists; reflexivity.
  - rewrite (slice_to_long _ Hlong).
    destruct (IsDir entry); [apply IH|].
    destruct (negb _); [apply IH|].
    destruct (String.eqb _ "latest"); [apply IH|].
    destruct (loadFromFile _ _ _) as [scan|err]; apply IH.
Qed.

End CacheFacts.

Example Ext_examples :
  offline.Ext ".json" = ".json"
  /\ offline.Ext "scan-aws-1-soc2-20250101-000000.json" = ".json"
  /\ offline.Ext "archive.tar.gz" = ".gz"
  /\ offline.Ext "cache.d/readme" = EmptyString
  /\ offline.Ext "notes" = EmptyString.
Proof. repeat split. Qed.

(** A scan of the demo host is read back as it was saved. *)
Lemma demo_scan_round_trip :
  offline.Save Z offline.demo_Marshal offline.demo_Join offline.demo_Format
    offline.never_fails offline.demo_cache
    (offline.demo_scan "aws" "123456789012" "soc2") ∅
  = (None,
     <["/home/user/.auditkit/cache/latest-aws-123456789012-soc2.json" :=
         "aws" +:+ nl +:+ "123456789012" +:+ nl +:+ "soc2"]>
       (<["/home/user/.auditkit/cache/scan-aws-123456789012-soc2-0.json" :=
            "aws" +:+ nl +:+ "123456789012" +:+ nl +:+ "soc2"]> ∅))
  /\ offline.LoadLatest Z offline.demo_Unmarshal offline.demo_Join offline.never_refused
       offline.demo_cache "aws" "123456789012" "soc2"
       (<["/home/user/.auditkit/cache/latest-aws-123456789012-soc2.json" :=
            "aws" +:+ nl +:+ "123456789012" +:+ nl +:+ "soc2"]>
          (<["/home/user/.auditkit/cache/scan-aws-123456789012-soc2-0.json" :=
               "aws" +:+ nl +:+ "123456789012" +:+ nl +:+ "soc2"]> ∅))
     = Ok (offline.demo_scan "aws" "123456789012" "soc2").
Proof.
  assert (Hsave :
    offline.Save Z offline.demo_Marshal offline.demo_Join offline.demo_Format
      offline.never_fails offline.demo_cache
      (offline.demo_scan "aws" "123456789012" "soc2") ∅
    = (None,
       <["/home/user/.auditkit/cache/latest-aws-123456789012-soc2.json" :=
           "aws" +:+ nl +:+ "123456789012" +:+ nl +:+ "soc2"]>
         (<["/home/user/.auditkit/cache/scan-aws-123456789012-soc2-0.json" :=
              "aws" +:+ nl +:+ "123456789012" +:+ nl +:+ "soc2"]> ∅)))
    by reflexivity.
  split; [exact Hsave|].
  destruct (load_latest_after_save Z offline.demo_Marshal offline.demo_Unmarshal
              offline.demo_Join offline.demo_Format offline.never_fails
              offline.never_refused offline.demo_cache _ ∅ _ Hsave)
    as (data & Hdata & _ & _ & _ & _ & Hback).
  injection Hdata as <-. exact (Hback eq_refl).
Defined.

(** C8, refuted as it was claimed. A scan whose provider is not valid
    UTF-8 is saved without an error, and what [LoadLatest] returns is
    another scan: [encoding/json] has written the replacement character
    for the offending byte. *)
Lemma invalid_utf8_is_not_read_back :
  fst (offline.Save Z offline.coercing_Marshal offline.demo_Join offline.demo_Format
         offline.never_fails offline.demo_cache
         (offline.demo_scan offline.invalid_name "123456789012" "soc2") ∅) = None
  /\ offline.LoadLatest Z offline.demo_Unmarshal offline.demo_Join offline.never_refused
       offline.demo_cache offline.invalid_name "123456789012" "soc2"
       (snd (offline.Save Z offline.coercing_Marshal offline.demo_Join
               offline.demo_Format offline.never_fails offline.demo_cache
               (offline.demo_scan offline.invalid_name "123456789012" "soc2") ∅))
     = Ok (offline.demo_scan offline.replacement "123456789012" "soc2")
  /\ offline.demo_scan offline.replacement "123456789012" "soc2"
     <> offline.demo_scan offline.invalid_name "123456789012" "soc2".
Proof.
  split; [reflexivity|]. split; [vm_compute; reflexivity|].
  intros Heq. discriminate Heq.
Qed.

(** C10, at the failing inputs. A cache directory holding a file named
    [.json] makes [GetCacheInfo] panic, and one holding a file named
    [notes] makes [ClearOlderThan] panic: both slice the first six bytes
    of a name that has five. *)
Theorem short_file_names_panic :
  offline.GetCacheInfo Z offline.demo_Unmarshal offline.demo_Join
    (offline.listing [ {| offline.entry_Name := ".json";
                          offline.IsDir := false;
                          offline.Size := 2 |} ])
    offline.never_refused offline.demo_cache ∅
  = offline.Panics "slice bounds out of range"
  /\ offline.ClearOlderThan Z offline.demo_Unmarshal offline.demo_Join
       (offline.listing [ {| offline.entry_Name := "notes";
                             offline.IsDir := false;
                             offline.Size := 10 |} ])
       offline.never_refused offline.never_refused offline.demo_cache
       86400000000000 1700000000000000000 ∅
     = offline.Panics "slice bounds out of range".
Proof. split; reflexivity. Qed.

(** ** Collapsing and scoring *)

Section Collapsing.
Import engine.

Lemma stronger_swap (a x y : Status) :
  stronger (stronger a x) y = stronger (stronger a y) x.
Proof. destruct a, x, y; reflexivity. Qed.

Lemma fold_stronger_permutation (l l' : list Status) :
  Permutation l l' -> forall a, fold_left stronger l a = fold_left stronger l' a.
Proof.
  induction 1 as [|x l l' _ IH|x y l|l l' l'' _ IH1 _ IH2]; intros a; simpl.
  - reflexivity.
  - apply IH.
  - rewrite stronger_swap. reflexivity.
  - rewrite IH1. apply IH2.
Qed.

Lemma collapse_as_fold (contributors : list Status) :
  contributors <> [] -> collapse_status contributors = fold_left stronger contributors INFO.
Proof.
  destruct contributors as [|c cs]; [congruence|]. intros _. simpl.
  destruct c; reflexivity.
Qed.

Lemma fold_stronger_upper (l : list Status) (a : Status) :
  (precedence a <= precedence (fold_left stronger l a))%nat
  /\ forall c, In c l -> (precedence c <= precedence (fold_left stronger l a))%nat.
Proof.
  revert a. induction l as [|x l IH]; intros a; simpl.
  - split; [lia | intros c []].
  - destruct (IH (stronger a x)) as [Ha Hl]. split.
    + etransitivity; [|exact Ha]. destruct a, x; simpl; lia.
    + intros c [Heq|Hc]; [subst c|apply Hl, Hc].
      etransitivity; [|exact Ha]. destruct a, x; simpl; lia.
Qed.

Lemma fold_stronger_member (l : list Status) (a : Status) :
  fold_left stronger l a = a \/ In (fold_left stronger l a) l.
Proof.
  revert a. induction l as [|x l IH]; intros a; simpl.
  - left; reflexivity.
  - destruct (IH (stronger a x)) as [Heq|Hin]; [|right; right; exact Hin].
    rewrite Heq. destruct a, x; simpl; auto.
Qed.

Lemma precedence_top (s : Status) : (3 <= precedence s)%nat -> s = FAIL.
Proof. destruct s; simpl; intros Hs; try lia; reflexivity. Qed.

(** C4. The status of a bucket with at least one contributor is the
    status of one of its contributors, of the highest precedence among
    them (FAIL over WARN over MANUAL over PASS/INFO); one FAIL makes it
    FAIL whatever the others are; and it does not depend on the order of
    the contributors. *)
Theorem collapse_takes_highest_precedence (contributors : list Status) :
  contributors <> [] ->
  In (collapse_status contributors) contributors
  /\ (forall c, In c contributors ->
        (precedence c <= precedence (collapse_status contributors))%nat)
  /\ (In FAIL contributors -> collapse_status contributors = FAIL)
  /\ (forall contributors', Permutation contributors contributors' ->
        collapse_status contributors' = collapse_status contributors).
Proof.
  intros Hne.
  assert (Hupper : forall c, In c contributors ->
            (precedence c <= precedence (collapse_status contributors))%nat).
  { destruct contributors as [|first rest]; [congruence|]. simpl.
    destruct (fold_stronger_upper rest first) as [Hfirst Hrest].
    intros c [Heq|Hc]; [subst c; exact Hfirst | apply Hrest, Hc]. }
  split; [|split; [exact Hupper|split]].
  - destruct contributors as [|first rest]; [congruence|]. simpl.
    destruct (fold_stronger_member rest first) as [->|Hin]; auto.
  - intros Hfail. apply precedence_top. exact (Hupper FAIL Hfail).
  - intros contributors' Hperm.
    assert (Hne' : contributors' <> []).
    { intros ->. apply Permutation_sym, Permutation_nil in Hperm. contradiction. }
    rewrite (collapse_as_fold _ Hne), (collapse_as_fold _ Hne').
    symmetry. apply fold_stronger_permutation, Hperm.
Qed.

End Collapsing.

(** Scenario D: four PASS and one FAIL give FAIL, wherever the FAIL is. *)
Lemma scenario_D :
  [engine.PASS; engine.PASS; engine.FAIL; engine.PASS; engine.PASS] <> []
  /\ engine.collapse_status
       [engine.PASS; engine.PASS; engine.FAIL; engine.PASS; engine.PASS] = engine.FAIL
  /\ engine.collapse_status
       [engine.FAIL; engine.PASS; engine.PASS; engine.PASS; engine.PASS] = engine.FAIL.
Proof.
  assert (Hne : [engine.PASS; engine.PASS; engine.FAIL; engine.PASS; engine.PASS] <> [])
    by discriminate.
  split; [exact Hne|].
  destruct (collapse_takes_highest_precedence _ Hne) as (_ & _ & Hfail & Horder).
  assert (Hverdict :
    engine.collapse_status
      [engine.PASS; engine.PASS; engine.FAIL; engine.PASS; engine.PASS] = engine.FAIL).
  { apply Hfail. simpl. auto. }
  split; [exact Hverdict|].
  rewrite <- Hverdict. apply Horder.
  apply Permutation_sym.
  exact (Permutation_middle [engine.PASS; engine.PASS] [engine.PASS; engine.PASS] engine.FAIL).
Defined.

Section Scoring.
Import engine.

Lemma count_status_nonneg (s : Status) (verdicts : list Status) :
  0 <= count_status s verdicts.
Proof.
  induction verdicts as [|v vs IH]; simpl; [lia|].
  destruct (status_eqb s v); lia.
Qed.

Lemma passed_and_manual_bounded (verdicts : list Status) :
  count_status PASS verdicts + count_status MANUAL verdicts <= len verdicts.
Proof.
  unfold len. induction verdicts as [|v vs IH]; simpl length; [simpl; lia|].
  rewrite Nat2Z.inj_succ. simpl count_status.
  destruct v; simpl; lia.
Qed.

(** C5. The score of a list of requirement verdicts is
    100 * passed / (total - manual), where passed counts the PASS verdicts
    and manual the MANUAL ones: a MANUAL verdict changes neither the
    numerator nor the denominator. When the denominator is not zero the
    score lies between 0 and 100; when it is zero there is no score
    ([None]), neither 0 nor 100. *)
Theorem score_is_bounded_or_undefined (verdicts : list Status) :
  let passed := count_status PASS verdicts in
  let manual := count_status MANUAL verdicts in
  let total := len verdicts in
  (total - manual <> 0 ->
     exists q : Q,
       Score verdicts = Some q
       /\ (q == inject_Z (100 * passed) / inject_Z (total - manual))%Q
       /\ (0 <= q)%Q /\ (q <= 100)%Q)
  /\ (total - manual = 0 ->
        Score verdicts = None /\ Score verdicts <> Some 0%Q /\ Score verdicts <> Some 100%Q)
  /\ Score (MANUAL :: verdicts) = Score verdicts.
Proof.
  intros passed manual total.
  pose proof (count_status_nonneg PASS verdicts) as Hpassed.
  pose proof (passed_and_manual_bounded verdicts) as Hbound.
  fold passed manual total in Hpassed, Hbound.
  split; [|split].
  - intros Hden. unfold Score, score_of_counts.
    fold passed manual total.
    destruct (total - manual =? 0) eqn:Hz; [apply Z.eqb_eq in Hz; contradiction|].
    assert (Hpos : 0 < total - manual) by lia.
    eexists. split; [reflexivity|]. split; [|split].
    + unfold Qeq, Qdiv, Qmult, Qinv, inject_Z. simpl.
      destruct (total - manual) as [|d|d] eqn:Hd; try lia.
      simpl. lia.
    + unfold Qle. simpl. lia.
    + unfold Qle. simpl. rewrite Z2Pos.id by exact Hpos. lia.
  - intros Hden. unfold Score, score_of_counts. fold passed manual total.
    rewrite Hden. simpl. repeat split; discriminate.
  - unfold Score. simpl count_status. unfold len. simpl length.
    rewrite Nat2Z.inj_succ. unfold score_of_counts.
    replace (Z.succ (Z.of_nat (length verdicts)) - (1 + count_status MANUAL verdicts))
      with (Z.of_nat (length verdicts) - count_status MANUAL verdicts) by lia.
    reflexivity.
Qed.

End Scoring.

Example score_examples :
  engine.Score [engine.PASS; engine.FAIL; engine.MANUAL; engine.PASS] = Some (200 # 3)
  /\ engine.Score [engine.MANUAL; engine.MANUAL] = None
  /\ engine.Score [] = None.
Proof. repeat split. Qed.

(** ** The fields of a leaf result *)

Section LeafResults.
Context `{Host}.
Variable aws : AWS.

Ltac step_in Hrun :=
  match type of Hrun with
  | context [let (_, _) := ?c in _] => destruct c as [? ?] eqn:?
  | context [match ?c with _ => _ end] => destruct c eqn:?
  end.

Lemma len_map {A B : Type} (f : A -> B) (l : list A) : len (map f l) = len l.
Proof. unfold len. rewrite length_map. reflexivity. Qed.

Lemma len_zero_nil {A : Type} (l : list A) : (len l >? 0) = false -> l = [].
Proof.
  destruct l as [|x l]; [reflexivity|]. unfold len. simpl length.
  intros Hl. rewrite Nat2Z.inj_succ, Z.gtb_ltb in Hl. apply Z.ltb_ge in Hl. lia.
Qed.

(** A leaf that returns a result has listed its resources, collected the
    violating ones and then read the clock; the result is a FAIL for a
    non-empty collection and a PASS for an empty one. *)
Lemma leaf_result_fields (leaf : Leaf) (w w' : World) (r : CheckResult) :
  run_leaf aws leaf w = (Ok r, w') ->
  exists ids w1 violators w2,
    leaf_listing aws leaf w = (Ok ids, w1)
    /\ leaf_violators aws leaf w = (Ok violators, w2)
    /\ time_Now w2 = (Timestamp r, w')
    /\ Name r = check_name leaf
    /\ ((violators <> []
         /\ Status r = "FAIL"
         /\ priority_of_severity (Severity r) = Some (Priority r)
         /\ Remediation r <> EmptyString
         /\ RemediationDetail r <> EmptyString
         /\ ScreenshotGuide r <> EmptyString
         /\ ConsoleURL r <> EmptyString)
        \/ (violators = []
            /\ Status r = "PASS"
            /\ Priority r = PriorityInfo
            /\ Severity r = EmptyString
            /\ Remediation r = EmptyString
            /\ RemediationDetail r = EmptyString
            /\ ScreenshotGuide r = EmptyString
            /\ ConsoleURL r = EmptyString
            /\ Evidence r = passing_evidence leaf (len ids))).
Proof.
  intros Hrun.
  destruct leaf; simpl in Hrun; autounfold with leaf_checks in Hrun;
    unfold bind at 1 in Hrun; step_in Hrun; step_in Hrun;
    try discriminate Hrun;
    unfold bind at 1 in Hrun; step_in Hrun;
    match type of Hrun with
    | context [len ?v >? 0] => destruct (len v >? 0) eqn:Hlen
    end.
  all: try (match type of Hrun with
            | context [len ?v =? 0] => destruct (len v =? 0) eqn:Hzero
            end).
  all: unfold bind, ret in Hrun; step_in Hrun;
       inversion Hrun; subst; simpl.
  all: match goal with
       | Hloop : _ = (?v, ?w2), Hc : _ = (Ok _, ?w1) |- _ =>
           match type of Hlen with
           | (len v >? 0) = _ =>
             eexists; exists w1, v, w2;
             split; [unfold leaf_listing, identifiers, bind, ret; rewrite Hc; reflexivity|];
             split; [unfold leaf_violators, collect, bind, ret; rewrite Hc, Hloop; reflexivity|];
             split; [assumption|];
             split; [reflexivity|]
           end
       end.
  all: first
       [ left; split; [apply len_pos_nonempty, Hlen|];
         split; [reflexivity|]; split; [reflexivity|];
         repeat split; discriminate
       | right; split; [apply len_zero_nil, Hlen|];
         repeat (split; [reflexivity|]);
         unfold passing_evidence; rewrite len_map, Hzero; reflexivity ].
Qed.

End LeafResults.

(** ** What the leaf checks report *)

Section LeafReports.
Context `{Host}.
Variable aws : AWS.

Ltac step_in Hrun :=
  match type of Hrun with
  | context [let (_, _) := ?c in _] => destruct c as [? ?] eqn:?
  | context [match ?c with _ => _ end] => destruct c eqn:?
  end.

(** X2. Every result of a leaf is a FAIL or a PASS. A FAIL carries the
    priority that goes with its severity (CRITICAL, HIGH, MEDIUM or LOW)
    and non-empty remediation, remediation detail, screenshot guide and
    console URL; a PASS carries priority INFO and leaves the severity and
    those four fields empty. *)
Theorem result_is_fail_or_pass (leaf : Leaf) (w w' : World) (r : CheckResult) :
  run_leaf aws leaf w = (Ok r, w') ->
  (Status r = "FAIL"
   /\ priority_of_severity (Severity r) = Some (Priority r)
   /\ Priority r <> PriorityInfo
   /\ Remediation r <> EmptyString
   /\ RemediationDetail r <> EmptyString
   /\ ScreenshotGuide r <> EmptyString
   /\ ConsoleURL r <> EmptyString)
  \/ (Status r = "PASS"
      /\ Priority r = PriorityInfo
      /\ Severity r = EmptyString
      /\ Remediation r = EmptyString
      /\ RemediationDetail r = EmptyString
      /\ ScreenshotGuide r = EmptyString
      /\ ConsoleURL r = EmptyString).
Proof.
  intros Hrun.
  destruct (leaf_result_fields aws leaf w w' r Hrun)
    as (ids & w1 & v & w2 & _ & _ & _ & _ & [Hfail|Hpass]).
  - left. destruct Hfail as (_ & Hst & Hprio & Hrest). split; [exact Hst|].
    split; [exact Hprio|]. split; [|exact Hrest].
    intros Hinfo. rewrite Hinfo in Hprio. unfold priority_of_severity in Hprio.
    repeat match type of Hprio with
           | context [if ?c then _ else _] => destruct c
           end; discriminate.
  - right. destruct Hpass as (_ & Hst & Hprio & Hsev & Hrem & Hdet & Hguide & Hurl & _).
    auto 10.
Qed.

(** X3. A leaf passes exactly when its loop collected no violating
    resource. The evidence of a PASS counts the resources the list call
    answered with, whether or not each could be inspected: "No <type>
    found" for none, "All <n> ..." otherwise. *)
Theorem pass_counts_the_listing (leaf : Leaf) (w w' : World) (r : CheckResult) :
  run_leaf aws leaf w = (Ok r, w') ->
  exists ids w1 violators w2,
    leaf_listing aws leaf w = (Ok ids, w1)
    /\ leaf_violators aws leaf w = (Ok violators, w2)
    /\ (Status r = "PASS" <-> violators = [])
    /\ (Status r = "PASS" -> Evidence r = passing_evidence leaf (len ids)).
Proof.
  intros Hrun.
  destruct (leaf_result_fields aws leaf w w' r Hrun)
    as (ids & w1 & v & w2 & Hl & Hv & _ & _ & [Hfail|Hpass]);
    exists ids, w1, v, w2; split; [exact Hl| |exact Hl|]; split; try exact Hv.
  - destruct Hfail as (Hne & Hst & _). rewrite Hst.
    split; [split; [discriminate | contradiction] | discriminate].
  - destruct Hpass as (Hnil & Hst & _ & _ & _ & _ & _ & _ & Hev).
    split; [split; auto | auto].
Qed.

(** The time of a result is the clock reading taken after the loop, and
    its name is the name of its check. *)
Lemma result_name_and_time (leaf : Leaf) (w w' : World) (r : CheckResult) :
  run_leaf aws leaf w = (Ok r, w') ->
  Name r = check_name leaf
  /\ exists violators w2,
       leaf_violators aws leaf w = (Ok violators, w2)
       /\ time_Now w2 = (Timestamp r, w').
Proof.
  intros Hrun.
  destruct (leaf_result_fields aws leaf w w' r Hrun)
    as (ids & w1 & v & w2 & _ & Hv & Htime & Hname & _).
  split; [exact Hname|]. exists v, w2. auto.
Qed.

End LeafReports.

(** ** Resources that cannot be inspected *)

Section Unreadable.
Context `{Host}.
Variable aws : AWS.

Ltac step :=
  match goal with
  | |- context [let (_, _) := ?c in _] => destruct c as [? ?] eqn:?
  | |- context [match ?c with _ => _ end] => destruct c eqn:?
  end.

(** One iteration under a describe call that always fails keeps the
    accumulator empty. *)
Ltac refused_body Href :=
  let x := fresh "x" in
  let w0 := fresh "w" in
  intros x ? w0 _ ->; unfold bind, ret; simpl;
  match goal with
  | |- context [?call ?c ?id w0] =>
      pose proof (Href id w0) as Hrefused;
      destruct (call c id w0) as [[?|?] ?];
      [discriminate Hrefused | reflexivity]
  end.

Lemma refused_collects_nothing (leaf : Leaf) (w w2 : World) (violators : list string) :
  describes_refused aws leaf ->
  leaf_violators aws leaf w = (Ok violators, w2) ->
  violators = [].
Proof.
  intros Href Hv.
  destruct leaf; simpl in Href; try contradiction;
    simpl in Hv; unfold collect in Hv; rewrite bind_run in Hv;
    match type of Hv with
    | context [fst (?c w)] => destruct (c w) as [[resp|e] w1]
    end;
    simpl in Hv; try (unfold ret in Hv; discriminate Hv);
    rewrite bind_run in Hv; unfold ret in Hv; inversion Hv; subst; clear Hv.
  all: autounfold with leaf_loops.
  all: match goal with
       | |- fst ?lp = [] => pattern (fst lp); apply for_range_invariant; [|reflexivity]
       end.
  all: try (refused_body Href).
  (* the SSL check: one describe call per parameter group *)
  intros x s w0 _ ->.
  match goal with
  | |- fst ?lp = [] => pattern (fst lp); apply for_range_invariant; [|reflexivity]
  end.
  refused_body Href.
Qed.

(** X4. The checks that describe each resource skip a resource whose
    describe call fails. When every describe call fails, such a check
    reports no violation: it returns PASS, and for a listing of n > 0
    resources the evidence says that all n comply, although none was
    inspected. *)
Theorem unreadable_resources_pass (leaf : Leaf) (w w' : World) (r : CheckResult) :
  describes_refused aws leaf ->
  run_leaf aws leaf w = (Ok r, w') ->
  Status r = "PASS"
  /\ exists ids w1,
       leaf_listing aws leaf w = (Ok ids, w1)
       /\ Evidence r = passing_evidence leaf (len ids).
Proof.
  intros Href Hrun.
  destruct (leaf_result_fields aws leaf w w' r Hrun)
    as (ids & w1 & v & w2 & Hl & Hv & _ & _ & [Hfail|Hpass]).
  - destruct Hfail as (Hne & _). elim Hne.
    exact (refused_collects_nothing leaf w w2 v Href Hv).
  - destruct Hpass as (_ & Hst & _ & _ & _ & _ & _ & _ & Hev).
    split; [exact Hst|]. exists ids, w1. auto.
Qed.

End Unreadable.

(** Two domains that cannot be described pass as encrypted. *)
Lemma unreadable_domains_pass :
  describes_refused (H := clock_host) unreadable_domains_account OpenSearch_EncryptionAtRest
  /\ exists r w',
       run_leaf (H := clock_host) unreadable_domains_account OpenSearch_EncryptionAtRest 0
       = (Ok r, w')
       /\ Status r = "PASS"
       /\ Evidence r = "All 2 OpenSearch domains have encryption at rest enabled".
Proof.
  assert (Href : describes_refused (H := clock_host) unreadable_domains_account
                   OpenSearch_EncryptionAtRest)
    by (intros id w; reflexivity).
  split; [exact Href|].
  assert (Hrun : exists r w',
    run_leaf (H := clock_host) unreadable_domains_account OpenSearch_EncryptionAtRest 0
    = (Ok r, w')) by (eexists; eexists; vm_compute; reflexivity).
  destruct Hrun as (r & w' & Hrun). exists r, w'. split; [exact Hrun|].
  destruct (unreadable_resources_pass (H := clock_host) _ _ _ _ _ Href Hrun)
    as (Hpass & ids & w1 & Hl & Hev).
  split; [exact Hpass|].
  vm_compute in Hl. injection Hl as <- _. exact Hev.
Defined.

(** ** Loops that append *)

Section AppendingLoops.
Context `{Host}.

(** A loop whose iteration appends the entries of the resource at hand
    collects the entries of all the resources, in order. *)
Lemma for_range_appends {A : Type} (l : list A)
    (body : A -> list string -> M (list string)) (entries : A -> list string) :
  (forall x acc w, fst (body x acc w) = acc ++ entries x) ->
  forall acc w, fst (for_range l body acc w) = acc ++ flat_map entries l.
Proof.
  intros Hbody. induction l as [|x l IH]; intros acc w.
  - simpl. rewrite app_nil_r. reflexivity.
  - rewrite for_range_cons, IH, Hbody. simpl. rewrite <- app_assoc. reflexivity.
Qed.

(** If in addition the iteration leaves the world alone, so does the loop. *)
Lemma for_range_collects {A : Type} (l : list A)
    (body : A -> list string -> M (list string)) (entries : A -> list string) :
  (forall x acc w, body x acc w = (acc ++ entries x, w)) ->
  forall acc w, for_range l body acc w = (acc ++ flat_map entries l, w).
Proof.
  intros Hbody. induction l as [|x l IH]; intros acc w.
  - simpl. rewrite app_nil_r. reflexivity.
  - rewrite for_range_cons, Hbody. simpl. rewrite IH, <- app_assoc. reflexivity.
Qed.

Lemma flat_map_singletons {A B : Type} (f : A -> B) (l : list A) :
  flat_map (fun x => [f x]) l = map f l.
Proof. induction l as [|x l IH]; simpl; [|rewrite IH]; reflexivity. Qed.

End AppendingLoops.

(** ** Redshift audit logging *)

Section RedshiftLogging.
Context `{Host}.
Import redshift.

Lemma logging_loop_refused (client : Client) (clusters : list Cluster) (w : World) :
  always_refuses (DescribeLoggingStatus client) ->
  fst (RedshiftChecks.CheckClusterLogging_loop client clusters w)
  = map (fun cluster => ToString (ClusterIdentifier cluster)) clusters.
Proof.
  intros Href. unfold RedshiftChecks.CheckClusterLogging_loop.
  rewrite <- flat_map_singletons.
  apply (for_range_appends clusters _
           (fun cluster => [ToString (ClusterIdentifier cluster)])).
  intros c acc w0. rewrite bind_run.
  pose proof (Href (ClusterIdentifier c) w0) as Hc.
  destruct (DescribeLoggingStatus client (ClusterIdentifier c) w0) as [[l|e] w1];
    [discriminate Hc | reflexivity].
Qed.

(** X5. The Redshift logging check counts a cluster whose logging status
    cannot be read as a cluster without audit logging: when every
    DescribeLoggingStatus call fails and the listing is not empty, the
    check returns FAIL with severity HIGH and names every listed cluster. *)
Theorem unreadable_logging_fails (client : Client) (w w1 : World)
    (clusters : DescribeClustersOutput) :
  DescribeClusters client w = (Ok clusters, w1) ->
  always_refuses (DescribeLoggingStatus client) ->
  Clusters clusters <> [] ->
  exists r w',
    RedshiftChecks.CheckClusterLogging client w = (Ok r, w')
    /\ Status r = "FAIL"
    /\ Severity r = "HIGH"
    /\ Evidence r
       = fmt_d (len (Clusters clusters))
         +:+ " Redshift clusters without audit logging: "
         +:+ fmt_v (map (fun cluster => ToString (ClusterIdentifier cluster))
                        (Clusters clusters)).
Proof.
  intros Hcall Href Hne.
  unfold RedshiftChecks.CheckClusterLogging.
  rewrite bind_run, Hcall. cbn [fst snd]. rewrite bind_run.
  rewrite (logging_loop_refused client (Clusters clusters) w1 Href).
  rewrite len_map.
  destruct (Clusters clusters) as [|c cs] eqn:Hcs; [contradiction|].
  replace (len (c :: cs) >? 0) with true
    by (unfold len; simpl length; symmetry; apply Z.gtb_lt; lia).
  rewrite bind_run. simpl.
  eexists; eexists; split; [reflexivity|]. simpl. auto.
Qed.

End RedshiftLogging.

Lemma unreadable_logging_scenario :
  exists r w',
    RedshiftChecks.CheckClusterLogging (H := clock_host)
      (redshift_client unreadable_logging_account) 0 = (Ok r, w')
    /\ Status r = "FAIL"
    /\ Evidence r
       = "3 Redshift clusters without audit logging: [cluster-a cluster-b cluster-c]".
Proof.
  destruct (unreadable_logging_fails (H := clock_host)
              (redshift_client unreadable_logging_account) 0 0
              {| redshift.Clusters := scenario_A_clusters |} eq_refl)
    as (r & w' & Hrun & Hfail & _ & Hev).
  - intros id w. reflexivity.
  - discriminate.
  - exists r, w'. repeat split; assumption.
Defined.

(** ** Checks that read the listing alone *)

Section ListingOnly.
Context `{Host}.
Variable aws : AWS.

(** A leaf whose list call succeeds returns a result. *)
Lemma run_leaf_succeeds (leaf : Leaf) (w w1 : World) (ids : list (option string)) :
  leaf_listing aws leaf w = (Ok ids, w1) ->
  exists r w', run_leaf aws leaf w = (Ok r, w').
Proof.
  intros Hl.
  destruct leaf; simpl in Hl; unfold identifiers in Hl; rewrite bind_run in Hl;
    simpl; autounfold with leaf_checks; rewrite bind_run;
    match type of Hl with
    | context [fst (?c w)] => destruct (c w) as [[resp|e] w0]
    end;
    cbn [fst snd] in *; unfold ret in Hl; try discriminate Hl;
    rewrite bind_run;
    match goal with
    | |- context [len ?v >? 0] => destruct (len v >? 0)
    end;
    try match goal with
        | |- context [len ?v =? 0] => destruct (len v =? 0)
        end;
    rewrite bind_run; eexists; eexists; reflexivity.
Qed.

Lemma collected_nonempty {X : Type} (entry : X -> option string) (l : list X) :
  collected entry l <> [] <-> exists x, In x l /\ entry x <> None.
Proof.
  unfold collected. induction l as [|x l IH]; simpl.
  - split; [congruence | intros (x & [] & _)].
  - destruct (entry x) as [e|] eqn:Hx; simpl.
    + split; [|discriminate]. intros _. exists x. split; [auto | congruence].
    + rewrite IH. split.
      * intros (y & Hy & Hne). exists y. auto.
      * intros (y & [<-|Hy] & Hne); [congruence | exists y; auto].
Qed.

(** The loop of a check that reads the listing alone collects the entries
    of the listing and leaves the world as it was. *)
Ltac listing_only_loop Hcall :=
  simpl; unfold collect; rewrite bind_run, Hcall; cbn [fst snd];
  rewrite bind_run; autounfold with leaf_loops; unfold collected;
  match goal with
  | |- context [flat_map ?F _] => rewrite (for_range_collects _ _ F)
  end;
  [ reflexivity
  | intros x acc w0; simpl;
    unfold unless, retention_entry;
    repeat match goal with
           | |- context [ToBool ?f] => destruct (ToBool f)
           | |- context [elasticache.SnapshotRetentionLimit ?g] =>
               destruct (elasticache.SnapshotRetentionLimit g)
           | |- context [redshift.AutomatedSnapshotRetentionPeriod ?c] =>
               destruct (redshift.AutomatedSnapshotRetentionPeriod c)
           | |- context [?z <? 7] => destruct (z <? 7)
           end;
    simpl; rewrite ?app_nil_r; reflexivity ].

Lemma cache_cluster_loops (leaf : Leaf) (w w1 : World)
    (resp : elasticache.DescribeCacheClustersOutput) :
  reads_cache_clusters leaf = true ->
  elasticache.DescribeCacheClusters (elasticache_client aws) w = (Ok resp, w1) ->
  leaf_violators aws leaf w
  = (Ok (collected (cache_cluster_entry leaf) (elasticache.CacheClusters resp)), w1)
  /\ leaf_listing aws leaf w
     = (Ok (map elasticache.CacheClusterId (elasticache.CacheClusters resp)), w1).
Proof.
  intros Hleaf Hcall.
  destruct leaf; try discriminate Hleaf;
    (split; [listing_only_loop Hcall
            | simpl; unfold identifiers; rewrite bind_run, Hcall; reflexivity]).
Qed.

Lemma replication_group_loops (leaf : Leaf) (w w1 : World)
    (resp : elasticache.DescribeReplicationGroupsOutput) :
  reads_replication_groups leaf = true ->
  elasticache.DescribeReplicationGroups (elasticache_client aws) w = (Ok resp, w1) ->
  leaf_violators aws leaf w
  = (Ok (collected (replication_group_entry leaf) (elasticache.ReplicationGroups resp)), w1)
  /\ leaf_listing aws leaf w
     = (Ok (map elasticache.ReplicationGroupId (elasticache.ReplicationGroups resp)), w1).
Proof.
  intros Hleaf Hcall.
  destruct leaf; try discriminate Hleaf;
    (split; [listing_only_loop Hcall
            | simpl; unfold identifiers; rewrite bind_run, Hcall; reflexivity]).
Qed.

Lemma redshift_cluster_loops (leaf : Leaf) (w w1 : World)
    (resp : redshift.DescribeClustersOutput) :
  reads_clusters_only leaf = true ->
  redshift.DescribeClusters (redshift_client aws) w = (Ok resp, w1) ->
  leaf_violators aws leaf w
  = (Ok (collected (redshift_cluster_entry leaf) (redshift.Clusters resp)), w1)
  /\ leaf_listing aws leaf w
     = (Ok (map redshift.ClusterIdentifier (redshift.Clusters resp)), w1).
Proof.
  intros Hleaf Hcall.
  destruct leaf; try discriminate Hleaf;
    (split; [listing_only_loop Hcall
            | simpl; unfold identifiers; rewrite bind_run, Hcall; reflexivity]).
Qed.

(** From what the loop collects to the status of the result. *)
Lemma status_of_collected (leaf : Leaf) (w w1 : World) (ids : list (option string))
    (expected : list string) :
  leaf_listing aws leaf w = (Ok ids, w1) ->
  leaf_violators aws leaf w = (Ok expected, w1) ->
  exists r w',
    run_leaf aws leaf w = (Ok r, w')
    /\ time_Now w1 = (Timestamp r, w')
    /\ (Status r = "FAIL" <-> expected <> [])
    /\ (Status r = "PASS" <-> expected = [])
    /\ (expected <> [] ->
        Evidence r = fmt_d (len expected) +:+ violation leaf +:+ fmt_v (shown leaf expected)).
Proof.
  intros Hl Hv.
  destruct (run_leaf_succeeds leaf w w1 ids Hl) as (r & w' & Hrun).
  exists r, w'. split; [exact Hrun|].
  destruct (leaf_result_fields aws leaf w w' r Hrun)
    as (ids' & w1' & v & w2 & _ & Hv' & Htime & _ & Hcases).
  rewrite Hv in Hv'. injection Hv' as <- <-.
  split; [exact Htime|].
  destruct Hcases as [(Hne & Hst & _)|(Hnil & Hst & _)]; rewrite Hst.
  - split; [split; auto|]. split; [split; [discriminate | contradiction]|].
    intros _.
    destruct (failing_result_shape aws leaf w w' r Hrun Hst)
      as (v' & w2' & Hv'' & _ & _ & Hev).
    rewrite Hv in Hv''. injection Hv'' as <- _. exact Hev.
  - split; [split; [discriminate | contradiction]|].
    split; [split; auto | contradiction].
Qed.

(** X6. The three ElastiCache cluster checks (encryption at rest,
    encryption in transit, auto minor version upgrade) report exactly the
    clusters whose flag is nil or false, by identifier and in listing
    order, without any further call: the result is FAIL when there is such
    a cluster and PASS when there is none. *)
Theorem cache_cluster_checks_exact (leaf : Leaf) (w w1 : World)
    (resp : elasticache.DescribeCacheClustersOutput) :
  reads_cache_clusters leaf = true ->
  elasticache.DescribeCacheClusters (elasticache_client aws) w = (Ok resp, w1) ->
  exists r w',
    run_leaf aws leaf w = (Ok r, w')
    /\ time_Now w1 = (Timestamp r, w')
    /\ (Status r = "FAIL" <->
        exists c, In c (elasticache.CacheClusters resp) /\ cache_cluster_entry leaf c <> None)
    /\ (Status r = "PASS" <->
        collected (cache_cluster_entry leaf) (elasticache.CacheClusters resp) = [])
    /\ (Status r = "FAIL" ->
        Evidence r
        = fmt_d (len (collected (cache_cluster_entry leaf) (elasticache.CacheClusters resp)))
          +:+ violation leaf
          +:+ fmt_v (collected (cache_cluster_entry leaf) (elasticache.CacheClusters resp))).
Proof.
  intros Hleaf Hcall.
  destruct (cache_cluster_loops leaf w w1 resp Hleaf Hcall) as [Hv Hl].
  destruct (status_of_collected leaf w w1 _ _ Hl Hv)
    as (r & w' & Hrun & Htime & Hfail & Hpass & Hev).
  exists r, w'. split; [exact Hrun|]. split; [exact Htime|].
  split; [rewrite Hfail; apply collected_nonempty|]. split; [exact Hpass|].
  intros Hst. rewrite (Hev (proj1 Hfail Hst)).
  destruct leaf; try discriminate Hleaf; reflexivity.
Qed.

(** X7. The two ElastiCache replication-group checks report exactly the
    groups at fault, in listing order and without any further call: the
    AUTH-token check the groups whose flag is nil or false, the
    backup-retention check the groups with a retention limit below 7,
    as "<id> (<n> days)"; a group without a retention limit is not
    reported. *)
Theorem replication_group_checks_exact (leaf : Leaf) (w w1 : World)
    (resp : elasticache.DescribeReplicationGroupsOutput) :
  reads_replication_groups leaf = true ->
  elasticache.DescribeReplicationGroups (elasticache_client aws) w = (Ok resp, w1) ->
  exists r w',
    run_leaf aws leaf w = (Ok r, w')
    /\ time_Now w1 = (Timestamp r, w')
    /\ (Status r = "FAIL" <->
        exists g, In g (elasticache.ReplicationGroups resp)
                  /\ replication_group_entry leaf g <> None)
    /\ (Status r = "PASS" <->
        collected (replication_group_entry leaf) (elasticache.ReplicationGroups resp) = [])
    /\ (Status r = "FAIL" ->
        Evidence r
        = fmt_d (len (collected (replication_group_entry leaf)
                        (elasticache.ReplicationGroups resp)))
          +:+ violation leaf
          +:+ fmt_v (collected (replication_group_entry leaf)
                       (elasticache.ReplicationGroups resp))).
Proof.
  intros Hleaf Hcall.
  destruct (replication_group_loops leaf w w1 resp Hleaf Hcall) as [Hv Hl].
  destruct (status_of_collected leaf w w1 _ _ Hl Hv)
    as (r & w' & Hrun & Htime & Hfail & Hpass & Hev).
  exists r, w'. split; [exact Hrun|]. split; [exact Htime|].
  split; [rewrite Hfail; apply collected_nonempty|]. split; [exact Hpass|].
  intros Hst. rewrite (Hev (proj1 Hfail Hst)).
  destruct leaf; try discriminate Hleaf; reflexivity.
Qed.

(** X8. The five Redshift checks that read the cluster listing alone
    (encryption, public access, version upgrade, backup retention,
    enhanced VPC routing) report exactly the clusters at fault, in listing
    order and without any further call: a nil flag counts as false, so a
    cluster with a nil PubliclyAccessible is not reported as public, and
    a cluster without a retention period is not reported. *)
Theorem redshift_listing_checks_exact (leaf : Leaf) (w w1 : World)
    (resp : redshift.DescribeClustersOutput) :
  reads_clusters_only leaf = true ->
  redshift.DescribeClusters (redshift_client aws) w = (Ok resp, w1) ->
  exists r w',
    run_leaf aws leaf w = (Ok r, w')
    /\ time_Now w1 = (Timestamp r, w')
    /\ (Status r = "FAIL" <->
        exists c, In c (redshift.Clusters resp) /\ redshift_cluster_entry leaf c <> None)
    /\ (Status r = "PASS" <->
        collected (redshift_cluster_entry leaf) (redshift.Clusters resp) = [])
    /\ (Status r = "FAIL" ->
        Evidence r
        = fmt_d (len (collected (redshift_cluster_entry leaf) (redshift.Clusters resp)))
          +:+ violation leaf
          +:+ fmt_v (collected (redshift_cluster_entry leaf) (redshift.Clusters resp))).
Proof.
  intros Hleaf Hcall.
  destruct (redshift_cluster_loops leaf w w1 resp Hleaf Hcall) as [Hv Hl].
  destruct (status_of_collected leaf w w1 _ _ Hl Hv)
    as (r & w' & Hrun & Htime & Hfail & Hpass & Hev).
  exists r, w'. split; [exact Hrun|]. split; [exact Htime|].
  split; [rewrite Hfail; apply collected_nonempty|]. split; [exact Hpass|].
  intros Hst. rewrite (Hev (proj1 Hfail Hst)).
  destruct leaf; try discriminate Hleaf; reflexivity.
Qed.

End ListingOnly.

Lemma unencrypted_cache_cluster_scenario :
  exists r w',
    run_leaf (H := clock_host) cache_clusters_account ElastiCache_EncryptionAtRest 0
    = (Ok r, w')
    /\ Status r = "FAIL"
    /\ Evidence r = "1 ElastiCache clusters without encryption at rest: [sessions]".
Proof.
  destruct (cache_cluster_checks_exact (H := clock_host) cache_clusters_account
              ElastiCache_EncryptionAtRest 0 0 _ eq_refl eq_refl)
    as (r & w' & Hrun & _ & Hfail & _ & Hev).
  exists r, w'. split; [exact Hrun|].
  assert (Hst : Status r = "FAIL").
  { apply Hfail. eexists. split; [left; reflexivity | discriminate]. }
  split; [exact Hst|]. rewrite (Hev Hst). reflexivity.
Defined.

Lemma retention_and_token_scenario :
  (exists r w',
     run_leaf (H := clock_host) short_retention_account ElastiCache_BackupRetention 0
     = (Ok r, w')
     /\ Status r = "FAIL")
  /\ (exists r w',
        run_leaf (H := clock_host) short_retention_account ElastiCache_AuthToken 0
        = (Ok r, w')
        /\ Status r = "PASS").
Proof.
  split.
  - destruct (replication_group_checks_exact (H := clock_host) short_retention_account
                ElastiCache_BackupRetention 0 0 _ eq_refl eq_refl)
      as (r & w' & Hrun & _ & Hfail & _ & _).
    exists r, w'. split; [exact Hrun|].
    apply Hfail. eexists. split; [left; reflexivity | discriminate].
  - destruct (replication_group_checks_exact (H := clock_host) short_retention_account
                ElastiCache_AuthToken 0 0 _ eq_refl eq_refl)
      as (r & w' & Hrun & _ & _ & Hpass & _).
    exists r, w'. split; [exact Hrun|]. apply Hpass. reflexivity.
Defined.

Lemma scenario_A_other_checks :
  (exists r w',
     run_leaf (H := clock_host) scenario_A_account Redshift_ClusterEncryption 0 = (Ok r, w')
     /\ Status r = "FAIL")
  /\ (exists r w',
        run_leaf (H := clock_host) scenario_A_account Redshift_ClusterPublicAccess 0
        = (Ok r, w')
        /\ Status r = "PASS").
Proof.
  split.
  - destruct (redshift_listing_checks_exact (H := clock_host) scenario_A_account
                Redshift_ClusterEncryption 0 0 _ eq_refl eq_refl)
      as (r & w' & Hrun & _ & Hfail & _ & _).
    exists r, w'. split; [exact Hrun|].
    apply Hfail. eexists. split; [left; reflexivity | discriminate].
  - destruct (redshift_listing_checks_exact (H := clock_host) scenario_A_account
                Redshift_ClusterPublicAccess 0 0 _ eq_refl eq_refl)
      as (r & w' & Hrun & _ & _ & Hpass & _).
    exists r, w'. split; [exact Hrun|]. apply Hpass. reflexivity.
Defined.

(** ** How many violations a leaf can report *)

Section Counts.
Context `{Host}.
Variable aws : AWS.

Ltac step :=
  match goal with
  | |- context [let (_, _) := ?c in _] => destruct c as [? ?] eqn:?
  | |- context [match ?c with _ => _ end] => destruct c eqn:?
  end.

(** A loop whose iteration adds at most [weight x] entries adds at most
    the sum of the weights. *)
Lemma for_range_grows {A : Type} (weight : A -> nat) (l : list A)
    (body : A -> list string -> M (list string)) :
  (forall x s w, (length (fst (body x s w)) <= length s + weight x)%nat) ->
  forall s w,
    (length (fst (for_range l body s w)) <= length s + list_sum (map weight l))%nat.
Proof.
  intros Hbody. induction l as [|x l IH]; intros s w.
  - simpl. lia.
  - rewrite for_range_cons. simpl.
    specialize (IH (fst (body x s w)) (snd (body x s w))).
    specialize (Hbody x s w). lia.
Qed.

Lemma list_sum_ones {A : Type} (l : list A) : list_sum (map (fun _ => 1%nat) l) = length l.
Proof. induction l as [|x l IH]; simpl; [|rewrite IH]; reflexivity. Qed.

Ltac at_most_one :=
  intros ? ? ?; unfold bind, ret; simpl; repeat step; simpl;
  rewrite ?length_app; simpl; lia.

(** X9. Except for the Redshift SSL check, the violating resources a leaf
    collects are at most as many as the resources its list call answered
    with: each resource is reported at most once. *)
Theorem violations_bounded_by_listing (leaf : Leaf) (w w2 : World)
    (violators : list string) :
  leaf <> Redshift_ClusterSSL ->
  leaf_violators aws leaf w = (Ok violators, w2) ->
  exists ids w1,
    leaf_listing aws leaf w = (Ok ids, w1)
    /\ (length violators <= length ids)%nat.
Proof.
  intros Hleaf Hv.
  destruct leaf; try congruence; clear Hleaf;
    simpl in Hv; unfold collect in Hv; rewrite bind_run in Hv;
    match type of Hv with
    | context [fst (?c w)] => destruct (c w) as [[resp|e] w1] eqn:Hcall
    end;
    simpl in Hv; try (unfold ret in Hv; discriminate Hv);
    rewrite bind_run in Hv; unfold ret in Hv; inversion Hv; subst; clear Hv.
  all: eexists; eexists;
       split; [unfold leaf_listing, identifiers; rewrite bind_run, Hcall; reflexivity|].
  all: rewrite length_map; autounfold with leaf_loops.
  all: match goal with
       | |- (length (fst (for_range ?l _ _ _)) <= _)%nat =>
           rewrite <- (list_sum_ones l)
       end.
  all: eapply Nat.le_trans;
       [apply (for_range_grows (fun _ => 1%nat)); at_most_one | simpl; lia].
Qed.

End Counts.

(** ** The Redshift SSL check *)

Section RedshiftSSL.
Context `{Host}.
Import redshift.

Lemma flat_map_repeat {A B : Type} (b : B) (l : list A) :
  flat_map (fun _ => [b]) l = repeat b (length l).
Proof. induction l as [|x l IH]; simpl; [|rewrite IH]; reflexivity. Qed.

Lemma ssl_loop_bounded (client : Client) (clusters : list Cluster) (w : World) :
  (length (fst (RedshiftChecks.CheckClusterSSL_loop client clusters w))
   <= parameter_groups clusters)%nat.
Proof.
  unfold RedshiftChecks.CheckClusterSSL_loop, parameter_groups.
  eapply Nat.le_trans;
    [apply (for_range_grows (fun c => length (ClusterParameterGroups c))) | simpl; lia].
  intros c acc w0. cbv zeta.
  eapply Nat.le_trans; [apply (for_range_grows (fun _ => 1%nat))|].
  - intros pg acc' w1. unfold bind, ret.
    destruct (DescribeClusterParameters client _ w1) as [[params|e] w2]; simpl; [|lia].
    destruct (negb _); simpl; rewrite ?length_app; simpl; lia.
  - rewrite list_sum_ones. lia.
Qed.

Lemma ssl_loop_never_required (client : Client) (clusters : list Cluster) (w : World) :
  never_requires_ssl client ->
  fst (RedshiftChecks.CheckClusterSSL_loop client clusters w)
  = once_per_parameter_group clusters.
Proof.
  intros Hnever. unfold RedshiftChecks.CheckClusterSSL_loop, once_per_parameter_group.
  apply (for_range_appends clusters _
           (fun c => repeat (ToString (ClusterIdentifier c))
                            (length (ClusterParameterGroups c)))).
  intros c acc w0. cbv zeta. rewrite <- flat_map_repeat.
  apply (for_range_appends (ClusterParameterGroups c) _
           (fun _ => [ToString (ClusterIdentifier c)])).
  intros pg acc' w1. rewrite bind_run.
  pose proof (Hnever (Some (ToString (ParameterGroupName pg))) w1) as Hpg.
  destruct (DescribeClusterParameters client _ w1) as [[params|e] w2];
    simpl in *; [|contradiction].
  unfold requires_ssl in Hpg. rewrite Hpg. reflexivity.
Qed.

(** X10. The Redshift SSL check makes one entry per parameter group that
    does not require SSL, not per cluster: it collects at most as many
    entries as the listing has parameter groups, a cluster without
    parameter groups is never reported, and when no parameter group
    requires SSL each cluster is named once for each of its groups, so the
    count in the evidence can exceed the number of clusters. *)
Theorem ssl_check_counts_parameter_groups (aws : AWS) (w w1 w2 : World)
    (clusters : DescribeClustersOutput) (violators : list string) :
  DescribeClusters (redshift_client aws) w = (Ok clusters, w1) ->
  leaf_violators aws Redshift_ClusterSSL w = (Ok violators, w2) ->
  (length violators <= parameter_groups (Clusters clusters))%nat
  /\ (never_requires_ssl (redshift_client aws) ->
      violators = once_per_parameter_group (Clusters clusters)).
Proof.
  intros Hcall Hv. simpl in Hv. unfold collect in Hv.
  rewrite bind_run, Hcall in Hv. cbn [fst snd] in Hv.
  rewrite bind_run in Hv. unfold ret in Hv. injection Hv as <- _.
  split; [apply ssl_loop_bounded | apply ssl_loop_never_required].
Qed.

End RedshiftSSL.

(** One cluster with two parameter groups is reported twice. *)
Lemma two_groups_scenario :
  exists r w',
    run_leaf (H := clock_host) two_groups_account Redshift_ClusterSSL 0 = (Ok r, w')
    /\ leaf_violators (H := clock_host) two_groups_account Redshift_ClusterSSL 0
       = (Ok ["warehouse"; "warehouse"], 0)
    /\ Evidence r = "2 Redshift clusters do not require SSL: [warehouse warehouse]".
Proof.
  assert (Hv : leaf_violators (H := clock_host) two_groups_account Redshift_ClusterSSL 0
               = (Ok ["warehouse"; "warehouse"], 0)) by reflexivity.
  destruct (ssl_check_counts_parameter_groups (H := clock_host) two_groups_account
              0 0 0 {| redshift.Clusters := [two_groups_cluster] |} _ eq_refl Hv)
    as [Hbound Hexact].
  eexists; eexists. split; [reflexivity|]. split; [exact Hv|]. reflexivity.
Defined.

(** ** The results of a [Run] *)

Section RunResults.
Context `{Host}.
Variable aws : AWS.

Lemma run_all_names (leaves : list Leaf) (w : World) :
  map Name (successes (fst (run_all (map (run_leaf aws) leaves) w)))
  `sublist_of` map check_name leaves.
Proof.
  revert w. induction leaves as [|leaf leaves IH]; intros w; simpl.
  - constructor.
  - rewrite !bind_run. simpl.
    destruct (run_leaf aws leaf w) as [[r|e] w1] eqn:Hrun; simpl.
    + destruct (result_name_and_time aws leaf w w1 r Hrun) as [<- _].
      apply sublist_skip, IH.
    + apply sublist_cons, IH.
Qed.

Lemma check_names_distinct (id : CheckerId) : NoDup (map check_name (sub_checks id)).
Proof. destruct id; apply (bool_decide_unpack _); vm_compute; exact I. Qed.

Lemma run_all_statuses (leaves : list Leaf) (w : World) :
  Forall (fun r => Status r = "PASS" \/ Status r = "FAIL")
         (successes (fst (run_all (map (run_leaf aws) leaves) w))).
Proof.
  revert w. induction leaves as [|leaf leaves IH]; intros w; simpl.
  - constructor.
  - rewrite !bind_run. simpl.
    destruct (run_leaf aws leaf w) as [[r|e] w1] eqn:Hrun; simpl; [|apply IH].
    constructor; [|apply IH].
    destruct (leaf_result_fields aws leaf w w1 r Hrun)
      as (_ & _ & _ & _ & _ & _ & _ & _ & [(_ & Hst & _)|(_ & Hst & _)]); auto.
Qed.

(** X11. The results a checker's [Run] returns carry the names of its
    sub-checks, in the order of the calls and each at most once: no two
    results of one [Run] share a name, there are at most as many results
    as sub-checks, and each result is a PASS or a FAIL. *)
Theorem run_results_are_distinct (id : CheckerId) (w : World) :
  let results := fst (fst (checker_Run (checker_of aws id) w)) in
  map Name results `sublist_of` map check_name (sub_checks id)
  /\ NoDup (map Name results)
  /\ (length results <= length (sub_checks id))%nat
  /\ Forall (fun r => Status r = "PASS" \/ Status r = "FAIL") results.
Proof.
  intros results. unfold results. rewrite Run_outcomes. simpl. unfold outcomes.
  pose proof (run_all_names (sub_checks id) w) as Hnames.
  split; [exact Hnames|]. split; [|split].
  - exact (sublist_NoDup _ _ (check_names_distinct id) Hnames).
  - apply sublist_length in Hnames. rewrite !length_map in Hnames. exact Hnames.
  - apply run_all_statuses.
Qed.

End RunResults.

(** ** When a leaf returns an error *)

Section LeafErrors.
Context `{Host}.
Variable aws : AWS.

Lemma list_error_is_returned (leaf : Leaf) (w w1 : World) (err : error) :
  leaf_listing aws leaf w = (Err err, w1) ->
  run_leaf aws leaf w = (Err err, w1).
Proof.
  intros Hl.
  destruct leaf; simpl in Hl; unfold identifiers in Hl; rewrite bind_run in Hl;
    simpl; autounfold with leaf_checks; rewrite !bind_run;
    match type of Hl with
    | context [fst (?c w)] => destruct (c w) as [[resp|e] w0]
    end;
    simpl in Hl; unfold ret in Hl; try discriminate Hl;
    injection Hl as -> ->; reflexivity.
Qed.

(** X1. A leaf returns an error exactly when its list call fails: it then
    returns that same error and no result, makes no further call and does
    not read the clock. When the list call succeeds the leaf returns a
    result, whatever its describe calls answer. *)
Theorem leaf_fails_only_with_its_listing (leaf : Leaf) (w : World) :
  match fst (leaf_listing aws leaf w) with
  | Err err => run_leaf aws leaf w = (Err err, snd (leaf_listing aws leaf w))
  | Ok _ => exists r w', run_leaf aws leaf w = (Ok r, w')
  end.
Proof.
  destruct (leaf_listing aws leaf w) as [[ids|err] w1] eqn:Hl; simpl.
  - exact (run_leaf_succeeds aws leaf w w1 ids Hl).
  - exact (list_error_is_returned leaf w w1 err Hl).
Qed.

End LeafErrors.

(** Scenario A once more: the failing result has severity CRITICAL and the
    priority that goes with it. *)
Lemma scenario_A_priority :
  exists r w',
    run_leaf (H := clock_host) scenario_A_account Redshift_ClusterEncryption 0 = (Ok r, w')
    /\ Status r = "FAIL"
    /\ Severity r = "CRITICAL"
    /\ Priority r = PriorityCritical.
Proof.
  assert (Hrun : exists r w',
    run_leaf (H := clock_host) scenario_A_account Redshift_ClusterEncryption 0 = (Ok r, w')
    /\ Status r = "FAIL" /\ Severity r = "CRITICAL")
    by (eexists; eexists; repeat split; vm_compute; reflexivity).
  destruct Hrun as (r & w' & Hrun & Hst & Hsev).
  exists r, w'. split; [exact Hrun|]. split; [exact Hst|]. split; [exact Hsev|].
  destruct (result_is_fail_or_pass (H := clock_host) _ _ _ _ _ Hrun)
    as [(_ & Hprio & _)|(Hpass & _)].
  - rewrite Hsev in Hprio. injection Hprio as <-. reflexivity.
  - rewrite Hst in Hpass. discriminate Hpass.
Defined.

(** Two cache clusters with encryption in transit: the check passes and
    counts both. *)
Lemma encrypted_in_transit_scenario :
  exists r w',
    run_leaf (H := clock_host) cache_clusters_account ElastiCache_EncryptionInTransit 0
    = (Ok r, w')
    /\ Status r = "PASS"
    /\ Evidence r = "All 2 ElastiCache clusters have encryption in transit enabled".
Proof.
  assert (Hrun : exists r w',
    run_leaf (H := clock_host) cache_clusters_account ElastiCache_EncryptionInTransit 0
    = (Ok r, w') /\ Status r = "PASS")
    by (eexists; eexists; split; vm_compute; reflexivity).
  destruct Hrun as (r & w' & Hrun & Hst).
  exists r, w'. split; [exact Hrun|]. split; [exact Hst|].
  destruct (pass_counts_the_listing (H := clock_host) _ _ _ _ _ Hrun)
    as (ids & w1 & v & w2 & Hl & _ & _ & Hev).
  vm_compute in Hl. injection Hl as <- _. exact (Hev Hst).
Defined.

(** Six unencrypted notebooks out of six listed. *)
Lemma six_of_six_scenario :
  SageMaker_NotebookEncryption <> Redshift_ClusterSSL
  /\ exists ids w1,
       leaf_listing (H := clock_host) six_unencrypted_account SageMaker_NotebookEncryption 0
       = (Ok ids, w1)
       /\ (length six_names <= length ids)%nat.
Proof.
  assert (Hv : leaf_violators (H := clock_host) six_unencrypted_account
                 SageMaker_NotebookEncryption 0 = (Ok six_names, 0)) by reflexivity.
  split; [discriminate|].
  apply (violations_bounded_by_listing (H := clock_host) six_unencrypted_account
           SageMaker_NotebookEncryption 0 0 six_names); [discriminate | exact Hv].
Defined.
(** ** More about the scan cache *)

Section CacheUse.
Import offline.
Variable float64 : Type.
Variable MarshalIndent : CachedScan float64 -> result string.
Variable Unmarshal : string -> result (CachedScan float64).
Variable Join : string -> string -> string.
Variable Format : Time -> string.
Variable write_fault : string -> string -> option fault.
Variable read_refused : string -> option error.
Variable stat_refused : string -> option error.

#[local] Abbreviation Save := (Save float64 MarshalIndent Join Format write_fault).
#[local] Abbreviation LoadLatest := (LoadLatest float64 Unmarshal Join read_refused).
#[local] Abbreviation LoadByTimestamp :=
  (LoadByTimestamp float64 Unmarshal Join Format read_refused).
#[local] Abbreviation HasCachedScan := (HasCachedScan Join stat_refused).
#[local] Abbreviation loadFromFile := (loadFromFile float64 Unmarshal read_refused).
#[local] Abbreviation decoded := (decoded float64 Unmarshal read_refused).
#[local] Abbreviation if_readable := (if_readable float64 read_refused).

(** The two paths a [Save] writes to. *)
#[local] Abbreviation scan_path c scan :=
  (Join (basePath c)
     (getScanFilename Format (Provider _ scan) (AccountID _ scan) (Framework _ scan)
        (Timestamp _ scan))).
#[local] Abbreviation latest_path c scan :=
  (Join (basePath c)
     (getLatestFilename (Provider _ scan) (AccountID _ scan) (Framework _ scan))).

(** X12. A [Save] that returns an error is not atomic, but it touches no
    path other than its two files. When marshalling fails nothing
    changes. When the first write fails the timestamped file is as before
    or holds the first bytes of the data, and nothing else changes. When
    the second write fails the timestamped file is complete and the
    latest file is as before or holds the first bytes of the data: the
    latest copy can be lost to a failed [Save]. *)
Theorem failed_save_is_not_atomic (c : Cache) (scan : CachedScan float64)
    (fs fs' : gmap string string) (err : error) :
  Save c scan fs = (Some err, fs') ->
  (forall path, path <> scan_path c scan -> path <> latest_path c scan ->
                fs' !! path = fs !! path)
  /\ ((exists e,
         MarshalIndent scan = Err e
         /\ err = "failed to marshal scan data: " +:+ e
         /\ fs' = fs)
      \/ (exists data e,
            MarshalIndent scan = Ok data
            /\ err = "failed to write cache file: " +:+ e
            /\ (fs' = fs
                \/ exists n, fs' = <[scan_path c scan := substring 0 n data]> fs))
      \/ (exists data e,
            MarshalIndent scan = Ok data
            /\ err = "failed to write latest cache file: " +:+ e
            /\ (fs' = <[scan_path c scan := data]> fs
                \/ exists n,
                     fs' = <[latest_path c scan := substring 0 n data]>
                             (<[scan_path c scan := data]> fs)))).
Proof.
  unfold offline.Save, WriteFile. intros Hsave.
  destruct (MarshalIndent scan) as [data|e].
  - destruct (write_fault (scan_path c scan) data) as [[e|n e]|].
    + injection Hsave as <- <-. split; [reflexivity|].
      right. left. exists data, e. auto.
    + injection Hsave as <- <-. split.
      * intros path Hne _. apply lookup_insert_ne. congruence.
      * right. left. exists data, e. eauto.
    + destruct (write_fault (latest_path c scan) data) as [[e|n e]|]; [| |discriminate].
      * injection Hsave as <- <-. split.
        -- intros path Hne _. apply lookup_insert_ne. congruence.
        -- right. right. exists data, e. auto.
      * injection Hsave as <- <-. split.
        -- intros path Hne1 Hne2.
           rewrite lookup_insert_ne by congruence. apply lookup_insert_ne. congruence.
        -- right. right. exists data, e. eauto.
  - injection Hsave as <- <-. split; [reflexivity|]. left. exists e. auto.
Qed.

(** X13. Two successful [Save]s of scans with the same provider, account
    and framework: [LoadLatest] returns the second scan. The timestamped
    file of the first scan is overwritten too when both timestamps format
    alike (the layout has a resolution of one second), and is kept
    otherwise. A file that cannot be read gives the read error
    instead. *)
Theorem second_save_replaces_latest (c : Cache) (s1 s2 : CachedScan float64)
    (fs fs1 fs2 : gmap string string) :
  Save c s1 fs = (None, fs1) ->
  Save c s2 fs1 = (None, fs2) ->
  Provider _ s1 = Provider _ s2 ->
  AccountID _ s1 = AccountID _ s2 ->
  Framework _ s1 = Framework _ s2 ->
  (forall data, MarshalIndent s1 = Ok data -> Unmarshal data = Ok s1) ->
  (forall data, MarshalIndent s2 = Ok data -> Unmarshal data = Ok s2) ->
  LoadLatest c (Provider _ s1) (AccountID _ s1) (Framework _ s1) fs2
  = if_readable (latest_path c s1) (Ok s2)
  /\ (Format (Timestamp _ s1) = Format (Timestamp _ s2) ->
      LoadByTimestamp c (Provider _ s1) (AccountID _ s1) (Framework _ s1)
        (Timestamp _ s1) fs2 = if_readable (scan_path c s1) (Ok s2))
  /\ (scan_path c s1 <> scan_path c s2 -> scan_path c s1 <> latest_path c s2 ->
      LoadByTimestamp c (Provider _ s1) (AccountID _ s1) (Framework _ s1)
        (Timestamp _ s1) fs2 = if_readable (scan_path c s1) (Ok s1)).
Proof.
  intros Hsave1 Hsave2 Hp Ha Hf Hjson1 Hjson2.
  destruct (Save_writes _ _ _ _ _ c s1 fs fs1 Hsave1) as (d1 & Hd1 & Hscan1 & _).
  destruct (Save_writes _ _ _ _ _ c s2 fs1 fs2 Hsave2) as (d2 & Hd2 & Hscan2 & Hlatest2).
  assert (Hback : forall path data s,
            fs2 !! path = Some data -> Unmarshal data = Ok s ->
            loadFromFile c path fs2 = if_readable path (Ok s)).
  { intros path data s Hdata Hs.
    rewrite (loadFromFile_holding _ _ _ _ _ _ _ Hdata). unfold offline.decoded.
    rewrite Hs. reflexivity. }
  split; [|split].
  - unfold offline.LoadLatest. apply (Hback _ d2); [|auto].
    rewrite Hp, Ha, Hf. exact Hlatest2.
  - intros Hfmt. unfold offline.LoadByTimestamp.
    assert (Hsame : scan_path c s1 = scan_path c s2)
      by (unfold getScanFilename; rewrite Hp, Ha, Hf, Hfmt; reflexivity).
    apply (Hback _ d2); [|auto]. rewrite Hsame. exact Hscan2.
  - intros Hne1 Hne2. unfold offline.LoadByTimestamp.
    apply (Hback _ d1); [|auto].
    revert Hsave2. unfold offline.Save, WriteFile. rewrite Hd2.
    destruct (write_fault (scan_path c s2) d2) as [[?|? ?]|]; [discriminate..|].
    destruct (write_fault (latest_path c s2) d2) as [[?|? ?]|]; [discriminate..|].
    intros Heq. injection Heq as <-.
    rewrite lookup_insert_ne by congruence.
    rewrite lookup_insert_ne by congruence. exact Hscan1.
Qed.

Lemma append_assoc (a b c : string) : (a +:+ b) +:+ c = a +:+ (b +:+ c).
Proof.
  induction a as [|x a IH]; [reflexivity|].
  change (String x ((a +:+ b) +:+ c) = String x (a +:+ (b +:+ c))).
  rewrite IH. reflexivity.
Qed.

(** The latest file does not tell where the provider ends and the account
    begins. *)
Lemma latest_filename_collides (p x a f : string) :
  getLatestFilename (p +:+ "-" +:+ x) a f = getLatestFilename p (x +:+ "-" +:+ a) f.
Proof. unfold getLatestFilename. rewrite !append_assoc. reflexivity. Qed.

(** X14. The name of the latest file joins provider, account and
    framework with dashes, so two keys that differ only in where a dash
    falls share one file: [LoadLatest] and [HasCachedScan] answer alike
    for provider "<p>-<x>" with account <a> and for provider <p> with
    account "<x>-<a>", whatever the files; and after a successful [Save]
    under the first key, [LoadLatest] for the second key answers with
    what [Unmarshal] makes of the bytes of that scan. *)
Theorem latest_file_shared_across_keys (c : Cache) (p x a f : string)
    (fs : gmap string string) :
  LoadLatest c (p +:+ "-" +:+ x) a f fs = LoadLatest c p (x +:+ "-" +:+ a) f fs
  /\ HasCachedScan c (p +:+ "-" +:+ x) a f fs = HasCachedScan c p (x +:+ "-" +:+ a) f fs
  /\ forall scan fs0,
       Save c scan fs0 = (None, fs) ->
       Provider _ scan = p +:+ "-" +:+ x ->
       AccountID _ scan = a ->
       Framework _ scan = f ->
       exists data,
         MarshalIndent scan = Ok data
         /\ LoadLatest c p (x +:+ "-" +:+ a) f fs
            = decoded (Join (basePath c) (getLatestFilename p (x +:+ "-" +:+ a) f)) data.
Proof.
  unfold offline.LoadLatest, offline.HasCachedScan.
  rewrite latest_filename_collides. split; [reflexivity|]. split; [reflexivity|].
  intros scan fs0 Hsave Hp Ha Hf.
  destruct (Save_writes _ _ _ _ _ c scan fs0 fs Hsave) as (data & Hdata & _ & Hlatest).
  rewrite Hp, Ha, Hf, latest_filename_collides in Hlatest.
  exists data. split; [exact Hdata|].
  apply loadFromFile_holding. exact Hlatest.
Qed.

Lemma read_error_is_not_absence (err path : string) :
  "failed to read cache file: " +:+ err <> "no cached scan found at " +:+ path.
Proof. intros Heq. discriminate Heq. Qed.

Lemma parse_error_is_not_absence (err path : string) :
  "failed to parse cache file: " +:+ err <> "no cached scan found at " +:+ path.
Proof. intros Heq. discriminate Heq. Qed.

(** X15. [HasCachedScan] looks at the latest file with [os.Stat] and
    does not read it. When it is true, [LoadLatest] never answers "no
    cached scan found", but it need not return a scan: it fails with
    "failed to read cache file" when the path cannot be read (a
    directory, a file without read permission) and with "failed to parse
    cache file" when the content is not a scan. A scan that [LoadLatest]
    returns, and the latest file of a successful [Save], are reported by
    [HasCachedScan] unless [os.Stat] itself is refused; and when
    [HasCachedScan] is false without [os.Stat] being refused, [LoadLatest]
    fails. *)
Theorem has_cached_scan_and_load (c : Cache) (provider accountID framework : string)
    (fs : gmap string string) :
  (HasCachedScan c provider accountID framework fs = true ->
   LoadLatest c provider accountID framework fs
   <> Err ("no cached scan found at "
           +:+ Join (basePath c) (getLatestFilename provider accountID framework))
   /\ ((exists scan, LoadLatest c provider accountID framework fs = Ok scan)
       \/ (exists err, LoadLatest c provider accountID framework fs
                       = Err ("failed to read cache file: " +:+ err))
       \/ (exists err, LoadLatest c provider accountID framework fs
                       = Err ("failed to parse cache file: " +:+ err))))
  /\ (forall scan,
        LoadLatest c provider accountID framework fs = Ok scan ->
        stat_refused (Join (basePath c) (getLatestFilename provider accountID framework))
        = None ->
        HasCachedScan c provider accountID framework fs = true)
  /\ (HasCachedScan c provider accountID framework fs = false ->
      stat_refused (Join (basePath c) (getLatestFilename provider accountID framework))
      = None ->
      LoadLatest c provider accountID framework fs
      = if_readable (Join (basePath c) (getLatestFilename provider accountID framework))
          (Err ("no cached scan found at "
                +:+ Join (basePath c) (getLatestFilename provider accountID framework))))
  /\ forall scan fs0,
       Save c scan fs0 = (None, fs) ->
       Provider _ scan = provider -> AccountID _ scan = accountID ->
       Framework _ scan = framework ->
       stat_refused (Join (basePath c) (getLatestFilename provider accountID framework))
       = None ->
       HasCachedScan c provider accountID framework fs = true.
Proof.
  unfold offline.HasCachedScan, offline.LoadLatest, offline.loadFromFile,
    offline.if_readable, ReadFile, Stat.
  set (path := Join (basePath c) (getLatestFilename provider accountID framework)).
  split; [|split; [|split]].
  - destruct (stat_refused path); [discriminate|].
    destruct (fs !! path) as [data|]; [|discriminate]. intros _.
    destruct (read_refused path) as [err|].
    + split; [intros Heq; injection Heq as Heq; discriminate Heq | eauto].
    + destruct (Unmarshal data) as [scan|err].
      * split; [discriminate | eauto].
      * split; [intros Heq; injection Heq as Heq; discriminate Heq | eauto].
  - intros scan Hload Hstat. rewrite Hstat.
    destruct (read_refused path); [discriminate|].
    destruct (fs !! path); [reflexivity | discriminate].
  - intros Hnone Hstat. rewrite Hstat in Hnone.
    destruct (fs !! path); [discriminate|].
    destruct (read_refused path); reflexivity.
  - intros scan fs0 Hsave <- <- <- Hstat.
    destruct (Save_writes _ _ _ _ _ c scan fs0 fs Hsave) as (data & _ & _ & Hlatest).
    subst path. rewrite Hstat, Hlatest. reflexivity.
Qed.

End CacheUse.

(** ** Clearing the cache *)

Section CacheClearing.
Import offline.
Variable Join : string -> string -> string.
Variable ReadDir : string -> gmap string string -> result (list DirEntry).
Variable remove_refused : string -> option error.

#[local] Abbreviation Clear_loop := (Clear_loop Join remove_refused).
#[local] Abbreviation Clear := (Clear Join ReadDir remove_refused).
#[local] Abbreviation file_paths := (file_paths Join).
#[local] Abbreviation Remove := (Remove remove_refused).

Lemma Remove_cases (path : string) (fs : gmap string string) :
  (exists err, Remove path fs = (Some err, fs))
  \/ (Remove path fs = (None, delete path fs) /\ is_Some (fs !! path)).
Proof.
  unfold offline.Remove. destruct (remove_refused path); [left; eauto|].
  destruct (fs !! path) eqn:Hp; [right; split; [reflexivity | eauto] | left; eauto].
Qed.

(** What a loop of [Clear] that comes to its end has done. *)
Lemma Clear_loop_done (c : Cache) (entries : list DirEntry) :
  forall fs fs',
    Clear_loop c entries fs = (None, fs') ->
    (forall path, In path (file_paths c entries) -> fs' !! path = None)
    /\ (forall path, ~ In path (file_paths c entries) -> fs' !! path = fs !! path).
Proof.
  induction entries as [|entry rest IH]; intros fs fs' Hloop.
  - simpl in Hloop. injection Hloop as <-. split; [intros path []|auto].
  - unfold offline.file_paths. simpl in *.
    destruct (IsDir entry) eqn:Hdir; simpl; [exact (IH _ _ Hloop)|].
    destruct (Remove_cases (Join (basePath c) (entry_Name entry)) fs)
      as [(cause & Hfail)|(Hgone & Hsome)].
    + rewrite Hfail in Hloop. discriminate.
    + rewrite Hgone in Hloop. destruct (IH _ _ Hloop) as [Hin Hout]. split.
      * intros path [<-|Hpath]; [|apply Hin; exact Hpath].
        destruct (in_dec string_dec (Join (basePath c) (entry_Name entry))
                    (file_paths c rest)) as [Hthere|Hnot]; [apply Hin; exact Hthere|].
        rewrite (Hout _ Hnot). apply lookup_delete_eq.
      * intros path Hnot. rewrite Hout by tauto.
        apply lookup_delete_ne. intros Heq. subst path. tauto.
Qed.

(** A loop of [Clear] that fails has cleared the entries before the one
    whose removal failed, and has gone no further. *)
Lemma Clear_loop_stops (c : Cache) (entries : list DirEntry) :
  forall fs fs' err,
    Clear_loop c entries fs = (Some err, fs') ->
    exists before entry after cause,
      entries = before ++ entry :: after
      /\ IsDir entry = false
      /\ err = "failed to remove " +:+ entry_Name entry +:+ ": " +:+ cause
      /\ Clear_loop c before fs = (None, fs')
      /\ Remove (Join (basePath c) (entry_Name entry)) fs' = (Some cause, fs').
Proof.
  induction entries as [|entry rest IH]; intros fs fs' err Hloop; [discriminate|].
  simpl in Hloop. destruct (IsDir entry) eqn:Hdir.
  - destruct (IH _ _ _ Hloop) as (before & e & after & cause & -> & He & -> & Hdone & Hfail).
    exists (entry :: before), e, after, cause. simpl. rewrite Hdir. auto.
  - destruct (Remove_cases (Join (basePath c) (entry_Name entry)) fs)
      as [(cause & Hfail)|(Hgone & _)].
    + rewrite Hfail in Hloop. injection Hloop as <- <-.
      exists [], entry, rest, cause. simpl. auto.
    + rewrite Hgone in Hloop.
      destruct (IH _ _ _ Hloop) as (before & e & after & cause & -> & He & -> & Hdone & Hfail).
      exists (entry :: before), e, after, cause. simpl. rewrite Hdir, Hgone. auto.
Qed.

(** X16. [Clear] removes the files of the listing in order and skips the
    directories. When it returns no error every file of the listing is
    gone and every other path is as before. When a removal fails [Clear]
    stops there: its error names the entry, "failed to remove <name>:
    <cause>", the files of the entries before it are gone, and every
    other path, the files of the entries after it included, is as
    before. *)
Theorem clear_removes_the_listed_files (c : Cache) (entries : list DirEntry)
    (fs : gmap string string) :
  ReadDir (basePath c) fs = Ok entries ->
  (fst (Clear c fs) = None ->
   (forall entry, In entry entries -> IsDir entry = false ->
                  snd (Clear c fs) !! Join (basePath c) (entry_Name entry) = None)
   /\ (forall path, ~ In path (file_paths c entries) ->
                    snd (Clear c fs) !! path = fs !! path))
  /\ (forall err,
        fst (Clear c fs) = Some err ->
        exists before entry after cause,
          entries = before ++ entry :: after
          /\ IsDir entry = false
          /\ err = "failed to remove " +:+ entry_Name entry +:+ ": " +:+ cause
          /\ Remove (Join (basePath c) (entry_Name entry)) (snd (Clear c fs))
             = (Some cause, snd (Clear c fs))
          /\ (forall path, In path (file_paths c before) ->
                           snd (Clear c fs) !! path = None)
          /\ (forall path, ~ In path (file_paths c before) ->
                           snd (Clear c fs) !! path = fs !! path)).
Proof.
  intros Hdir. unfold offline.Clear. rewrite Hdir.
  destruct (Clear_loop c entries fs) as [[err|] fs'] eqn:Hloop; simpl.
  - split; [discriminate|]. intros err' Heq. injection Heq as <-.
    destruct (Clear_loop_stops _ _ _ _ _ Hloop)
      as (before & entry & after & cause & Hsplit & Hfile & Herr & Hdone & Hfail).
    destruct (Clear_loop_done _ _ _ _ Hdone) as [Hgone Hkept].
    exists before, entry, after, cause. auto 10.
  - split; [|discriminate]. intros _.
    destruct (Clear_loop_done _ _ _ _ Hloop) as [Hgone Hkept].
    split; [|exact Hkept].
    intros entry Hin Hfile. apply Hgone. unfold offline.file_paths.
    apply (in_map (fun entry => Join (basePath c) (entry_Name entry))).
    apply filter_In. rewrite Hfile. auto.
Qed.

End CacheClearing.

(** ** Ageing and listing the cache *)

Section CacheAgeing.
Import offline.
Variable float64 : Type.
Variable Unmarshal : string -> result (CachedScan float64).
Variable Join : string -> string -> string.
Variable ReadDir : string -> gmap string string -> result (list DirEntry).
Variable read_refused : string -> option error.
Variable remove_refused : string -> option error.

#[local] Abbreviation loadFromFile := (loadFromFile float64 Unmarshal read_refused).
#[local] Abbreviation ClearOlderThan_loop :=
  (ClearOlderThan_loop float64 Unmarshal Join read_refused remove_refused).
#[local] Abbreviation ClearOlderThan :=
  (ClearOlderThan float64 Unmarshal Join ReadDir read_refused remove_refused).
#[local] Abbreviation expired := (expired float64 Unmarshal Join read_refused).
#[local] Abbreviation entry_path c entry := (Join (basePath c) (entry_Name entry)).

(** Loading looks at one path only. *)
Lemma loadFromFile_same (c : Cache) (path : string) (fs fs' : gmap string string) :
  fs' !! path = fs !! path -> loadFromFile c path fs' = loadFromFile c path fs.
Proof. unfold offline.loadFromFile, ReadFile. intros ->. reflexivity. Qed.

Lemma loadFromFile_exists (c : Cache) (path : string) (fs : gmap string string)
    (scan : CachedScan float64) :
  loadFromFile c path fs = Ok scan -> is_Some (fs !! path).
Proof.
  unfold offline.loadFromFile, ReadFile.
  destruct (read_refused path); [discriminate|].
  destruct (fs !! path); [eauto | discriminate].
Qed.

Lemma expired_same (c : Cache) (cutoff : Time) (entry : DirEntry)
    (fs fs' : gmap string string) :
  fs' !! entry_path c entry = fs !! entry_path c entry ->
  expired c cutoff fs' entry = expired c cutoff fs entry.
Proof.
  intros Heq. unfold offline.expired. rewrite (loadFromFile_same _ _ _ _ Heq).
  reflexivity.
Qed.

(** One turn of the loop of [ClearOlderThan], for a name of six bytes or
    more. *)
Lemma ClearOlderThan_loop_step (c : Cache) (cutoff : Time) (entry : DirEntry)
    (rest : list DirEntry) (removed : Z) (fs : gmap string string) :
  (6 <= String.length (entry_Name entry))%nat \/ IsDir entry = true ->
  ClearOlderThan_loop c cutoff (entry :: rest) removed fs
  = if expired c cutoff fs entry then
      match remove_refused (entry_path c entry) with
      | Some _ => ClearOlderThan_loop c cutoff rest removed fs
      | None =>
        ClearOlderThan_loop c cutoff rest (removed + 1) (delete (entry_path c entry) fs)
      end
    else ClearOlderThan_loop c cutoff rest removed fs.
Proof.
  intros Hname. simpl. unfold offline.expired.
  destruct (IsDir entry) eqn:Hdir; [reflexivity|].
  destruct Hname as [Hlong|]; [|discriminate].
  unfold slice_to. apply Nat.leb_le in Hlong. rewrite Hlong.
  destruct (String.eqb _ "latest"); [reflexivity|]. simpl.
  destruct (loadFromFile _ _ _) as [scan|err] eqn:Hload; [|reflexivity].
  destruct (Timestamp _ scan <? cutoff); [|reflexivity].
  unfold Remove. destruct (remove_refused _); [reflexivity|].
  destruct (loadFromFile_exists _ _ _ _ Hload) as [data ->]. reflexivity.
Qed.

(** A loop that returns has met no file with a name shorter than six
    bytes. *)
Lemma ClearOlderThan_loop_returns (c : Cache) (cutoff : Time) (entries : list DirEntry) :
  forall removed fs r,
    ClearOlderThan_loop c cutoff entries removed fs = Returns r ->
    Forall (fun entry => (6 <= String.length (entry_Name entry))%nat
                         \/ IsDir entry = true) entries.
Proof.
  induction entries as [|entry rest IH]; intros removed fs r Hloop; [constructor|].
  assert (Hname : (6 <= String.length (entry_Name entry))%nat \/ IsDir entry = true).
  { destruct (IsDir entry) eqn:Hdir; [auto|]. left.
    destruct (le_lt_dec 6 (String.length (entry_Name entry))) as [|Hshort]; [assumption|].
    rewrite ClearOlderThan_loop_short_name in Hloop by assumption.
    discriminate. }
  constructor; [exact Hname|].
  rewrite (ClearOlderThan_loop_step _ _ _ _ _ _ Hname) in Hloop.
  destruct (expired c cutoff fs entry); [|eauto].
  destruct (remove_refused _); eauto.
Qed.

(** What the loop of [ClearOlderThan] has done when it returns. *)
Lemma ClearOlderThan_loop_spec (c : Cache) (cutoff : Time) (entries : list DirEntry) :
  forall removed fs removed' fs',
    ClearOlderThan_loop c cutoff entries removed fs = Returns (removed', fs') ->
    0 <= removed' - removed <= len entries
    /\ Z.of_nat (size fs) = Z.of_nat (size fs') + (removed' - removed)
    /\ (forall path,
          fs' !! path = fs !! path
          \/ (fs' !! path = None /\ remove_refused path = None
              /\ exists entry, In entry entries /\ path = entry_path c entry
                               /\ expired c cutoff fs entry = true))
    /\ (forall entry, In entry entries -> expired c cutoff fs entry = true ->
                      remove_refused (entry_path c entry) = None ->
                      fs' !! entry_path c entry = None).
Proof.
  unfold len.
  induction entries as [|entry rest IH]; intros removed fs removed' fs' Hloop.
  - simpl in Hloop. injection Hloop as <- <-. simpl.
    split; [lia|]. split; [lia|]. split; [auto|]. intros entry [].
  - pose proof (ClearOlderThan_loop_returns _ _ _ _ _ _ Hloop) as Hnames.
    inversion Hnames as [|e l Hname _]; subst.
    rewrite (ClearOlderThan_loop_step _ _ _ _ _ _ Hname) in Hloop.
    assert (Hskip :
      ClearOlderThan_loop c cutoff rest removed fs = Returns (removed', fs') ->
      expired c cutoff fs entry = false
      \/ is_Some (remove_refused (entry_path c entry)) ->
      0 <= removed' - removed <= Z.of_nat (length (entry :: rest))
      /\ Z.of_nat (size fs) = Z.of_nat (size fs') + (removed' - removed)
      /\ (forall path,
            fs' !! path = fs !! path
            \/ (fs' !! path = None /\ remove_refused path = None
                /\ exists e, In e (entry :: rest) /\ path = entry_path c e
                             /\ expired c cutoff fs e = true))
      /\ (forall e, In e (entry :: rest) -> expired c cutoff fs e = true ->
                    remove_refused (entry_path c e) = None ->
                    fs' !! entry_path c e = None)).
    { intros Hrest Hwhy.
      destruct (IH _ _ _ _ Hrest) as (Hcount & Hsize & Honly & Hall).
      split; [simpl length; lia|]. split; [exact Hsize|]. split.
      - intros path. destruct (Honly path) as [|(Hnone & Hfree & e & Hin & Hrem)];
          [auto|].
        right. split; [exact Hnone|]. split; [exact Hfree|]. exists e. simpl. auto.
      - intros e [<-|Hin] Hexp Hfree; [|auto].
        destruct Hwhy as [Hnot|[err Herr]]; congruence. }
    destruct (expired c cutoff fs entry) eqn:Hexp; [|auto].
    destruct (remove_refused (entry_path c entry)) eqn:Hfree; [eauto|].
    clear Hskip.
    assert (Hthere : is_Some (fs !! entry_path c entry)).
    { revert Hexp. unfold offline.expired.
      destruct (loadFromFile _ _ _) as [scan|err] eqn:Hload.
      - intros _. exact (loadFromFile_exists _ _ _ _ Hload).
      - rewrite andb_false_r. discriminate. }
    destruct (IH _ _ _ _ Hloop) as (Hcount & Hsize & Honly & Hall).
    rewrite (map_size_delete_Some _ _ Hthere) in Hsize.
    assert (Hpos : (0 < size fs)%nat).
    { destruct Hthere as [data Hdata].
      destruct (size fs) eqn:Hsz; [|lia].
      apply map_size_empty_inv in Hsz. subst fs. rewrite lookup_empty in Hdata.
      discriminate. }
    assert (Hgone : fs' !! entry_path c entry = None).
    { destruct (Honly (entry_path c entry)) as [->|[-> _]]; [|reflexivity].
      apply lookup_delete_eq. }
    split; [simpl length; lia|]. split; [lia|]. split.
    + intros path.
      destruct (string_dec path (entry_path c entry)) as [->|Hne].
      * right. split; [exact Hgone|]. split; [exact Hfree|].
        exists entry. simpl. auto.
      * destruct (Honly path) as [->|(Hnone & Hfree' & e & Hin & Hpath & Hrem)].
        -- left. apply lookup_delete_ne. congruence.
        -- right. split; [exact Hnone|]. split; [exact Hfree'|].
           exists e. split; [simpl; auto|]. split; [exact Hpath|].
           rewrite <- Hrem. symmetry. apply expired_same.
           apply lookup_delete_ne. congruence.
    + intros e [<-|Hin] Hrem Hfree'; [exact Hgone|].
      destruct (string_dec (entry_path c e) (entry_path c entry)) as [->|Hne];
        [exact Hgone|].
      apply Hall; [exact Hin| |exact Hfree'].
      rewrite <- Hrem. apply expired_same. apply lookup_delete_ne. congruence.
Qed.

Lemma expired_true (c : Cache) (cutoff : Time) (fs : gmap string string)
    (entry : DirEntry) :
  expired c cutoff fs entry = true <->
  IsDir entry = false
  /\ substring 0 6 (entry_Name entry) <> "latest"
  /\ exists scan, loadFromFile c (entry_path c entry) fs = Ok scan
                  /\ Timestamp _ scan < cutoff.
Proof.
  unfold offline.expired. rewrite !andb_true_iff, !negb_true_iff.
  rewrite String.eqb_neq.
  destruct (loadFromFile _ _ _) as [scan|err].
  - rewrite Z.ltb_lt. split.
    + intros [[Hdir Hpre] Hold]. eauto.
    + intros (Hdir & Hpre & s & Heq & Hold). injection Heq as <-. auto.
  - split; [intros [_ Hno]; discriminate|].
    intros (_ & _ & s & Heq & _). discriminate.
Qed.

Lemma int64_negation (duration : Z) :
  - 2 ^ 63 < duration < 2 ^ 63 -> int64 (- duration) = - duration.
Proof.
  unfold int64. change (2 ^ 63) with 9223372036854775808.
  change (2 ^ 64) with 18446744073709551616. intros Hd.
  rewrite Z.mod_small by lia. lia.
Qed.

(** X17. [ClearOlderThan], when it returns, returns no error. Its cutoff
    is now plus the [int64] negation of the duration: now minus the
    duration, except for the least duration, whose negation is itself.
    It removes exactly the files of the listing that the operating system
    lets go, whose name does not begin with "latest" and whose content is
    a scan with a timestamp before the cutoff: those files are gone,
    every other path keeps its content (a latest copy is never aged out),
    and the count returned is the number of files removed. *)
Theorem clear_older_than_removes_the_expired (c : Cache) (duration : Z) (now : Time)
    (entries : list DirEntry) (fs fs' : gmap string string) (removed : Z)
    (err : option error) :
  ReadDir (basePath c) fs = Ok entries ->
  ClearOlderThan c duration now fs = Returns ((removed, err), fs') ->
  err = None
  /\ 0 <= removed <= len entries
  /\ Z.of_nat (size fs) = Z.of_nat (size fs') + removed
  /\ (forall path,
        fs' !! path <> fs !! path ->
        fs' !! path = None /\ remove_refused path = None
        /\ exists entry scan,
             In entry entries /\ path = entry_path c entry
             /\ IsDir entry = false
             /\ substring 0 6 (entry_Name entry) <> "latest"
             /\ loadFromFile c path fs = Ok scan
             /\ Timestamp _ scan < now + int64 (- duration))
  /\ (forall entry scan,
        In entry entries -> IsDir entry = false ->
        substring 0 6 (entry_Name entry) <> "latest" ->
        loadFromFile c (entry_path c entry) fs = Ok scan ->
        Timestamp _ scan < now + int64 (- duration) ->
        remove_refused (entry_path c entry) = None ->
        fs' !! entry_path c entry = None)
  /\ (- 2 ^ 63 < duration < 2 ^ 63 -> now + int64 (- duration) = now - duration)
  /\ (duration = - 2 ^ 63 -> now + int64 (- duration) = now - 2 ^ 63).
Proof.
  intros Hdir. unfold offline.ClearOlderThan. rewrite Hdir.
  destruct (ClearOlderThan_loop _ _ _ _ _) as [[n fs1]|msg] eqn:Hloop;
    [|discriminate].
  intros Heq. injection Heq as -> <- ->.
  destruct (ClearOlderThan_loop_spec _ _ _ _ _ _ _ Hloop)
    as (Hcount & Hsize & Honly & Hall).
  split; [reflexivity|]. split; [lia|]. split; [lia|]. split; [|split; [|split]].
  - intros path Hchanged.
    destruct (Honly path) as [|(Hnone & Hfree & e & Hin & -> & Hexp)]; [contradiction|].
    apply expired_true in Hexp. destruct Hexp as (Hfile & Hpre & scan & Hload & Hold).
    split; [exact Hnone|]. split; [exact Hfree|]. exists e, scan. auto 10.
  - intros entry scan Hin Hfile Hpre Hload Hold Hfree.
    apply Hall; [exact Hin| |exact Hfree].
    apply expired_true. eauto.
  - intros Hd. rewrite int64_negation by exact Hd. lia.
  - intros ->. reflexivity.
Qed.

(** X18. [ClearOlderThan] panics exactly when the listing holds a file
    (not a directory) whose name is shorter than six bytes; with any other
    listing it returns. *)
Theorem clear_older_than_panics_on_short_names_only (c : Cache) (duration : Z)
    (now : Time) (entries : list DirEntry) (fs : gmap string string) :
  ReadDir (basePath c) fs = Ok entries ->
  ((exists msg, ClearOlderThan c duration now fs = Panics msg) <->
   exists entry, In entry entries /\ IsDir entry = false
                 /\ (String.length (entry_Name entry) < 6)%nat).
Proof.
  intros Hdir. unfold offline.ClearOlderThan. rewrite Hdir.
  destruct (ClearOlderThan_loop _ _ _ _ _) as [[n fs1]|msg] eqn:Hloop.
  - split; [intros [msg Hmsg]; discriminate|].
    intros (entry & Hin & Hfile & Hshort).
    pose proof (ClearOlderThan_loop_returns _ _ _ _ _ _ Hloop) as Hnames.
    rewrite List.Forall_forall in Hnames. destruct (Hnames entry Hin); [lia|congruence].
  - split; [intros _|eauto].
    destruct (List.Exists_dec (fun entry => IsDir entry = false
                            /\ (String.length (entry_Name entry) < 6)%nat) entries)
      as [Hex|Hnone].
    { intros entry. destruct (IsDir entry); [right; intros [? _]; discriminate|].
      destruct (lt_dec (String.length (entry_Name entry)) 6); [left; auto|].
      right. intros [_ ?]. contradiction. }
    + apply List.Exists_exists in Hex. destruct Hex as (entry & Hin & Hfile & Hshort). eauto.
    + exfalso.
      assert (Hlong : Forall (fun entry => (6 <= String.length (entry_Name entry))%nat
                                           \/ IsDir entry = true) entries).
      { apply List.Forall_forall. intros entry Hin.
        destruct (IsDir entry) eqn:Hfile; [auto|]. left.
        destruct (le_lt_dec 6 (String.length (entry_Name entry))); [assumption|].
        exfalso. apply Hnone. apply List.Exists_exists. eauto. }
      clear Hnone Hdir. revert Hloop. generalize 0 fs.
      induction Hlong as [|entry rest Hname _ IH]; intros removed fs0; [discriminate|].
      rewrite (ClearOlderThan_loop_step _ _ _ _ _ _ Hname).
      destruct (expired c (now + int64 (- duration)) fs0 entry); [|apply IH].
      destruct (remove_refused _); apply IH.
Qed.

End CacheAgeing.

(** ** Listing the cache *)

Section CacheListing.
Import offline.
Variable float64 : Type.
Variable Unmarshal : string -> result (CachedScan float64).
Variable Join : string -> string -> string.
Variable ReadDir : string -> gmap string string -> result (list DirEntry).
Variable read_refused : string -> option error.
Variable Glob : string -> gmap string string -> result (list string).

#[local] Abbreviation loadFromFile := (loadFromFile float64 Unmarshal read_refused).
#[local] Abbreviation GetCacheInfo_loop :=
  (GetCacheInfo_loop float64 Unmarshal Join read_refused).
#[local] Abbreviation GetCacheInfo :=
  (GetCacheInfo float64 Unmarshal Join ReadDir read_refused).
#[local] Abbreviation ListScans_loop := (ListScans_loop float64 Unmarshal read_refused).
#[local] Abbreviation ListScans := (ListScans float64 Unmarshal Join read_refused Glob).
#[local] Abbreviation listed := (listed float64 Unmarshal Join read_refused).
#[local] Abbreviation loadable := (loadable float64 Unmarshal read_refused).
#[local] Abbreviation entry_path c entry := (Join (basePath c) (entry_Name entry)).

(** An entry at which [GetCacheInfo] does not slice a short name. *)
#[local] Abbreviation sliceable entry :=
  (IsDir entry = true \/ Ext (entry_Name entry) <> ".json"
   \/ Nat.le 6 (String.length (entry_Name entry))).

Lemma append_empty (s : string) : s +:+ EmptyString = s.
Proof.
  induction s as [|x s IH]; [reflexivity|].
  change (String x (s +:+ EmptyString) = String x s). rewrite IH. reflexivity.
Qed.

(** The extension is the end of the name. *)
Lemma Ext_is_suffix (path : string) : exists stem, path = stem +:+ Ext path.
Proof.
  induction path as [|x rest [stem IH]]; [exists EmptyString; reflexivity|].
  simpl. destruct (Ext rest) as [|y ext] eqn:Hrest.
  - destruct (Ascii.eqb x "." && negb (has_separator rest)).
    + exists EmptyString. reflexivity.
    + exists (String x rest). rewrite append_empty. reflexivity.
  - exists (String x stem).
    change (String x rest = String x (stem +:+ String y ext)). rewrite <- IH.
    reflexivity.
Qed.

Lemma length_append (a b : string) :
  String.length (a +:+ b) = (String.length a + String.length b)%nat.
Proof.
  induction a as [|x a IH]; [reflexivity|].
  change (S (String.length (a +:+ b)) = S (String.length a + String.length b)).
  rewrite IH. reflexivity.
Qed.

(** The only name shorter than six bytes with the extension ".json". *)
Lemma short_json_name (name : string) :
  Ext name = ".json" -> (String.length name < 6)%nat -> name = ".json".
Proof.
  intros Hext Hshort. destruct (Ext_is_suffix name) as [stem Hstem].
  rewrite Hext in Hstem. rewrite Hstem, length_append in Hshort.
  destruct stem as [|x stem]; [exact Hstem|]. simpl in Hshort. lia.
Qed.

Lemma GetCacheInfo_loop_step (c : Cache) (fs : gmap string string) (entry : DirEntry)
    (rest : list DirEntry) (scans : list (ScanInfo float64)) :
  sliceable entry ->
  GetCacheInfo_loop c fs (entry :: rest) scans
  = GetCacheInfo_loop c fs rest
      (match listed c fs entry with Some i => scans ++ [i] | None => scans end).
Proof.
  intros Hok. simpl. unfold offline.listed.
  destruct (IsDir entry) eqn:Hdir; [reflexivity|].
  destruct (String.eqb (Ext (entry_Name entry)) ".json") eqn:Hext; [|reflexivity].
  simpl. apply String.eqb_eq in Hext.
  destruct Hok as [|[|Hlong]]; [discriminate|contradiction|].
  unfold slice_to. apply Nat.leb_le in Hlong. rewrite Hlong.
  destruct (String.eqb _ "latest"); [reflexivity|].
  destruct (loadFromFile _ _ _); reflexivity.
Qed.

Lemma GetCacheInfo_loop_unsliceable (c : Cache) (fs : gmap string string)
    (entry : DirEntry) (rest : list DirEntry) (scans : list (ScanInfo float64)) :
  ~ sliceable entry ->
  GetCacheInfo_loop c fs (entry :: rest) scans = Panics "slice bounds out of range".
Proof.
  intros Hno. simpl.
  destruct (IsDir entry); [tauto|].
  destruct (String.eqb (Ext (entry_Name entry)) ".json") eqn:Hext.
  - simpl. unfold slice_to.
    destruct (6 <=? String.length (entry_Name entry))%nat eqn:Hlen; [|reflexivity].
    apply Nat.leb_le in Hlen. tauto.
  - apply String.eqb_neq in Hext. tauto.
Qed.

Lemma sliceable_dec (entry : DirEntry) : {sliceable entry} + {~ sliceable entry}.
Proof.
  destruct (IsDir entry); [left; auto|].
  destruct (string_dec (Ext (entry_Name entry)) ".json") as [Hext|]; [|left; auto].
  destruct (le_lt_dec 6 (String.length (entry_Name entry))); [left; auto|].
  right. intros [|[|]]; [discriminate|contradiction|lia].
Qed.

(** The loop of [GetCacheInfo] either panics at an entry that is not
    sliceable or appends what each entry reports, in order. *)
Lemma GetCacheInfo_loop_spec (c : Cache) (fs : gmap string string)
    (entries : list DirEntry) :
  forall scans,
    (Forall (fun entry => sliceable entry) entries
     /\ GetCacheInfo_loop c fs entries scans = Returns (scans ++ omap (listed c fs) entries))
    \/ (Exists (fun entry => ~ sliceable entry) entries
        /\ GetCacheInfo_loop c fs entries scans = Panics "slice bounds out of range").
Proof.
  induction entries as [|entry rest IH]; intros scans.
  - left. split; [constructor|]. simpl. rewrite app_nil_r. reflexivity.
  - destruct (sliceable_dec entry) as [Hok|Hno].
    + rewrite (GetCacheInfo_loop_step _ _ _ _ _ Hok).
      destruct (IH (match listed c fs entry with Some i => scans ++ [i] | None => scans end))
        as [[Hall Hrun]|[Hex Hrun]].
      * left. split; [constructor; assumption|]. rewrite Hrun.
        change (omap (listed c fs) (entry :: rest))
          with (match listed c fs entry with
                | Some i => i :: omap (listed c fs) rest
                | None => omap (listed c fs) rest
                end).
        destruct (listed c fs entry); [rewrite <- app_assoc|]; reflexivity.
      * right. split; [apply Exists_cons_tl; assumption | exact Hrun].
    + right. split; [apply Exists_cons_hd; assumption|].
      apply GetCacheInfo_loop_unsliceable. exact Hno.
Qed.

Lemma listed_Some (c : Cache) (fs : gmap string string) (entry : DirEntry)
    (i : ScanInfo float64) :
  listed c fs entry = Some i <->
  IsDir entry = false /\ Ext (entry_Name entry) = ".json"
  /\ substring 0 6 (entry_Name entry) <> "latest"
  /\ exists scan, loadFromFile c (entry_path c entry) fs = Ok scan
                  /\ i = scan_info float64 entry scan.
Proof.
  unfold offline.listed.
  destruct (IsDir entry); [split; [discriminate | intros [? _]; discriminate]|].
  destruct (String.eqb (Ext (entry_Name entry)) ".json") eqn:Hext; simpl.
  - apply String.eqb_eq in Hext.
    destruct (String.eqb (substring 0 6 (entry_Name entry)) "latest") eqn:Hpre.
    + apply String.eqb_eq in Hpre. split; [discriminate|]. intros (_ & _ & Hno & _).
      contradiction.
    + apply String.eqb_neq in Hpre.
      destruct (loadFromFile _ _ _) as [scan|err].
      * split.
        -- intros Heq. injection Heq as <-. eauto 10.
        -- intros (_ & _ & _ & s & Heq & ->). injection Heq as <-. reflexivity.
      * split; [discriminate|]. intros (_ & _ & _ & s & Heq & _). discriminate.
  - apply String.eqb_neq in Hext. split; [discriminate|]. intros (_ & Hno & _).
    contradiction.
Qed.

Lemma listed_filename (c : Cache) (fs : gmap string string) (entry : DirEntry)
    (i : ScanInfo float64) :
  listed c fs entry = Some i -> info_filename _ i = entry_Name entry.
Proof.
  intros Hi. apply listed_Some in Hi. destruct Hi as (_ & _ & _ & scan & _ & ->).
  reflexivity.
Qed.

Lemma listed_filenames (c : Cache) (fs : gmap string string) (entries : list DirEntry) :
  sublist (map (info_filename float64) (omap (listed c fs) entries))
          (map entry_Name entries)
  /\ (length (omap (listed c fs) entries) <= length entries)%nat.
Proof.
  induction entries as [|entry rest [IH IHlen]]; [split; [constructor | reflexivity]|].
  change (omap (listed c fs) (entry :: rest))
    with (match listed c fs entry with
          | Some i => i :: omap (listed c fs) rest
          | None => omap (listed c fs) rest
          end).
  destruct (listed c fs entry) as [i|] eqn:Hi; simpl.
  - rewrite (listed_filename _ _ _ _ Hi). split; [apply sublist_skip; exact IH | lia].
  - split; [apply sublist_cons; exact IH | lia].
Qed.

(** X19. [GetCacheInfo], when the directory can be read and it returns,
    returns no error; the report carries the cache path, counts every
    entry of the directory in total_files (directories, latest copies
    and files that do not load included), and lists one scan for each
    file with the extension ".json" whose name does not begin with "latest"
    and that loads, in the order of the directory. *)
Theorem cache_info_reports_the_loadable_scans (c : Cache) (entries : list DirEntry)
    (fs : gmap string string) (r : result (CacheInfo float64)) :
  ReadDir (basePath c) fs = Ok entries ->
  GetCacheInfo c fs = Returns r ->
  exists info,
    r = Ok info
    /\ cache_path _ info = basePath c
    /\ total_files _ info = len entries
    /\ (forall i, In i (scans _ info) <->
                  exists entry scan,
                    In entry entries /\ IsDir entry = false
                    /\ Ext (entry_Name entry) = ".json"
                    /\ substring 0 6 (entry_Name entry) <> "latest"
                    /\ loadFromFile c (entry_path c entry) fs = Ok scan
                    /\ i = scan_info float64 entry scan)
    /\ sublist (map (info_filename float64) (scans _ info)) (map entry_Name entries)
    /\ len (scans _ info) <= total_files _ info.
Proof.
  intros Hdir. unfold offline.GetCacheInfo. rewrite Hdir.
  destruct (GetCacheInfo_loop_spec c fs entries []) as [[_ Hrun]|[_ Hrun]];
    rewrite Hrun; [|discriminate].
  intros Heq. injection Heq as <-. eexists. split; [reflexivity|]. simpl.
  split; [reflexivity|]. split; [reflexivity|].
  destruct (listed_filenames c fs entries) as [Hsub Hlen].
  split; [|split; [exact Hsub | unfold len; lia]].
  intros i. rewrite <- list_elem_of_In, list_elem_of_omap. split.
  - intros (entry & Hin & Hi). apply list_elem_of_In in Hin.
    apply listed_Some in Hi. destruct Hi as (Hfile & Hext & Hpre & scan & Hload & ->).
    exists entry, scan. auto 10.
  - intros (entry & scan & Hin & Hfile & Hext & Hpre & Hload & ->).
    exists entry. split; [apply list_elem_of_In; exact Hin|].
    apply listed_Some. eauto 10.
Qed.

(** X20. [GetCacheInfo] panics exactly when the listing holds a file (not
    a directory) named ".json": the test of the extension shields every
    other short name from the slice. *)
Theorem cache_info_panics_on_dot_json_only (c : Cache) (entries : list DirEntry)
    (fs : gmap string string) :
  ReadDir (basePath c) fs = Ok entries ->
  ((exists msg, GetCacheInfo c fs = Panics msg) <->
   exists entry, In entry entries /\ IsDir entry = false /\ entry_Name entry = ".json").
Proof.
  intros Hdir. unfold offline.GetCacheInfo. rewrite Hdir.
  destruct (GetCacheInfo_loop_spec c fs entries []) as [[Hall Hrun]|[Hex Hrun]];
    rewrite Hrun.
  - split; [intros [msg Hmsg]; discriminate|].
    intros (entry & Hin & Hfile & Hname). exfalso.
    rewrite List.Forall_forall in Hall. specialize (Hall entry Hin).
    rewrite Hfile, Hname in Hall. destruct Hall as [|[Hext|Hlen]];
      [discriminate | apply Hext; reflexivity | simpl in Hlen; lia].
  - split; [intros _ | eauto].
    apply List.Exists_exists in Hex. destruct Hex as (entry & Hin & Hno).
    exists entry. split; [exact Hin|].
    destruct (IsDir entry); [tauto|]. split; [reflexivity|].
    apply short_json_name.
    + destruct (string_dec (Ext (entry_Name entry)) ".json"); tauto.
    + destruct (le_lt_dec 6 (String.length (entry_Name entry))); [tauto | assumption].
Qed.

Lemma ListScans_loop_spec (c : Cache) (fs : gmap string string) (matches : list string) :
  forall scans,
    ListScans_loop c fs matches scans = scans ++ omap (loadable c fs) matches.
Proof.
  induction matches as [|m rest IH]; intros scans; simpl.
  - rewrite app_nil_r. reflexivity.
  - change (omap (loadable c fs) (m :: rest))
      with (match loadable c fs m with
            | Some scan => scan :: omap (loadable c fs) rest
            | None => omap (loadable c fs) rest
            end).
    unfold offline.loadable at 1.
    destruct (loadFromFile _ _ _) as [scan|err]; rewrite IH;
      [rewrite <- app_assoc|]; reflexivity.
Qed.

(** X21. [ListScans] fails only when the glob fails, with "failed to list
    cache files: <cause>". Otherwise it returns, in the order of the
    matches, the scans of the matches that load; a match that is missing
    or does not parse is left out without an error, so the list can be
    shorter than the matches. *)
Theorem list_scans_skips_what_does_not_load (c : Cache)
    (provider accountID framework : string) (fs : gmap string string) :
  (forall err,
     Glob (Join (basePath c)
             ("scan-" +:+ provider +:+ "-" +:+ accountID +:+ "-" +:+ framework
              +:+ "-*.json")) fs = Err err ->
     ListScans c provider accountID framework fs
     = Err ("failed to list cache files: " +:+ err))
  /\ (forall matches,
        Glob (Join (basePath c)
                ("scan-" +:+ provider +:+ "-" +:+ accountID +:+ "-" +:+ framework
                 +:+ "-*.json")) fs = Ok matches ->
        exists scans,
          ListScans c provider accountID framework fs = Ok scans
          /\ scans = omap (loadable c fs) matches
          /\ (forall scan, In scan scans <->
                exists m, In m matches /\ loadFromFile c m fs = Ok scan)
          /\ (length scans <= length matches)%nat).
Proof.
  unfold offline.ListScans. split.
  - intros err ->. reflexivity.
  - intros matches ->. eexists. split; [reflexivity|].
    rewrite ListScans_loop_spec. simpl. split; [reflexivity|]. split.
    + intros scan. rewrite <- list_elem_of_In, list_elem_of_omap. split.
      * intros (m & Hin & Hm). exists m. split; [apply list_elem_of_In; exact Hin|].
        revert Hm. unfold offline.loadable.
        destruct (loadFromFile _ _ _); [|discriminate].
        intros Heq. injection Heq as <-. reflexivity.
      * intros (m & Hin & Hm). exists m. split; [apply list_elem_of_In; exact Hin|].
        unfold offline.loadable. rewrite Hm. reflexivity.
    + clear. induction matches as [|m rest IH]; [reflexivity|].
      change (omap (loadable c fs) (m :: rest))
        with (match loadable c fs m with
              | Some scan => scan :: omap (loadable c fs) rest
              | None => omap (loadable c fs) rest
              end).
      destruct (loadable c fs m); simpl; lia.
Qed.

End CacheListing.

(** ** The cache at work *)

(** The disk fills up while the latest copy is written: [Save] fails
    after it has written the timestamped file and emptied the latest
    file, and the scan that [LoadLatest] returned before is lost. A file
    elsewhere is as before. *)
Lemma full_disk_scenario :
  offline.LoadLatest Z offline.demo_Unmarshal offline.demo_Join offline.never_refused
    offline.demo_cache "aws" "123456789012" "soc2"
    (<["/home/user/.auditkit/cache/latest-aws-123456789012-soc2.json" :=
         "aws" +:+ nl +:+ "123456789012" +:+ nl +:+ "soc2"]>
       (<["/home/user/report.pdf" := "r"]> ∅))
  = Ok (offline.demo_scan "aws" "123456789012" "soc2")
  /\ fst (offline.Save Z offline.demo_Marshal offline.demo_Join offline.demo_Format
            (offline.break_only
               "/home/user/.auditkit/cache/latest-aws-123456789012-soc2.json" 0)
            offline.demo_cache (offline.demo_scan "aws" "123456789012" "soc2")
            (<["/home/user/.auditkit/cache/latest-aws-123456789012-soc2.json" :=
                 "aws" +:+ nl +:+ "123456789012" +:+ nl +:+ "soc2"]>
               (<["/home/user/report.pdf" := "r"]> ∅)))
     = Some "failed to write latest cache file: no space left on device"
  /\ offline.LoadLatest Z offline.demo_Unmarshal offline.demo_Join offline.never_refused
       offline.demo_cache "aws" "123456789012" "soc2"
       (snd (offline.Save Z offline.demo_Marshal offline.demo_Join offline.demo_Format
               (offline.break_only
                  "/home/user/.auditkit/cache/latest-aws-123456789012-soc2.json" 0)
               offline.demo_cache (offline.demo_scan "aws" "123456789012" "soc2")
               (<["/home/user/.auditkit/cache/latest-aws-123456789012-soc2.json" :=
                    "aws" +:+ nl +:+ "123456789012" +:+ nl +:+ "soc2"]>
                  (<["/home/user/report.pdf" := "r"]> ∅))))
     = Err "failed to parse cache file: unexpected end of JSON input"
  /\ snd (offline.Save Z offline.demo_Marshal offline.demo_Join offline.demo_Format
            (offline.break_only
               "/home/user/.auditkit/cache/latest-aws-123456789012-soc2.json" 0)
            offline.demo_cache (offline.demo_scan "aws" "123456789012" "soc2")
            (<["/home/user/.auditkit/cache/latest-aws-123456789012-soc2.json" :=
                 "aws" +:+ nl +:+ "123456789012" +:+ nl +:+ "soc2"]>
               (<["/home/user/report.pdf" := "r"]> ∅)))
     !! "/home/user/report.pdf" = Some "r".
Proof.
  pose (fs := <["/home/user/.auditkit/cache/latest-aws-123456789012-soc2.json" :=
                  "aws" +:+ nl +:+ "123456789012" +:+ nl +:+ "soc2"]>
                (<["/home/user/report.pdf" := "r"]> (∅ : gmap string string))).
  pose (host := offline.break_only
                  "/home/user/.auditkit/cache/latest-aws-123456789012-soc2.json" 0).
  pose (scan := offline.demo_scan "aws" "123456789012" "soc2").
  pose (fs' := snd (offline.Save Z offline.demo_Marshal offline.demo_Join
                      offline.demo_Format host offline.demo_cache scan fs)).
  assert (Hsave :
    offline.Save Z offline.demo_Marshal offline.demo_Join offline.demo_Format host
      offline.demo_cache scan fs
    = (Some "failed to write latest cache file: no space left on device", fs'))
    by reflexivity.
  destruct (failed_save_is_not_atomic Z offline.demo_Marshal offline.demo_Join
              offline.demo_Format host offline.demo_cache scan fs fs' _ Hsave)
    as [Hother _].
  split; [vm_compute; reflexivity|]. split; [reflexivity|].
  split; [vm_compute; reflexivity|].
  change (fs' !! "/home/user/report.pdf" = Some "r").
  rewrite Hother; [reflexivity | vm_compute; discriminate | vm_compute; discriminate].
Defined.

(** Two scans of one account, taken at different times: the latest file
    holds the second, the timestamped file of the first is kept. *)
Lemma two_saves_scenario :
  exists fs1 fs2,
    offline.Save Z offline.stamped_Marshal offline.demo_Join offline.demo_Format
      offline.never_fails offline.demo_cache
      (offline.stamped_scan 1 "aws" "123456789012" "soc2") ∅ = (None, fs1)
    /\ offline.Save Z offline.stamped_Marshal offline.demo_Join offline.demo_Format
         offline.never_fails offline.demo_cache
         (offline.stamped_scan 2 "aws" "123456789012" "soc2") fs1 = (None, fs2)
    /\ offline.LoadLatest Z offline.stamped_Unmarshal offline.demo_Join
         offline.never_refused offline.demo_cache "aws" "123456789012" "soc2" fs2
       = Ok (offline.stamped_scan 2 "aws" "123456789012" "soc2")
    /\ offline.LoadByTimestamp Z offline.stamped_Unmarshal offline.demo_Join
         offline.demo_Format offline.never_refused offline.demo_cache
         "aws" "123456789012" "soc2" 1 fs2
       = Ok (offline.stamped_scan 1 "aws" "123456789012" "soc2").
Proof.
  pose (fs1 := snd (offline.Save Z offline.stamped_Marshal offline.demo_Join
                      offline.demo_Format offline.never_fails offline.demo_cache
                      (offline.stamped_scan 1 "aws" "123456789012" "soc2") ∅)).
  pose (fs2 := snd (offline.Save Z offline.stamped_Marshal offline.demo_Join
                      offline.demo_Format offline.never_fails offline.demo_cache
                      (offline.stamped_scan 2 "aws" "123456789012" "soc2") fs1)).
  exists fs1, fs2.
  assert (Hsave1 :
    offline.Save Z offline.stamped_Marshal offline.demo_Join offline.demo_Format
      offline.never_fails offline.demo_cache
      (offline.stamped_scan 1 "aws" "123456789012" "soc2") ∅ = (None, fs1))
    by reflexivity.
  assert (Hsave2 :
    offline.Save Z offline.stamped_Marshal offline.demo_Join offline.demo_Format
      offline.never_fails offline.demo_cache
      (offline.stamped_scan 2 "aws" "123456789012" "soc2") fs1 = (None, fs2))
    by reflexivity.
  split; [exact Hsave1|]. split; [exact Hsave2|].
  destruct (second_save_replaces_latest Z offline.stamped_Marshal offline.stamped_Unmarshal
              offline.demo_Join offline.demo_Format offline.never_fails
              offline.never_refused offline.demo_cache _ _ ∅ _ _ Hsave1 Hsave2
              eq_refl eq_refl eq_refl)
    as (Hlatest & _ & Hfirst).
  - intros data Hdata. injection Hdata as <-. reflexivity.
  - intros data Hdata. injection Hdata as <-. reflexivity.
  - split; [exact Hlatest|]. apply Hfirst; vm_compute; discriminate.
Defined.

(** A scan of provider "aws-prod" and account "123" answers for provider
    "aws" and account "prod-123" as well. *)
Lemma shared_latest_file_scenario :
  offline.LoadLatest Z offline.demo_Unmarshal offline.demo_Join offline.never_refused
    offline.demo_cache "aws" "prod-123" "soc2"
    (snd (offline.Save Z offline.demo_Marshal offline.demo_Join offline.demo_Format
            offline.never_fails offline.demo_cache
            (offline.demo_scan "aws-prod" "123" "soc2") ∅))
  = Ok (offline.demo_scan "aws-prod" "123" "soc2")
  /\ offline.HasCachedScan offline.demo_Join offline.never_refused offline.demo_cache
       "aws" "prod-123" "soc2"
       (snd (offline.Save Z offline.demo_Marshal offline.demo_Join offline.demo_Format
               offline.never_fails offline.demo_cache
               (offline.demo_scan "aws-prod" "123" "soc2") ∅))
     = true.
Proof.
  pose (fs' := snd (offline.Save Z offline.demo_Marshal offline.demo_Join
                      offline.demo_Format offline.never_fails offline.demo_cache
                      (offline.demo_scan "aws-prod" "123" "soc2") ∅)).
  destruct (latest_file_shared_across_keys Z offline.demo_Marshal offline.demo_Unmarshal
              offline.demo_Join offline.demo_Format offline.never_fails
              offline.never_refused offline.never_refused offline.demo_cache
              "aws" "prod" "123" "soc2" fs') as (_ & Hcached & Hload).
  destruct (Hload (offline.demo_scan "aws-prod" "123" "soc2") ∅ eq_refl eq_refl
              eq_refl eq_refl) as (data & Hdata & Hsame).
  injection Hdata as <-. split; [exact Hsame|].
  change (offline.HasCachedScan offline.demo_Join offline.never_refused
            offline.demo_cache "aws" ("prod" +:+ "-" +:+ "123") "soc2" fs' = true).
  rewrite <- Hcached. reflexivity.
Defined.

(** A latest path that exists but cannot be read counts as a cached scan,
    and loading it fails. *)
Lemma unreadable_latest_scenario :
  offline.HasCachedScan offline.demo_Join offline.never_refused offline.demo_cache
    "aws" "123456789012" "soc2"
    (<["/home/user/.auditkit/cache/latest-aws-123456789012-soc2.json" :=
         "aws" +:+ nl +:+ "123456789012" +:+ nl +:+ "soc2"]> ∅) = true
  /\ offline.LoadLatest Z offline.demo_Unmarshal offline.demo_Join
       (offline.refuse_only "/home/user/.auditkit/cache/latest-aws-123456789012-soc2.json")
       offline.demo_cache "aws" "123456789012" "soc2"
       (<["/home/user/.auditkit/cache/latest-aws-123456789012-soc2.json" :=
            "aws" +:+ nl +:+ "123456789012" +:+ nl +:+ "soc2"]> ∅)
     = Err "failed to read cache file: permission denied"
  /\ offline.LoadLatest Z offline.demo_Unmarshal offline.demo_Join
       (offline.refuse_only "/home/user/.auditkit/cache/latest-aws-123456789012-soc2.json")
       offline.demo_cache "aws" "123456789012" "soc2"
       (<["/home/user/.auditkit/cache/latest-aws-123456789012-soc2.json" :=
            "aws" +:+ nl +:+ "123456789012" +:+ nl +:+ "soc2"]> ∅)
     <> Err ("no cached scan found at "
             +:+ "/home/user/.auditkit/cache/latest-aws-123456789012-soc2.json").
Proof.
  assert (Hcached :
    offline.HasCachedScan offline.demo_Join offline.never_refused offline.demo_cache
      "aws" "123456789012" "soc2"
      (<["/home/user/.auditkit/cache/latest-aws-123456789012-soc2.json" :=
           "aws" +:+ nl +:+ "123456789012" +:+ nl +:+ "soc2"]> ∅) = true)
    by reflexivity.
  split; [exact Hcached|]. split; [vm_compute; reflexivity|].
  exact (proj1 (proj1 (has_cached_scan_and_load Z offline.demo_Marshal
                         offline.demo_Unmarshal offline.demo_Join offline.demo_Format
                         offline.never_fails
                         (offline.refuse_only
                            "/home/user/.auditkit/cache/latest-aws-123456789012-soc2.json")
                         offline.never_refused offline.demo_cache
                         "aws" "123456789012" "soc2" _) Hcached)).
Defined.

(** A cache directory with three files and a directory, of which the
    second file cannot be removed: [Clear] removes the first file, fails
    at the second and leaves the third. *)
Lemma clear_scenario :
  fst (offline.Clear offline.demo_Join
         (offline.listing [offline.file "scan-a.json"; offline.directory "archive";
                           offline.file "notes"; offline.file "scan-b.json"])
         (offline.refuse_only "/home/user/.auditkit/cache/notes") offline.demo_cache
         (<["/home/user/.auditkit/cache/scan-a.json" := "a"]>
            (<["/home/user/.auditkit/cache/notes" := "n"]>
               (<["/home/user/.auditkit/cache/scan-b.json" := "b"]> ∅))))
  = Some "failed to remove notes: permission denied"
  /\ snd (offline.Clear offline.demo_Join
            (offline.listing [offline.file "scan-a.json"; offline.directory "archive";
                              offline.file "notes"; offline.file "scan-b.json"])
            (offline.refuse_only "/home/user/.auditkit/cache/notes") offline.demo_cache
            (<["/home/user/.auditkit/cache/scan-a.json" := "a"]>
               (<["/home/user/.auditkit/cache/notes" := "n"]>
                  (<["/home/user/.auditkit/cache/scan-b.json" := "b"]> ∅))))
     = <["/home/user/.auditkit/cache/notes" := "n"]>
         (<["/home/user/.auditkit/cache/scan-b.json" := "b"]> ∅)
  /\ exists before entry after cause,
       [offline.file "scan-a.json"; offline.directory "archive";
        offline.file "notes"; offline.file "scan-b.json"] = before ++ entry :: after
       /\ "failed to remove notes: permission denied"
          = "failed to remove " +:+ offline.entry_Name entry +:+ ": " +:+ cause.
Proof.
  pose (entries := [offline.file "scan-a.json"; offline.directory "archive";
                    offline.file "notes"; offline.file "scan-b.json"]).
  pose (fs := <["/home/user/.auditkit/cache/scan-a.json" := "a"]>
                (<["/home/user/.auditkit/cache/notes" := "n"]>
                   (<["/home/user/.auditkit/cache/scan-b.json" := "b"]>
                      (∅ : gmap string string)))).
  assert (Herr :
    fst (offline.Clear offline.demo_Join (offline.listing entries)
           (offline.refuse_only "/home/user/.auditkit/cache/notes") offline.demo_cache fs)
    = Some "failed to remove notes: permission denied") by reflexivity.
  split; [exact Herr|]. split; [vm_compute; reflexivity|].
  destruct (proj2 (clear_removes_the_listed_files offline.demo_Join
                     (offline.listing entries)
                     (offline.refuse_only "/home/user/.auditkit/cache/notes")
                     offline.demo_cache entries fs eq_refl) _ Herr)
    as (before & entry & after & cause & Hsplit & _ & Hmsg & _).
  exists before, entry, after, cause. split; [exact Hsplit | exact Hmsg].
Defined.

(** A week-old cache: of an old scan, a fresh scan, an old latest copy
    and a directory, [ClearOlderThan] removes the old scan alone. *)
Lemma week_old_cache_scenario :
  offline.ClearOlderThan Z offline.stamped_Unmarshal offline.demo_Join
    (offline.listing [offline.file "scan-aws-123-soc2-50.json";
                      offline.file "scan-aws-123-soc2-95.json";
                      offline.file "latest-aws-123-soc2.json";
                      offline.directory "archive"])
    offline.never_refused offline.never_refused offline.demo_cache 10 100
    (<["/home/user/.auditkit/cache/scan-aws-123-soc2-50.json" :=
         "50" +:+ nl +:+ "aws" +:+ nl +:+ "123" +:+ nl +:+ "soc2"]>
       (<["/home/user/.auditkit/cache/scan-aws-123-soc2-95.json" :=
            "95" +:+ nl +:+ "aws" +:+ nl +:+ "123" +:+ nl +:+ "soc2"]>
          (<["/home/user/.auditkit/cache/latest-aws-123-soc2.json" :=
               "50" +:+ nl +:+ "aws" +:+ nl +:+ "123" +:+ nl +:+ "soc2"]> ∅)))
  = offline.Returns
      ((1, None),
       <["/home/user/.auditkit/cache/scan-aws-123-soc2-95.json" :=
           "95" +:+ nl +:+ "aws" +:+ nl +:+ "123" +:+ nl +:+ "soc2"]>
         (<["/home/user/.auditkit/cache/latest-aws-123-soc2.json" :=
              "50" +:+ nl +:+ "aws" +:+ nl +:+ "123" +:+ nl +:+ "soc2"]> ∅))
  /\ (<["/home/user/.auditkit/cache/scan-aws-123-soc2-95.json" :=
          "95" +:+ nl +:+ "aws" +:+ nl +:+ "123" +:+ nl +:+ "soc2"]>
        (<["/home/user/.auditkit/cache/latest-aws-123-soc2.json" :=
             "50" +:+ nl +:+ "aws" +:+ nl +:+ "123" +:+ nl +:+ "soc2"]>
           (∅ : gmap string string)))
     !! "/home/user/.auditkit/cache/scan-aws-123-soc2-50.json" = None.
Proof.
  pose (entries := [offline.file "scan-aws-123-soc2-50.json";
                    offline.file "scan-aws-123-soc2-95.json";
                    offline.file "latest-aws-123-soc2.json";
                    offline.directory "archive"]).
  pose (fs := <["/home/user/.auditkit/cache/scan-aws-123-soc2-50.json" :=
                  "50" +:+ nl +:+ "aws" +:+ nl +:+ "123" +:+ nl +:+ "soc2"]>
                (<["/home/user/.auditkit/cache/scan-aws-123-soc2-95.json" :=
                     "95" +:+ nl +:+ "aws" +:+ nl +:+ "123" +:+ nl +:+ "soc2"]>
                   (<["/home/user/.auditkit/cache/latest-aws-123-soc2.json" :=
                        "50" +:+ nl +:+ "aws" +:+ nl +:+ "123" +:+ nl +:+ "soc2"]>
                      (∅ : gmap string string)))).
  pose (fs' := <["/home/user/.auditkit/cache/scan-aws-123-soc2-95.json" :=
                   "95" +:+ nl +:+ "aws" +:+ nl +:+ "123" +:+ nl +:+ "soc2"]>
                 (<["/home/user/.auditkit/cache/latest-aws-123-soc2.json" :=
                      "50" +:+ nl +:+ "aws" +:+ nl +:+ "123" +:+ nl +:+ "soc2"]>
                    (∅ : gmap string string))).
  assert (Hrun :
    offline.ClearOlderThan Z offline.stamped_Unmarshal offline.demo_Join
      (offline.listing entries) offline.never_refused offline.never_refused
      offline.demo_cache 10 100 fs
    = offline.Returns ((1, None), fs')) by (vm_compute; reflexivity).
  split; [exact Hrun|].
  pose proof (clear_older_than_removes_the_expired Z offline.stamped_Unmarshal
                offline.demo_Join (offline.listing entries) offline.never_refused
                offline.never_refused offline.demo_cache 10 100 entries fs fs' 1 None
                eq_refl Hrun)
    as (_ & _ & _ & _ & Hgone & _).
  apply (Hgone (offline.file "scan-aws-123-soc2-50.json")
           (offline.stamped_scan 50 "aws" "123" "soc2"));
    [simpl; auto | reflexivity | vm_compute; discriminate | vm_compute; reflexivity
    | vm_compute; reflexivity | reflexivity].
Defined.

(** A stray file with a short name stops [ClearOlderThan]. *)
Lemma stray_file_scenario :
  exists msg,
    offline.ClearOlderThan Z offline.demo_Unmarshal offline.demo_Join
      (offline.listing [offline.directory "old"; offline.file "notes"])
      offline.never_refused offline.never_refused offline.demo_cache 10 100 ∅
    = offline.Panics msg.
Proof.
  apply (proj2 (clear_older_than_panics_on_short_names_only Z offline.demo_Unmarshal
                  offline.demo_Join
                  (offline.listing [offline.directory "old"; offline.file "notes"])
                  offline.never_refused offline.never_refused offline.demo_cache 10 100
                  [offline.directory "old"; offline.file "notes"] ∅ eq_refl)).
  exists (offline.file "notes"). split; [simpl; auto|]. split; [reflexivity|].
  simpl. lia.
Defined.

(** The report on a directory of four entries lists the one scan that
    is neither a latest copy nor unreadable. *)
Lemma cache_report_scenario :
  exists info,
    offline.GetCacheInfo Z offline.stamped_Unmarshal offline.demo_Join
      (offline.listing [offline.file "scan-aws-123-soc2-50.json";
                        offline.file "latest-aws-123-soc2.json";
                        offline.file "readme.txt";
                        offline.directory "archive"])
      offline.never_refused offline.demo_cache
      (<["/home/user/.auditkit/cache/scan-aws-123-soc2-50.json" :=
           "50" +:+ nl +:+ "aws" +:+ nl +:+ "123" +:+ nl +:+ "soc2"]>
         (<["/home/user/.auditkit/cache/latest-aws-123-soc2.json" :=
              "50" +:+ nl +:+ "aws" +:+ nl +:+ "123" +:+ nl +:+ "soc2"]> ∅))
    = offline.Returns (Ok info)
    /\ offline.total_files Z info = 4
    /\ map (offline.info_filename Z) (offline.scans Z info) = ["scan-aws-123-soc2-50.json"]
    /\ len (offline.scans Z info) <= offline.total_files Z info.
Proof.
  pose (entries := [offline.file "scan-aws-123-soc2-50.json";
                    offline.file "latest-aws-123-soc2.json";
                    offline.file "readme.txt";
                    offline.directory "archive"]).
  pose (fs := <["/home/user/.auditkit/cache/scan-aws-123-soc2-50.json" :=
                  "50" +:+ nl +:+ "aws" +:+ nl +:+ "123" +:+ nl +:+ "soc2"]>
                (<["/home/user/.auditkit/cache/latest-aws-123-soc2.json" :=
                     "50" +:+ nl +:+ "aws" +:+ nl +:+ "123" +:+ nl +:+ "soc2"]>
                   (∅ : gmap string string))).
  pose (info := {| offline.cache_path := "/home/user/.auditkit/cache";
                   offline.total_files := 4;
                   offline.scans :=
                     [offline.scan_info Z (offline.file "scan-aws-123-soc2-50.json")
                        (offline.stamped_scan 50 "aws" "123" "soc2")] |}).
  assert (Hrun :
    offline.GetCacheInfo Z offline.stamped_Unmarshal offline.demo_Join
      (offline.listing entries) offline.never_refused offline.demo_cache fs
    = offline.Returns (Ok info)) by (vm_compute; reflexivity).
  exists info. split; [exact Hrun|].
  destruct (cache_info_reports_the_loadable_scans Z offline.stamped_Unmarshal
              offline.demo_Join (offline.listing entries) offline.never_refused
              offline.demo_cache entries fs (Ok info) eq_refl Hrun)
    as (info' & Hinfo & _ & Htotal & _ & _ & Hbound).
  injection Hinfo as <-.
  split; [exact Htotal|]. split; [reflexivity | exact Hbound].
Defined.

(** A file named ".json" stops [GetCacheInfo]. *)
Lemma dot_json_scenario :
  exists msg,
    offline.GetCacheInfo Z offline.demo_Unmarshal offline.demo_Join
      (offline.listing [offline.file "notes"; offline.file ".json"])
      offline.never_refused offline.demo_cache ∅
    = offline.Panics msg.
Proof.
  apply (proj2 (cache_info_panics_on_dot_json_only Z offline.demo_Unmarshal
                  offline.demo_Join
                  (offline.listing [offline.file "notes"; offline.file ".json"])
                  offline.never_refused offline.demo_cache
                  [offline.file "notes"; offline.file ".json"] ∅
                  eq_refl)).
  exists (offline.file ".json"). split; [simpl; auto|]. split; reflexivity.
Defined.

(** ** Coloured text and boxes *)

Section VisibleLength.
Import cli.

(** The count a loop starts from is carried along. *)
Lemma visibleLength_loop_shift (s : list rune) (inEscape : bool) (n : Z) :
  visibleLength_loop s inEscape n
  = (fst (visibleLength_loop s inEscape 0), n + snd (visibleLength_loop s inEscape 0)).
Proof.
  revert inEscape n. induction s as [|r s IH]; intros inEscape n; simpl.
  - f_equal. lia.
  - destruct (r =? ESC); [apply IH|].
    destruct inEscape; [apply IH|].
    rewrite (IH false (n + 1)), (IH false (0 + 1)). simpl. f_equal. lia.
Qed.

Lemma visibleLength_loop_app (s t : list rune) (inEscape : bool) (n : Z) :
  visibleLength_loop (s ++ t) inEscape n
  = visibleLength_loop t (fst (visibleLength_loop s inEscape n))
      (snd (visibleLength_loop s inEscape n)).
Proof.
  revert inEscape n. induction s as [|r s IH]; intros inEscape n; simpl; [reflexivity|].
  destruct (r =? ESC); [apply IH|].
  destruct inEscape; apply IH.
Qed.

Lemma visibleLength_loop_grows (s : list rune) (inEscape : bool) (n : Z) :
  n <= snd (visibleLength_loop s inEscape n).
Proof.
  revert inEscape n. induction s as [|r s IH]; intros inEscape n; simpl; [lia|].
  destruct (r =? ESC); [apply IH|].
  destruct inEscape; [apply IH|].
  specialize (IH false (n + 1)). lia.
Qed.

(** The ellipsis counts for three unless it falls inside an escape
    sequence. *)
Lemma visibleLength_loop_ellipsis (inEscape : bool) (n : Z) :
  visibleLength_loop (runes "...") inEscape n
  = (inEscape, if inEscape then n else n + 3).
Proof. destruct inEscape; simpl; [reflexivity|]. f_equal. lia. Qed.

(** What the loop of [truncateWithEllipsis] keeps: a prefix of the
    string, cut before a visible rune once the budget is used up, or the
    whole string. *)
Lemma truncateWithEllipsis_loop_spec (s : list rune) (width : Z) :
  forall result length inEscape,
    length <= width - 3 ->
    exists kept rest,
      s = kept ++ rest
      /\ truncateWithEllipsis_loop s width result length inEscape = result ++ kept
      /\ snd (visibleLength_loop kept inEscape length) <= width - 3
      /\ (rest = []
          \/ (visibleLength_loop kept inEscape length = (false, width - 3)
              /\ exists r rest', rest = r :: rest' /\ (r =? ESC) = false)).
Proof.
  induction s as [|r s IH]; intros result length inEscape Hroom.
  - exists [], []. simpl. rewrite app_nil_r. auto.
  - simpl. destruct (r =? ESC) eqn:Hesc.
    + destruct (IH (result ++ [r]) length true Hroom)
        as (kept & rest & -> & -> & Hle & Hend).
      exists (r :: kept), rest. simpl. rewrite Hesc, <- app_assoc. auto.
    + destruct inEscape.
      * destruct (IH (result ++ [r]) length (if r =? letter_m then false else true)
                    Hroom) as (kept & rest & -> & -> & Hle & Hend).
        exists (r :: kept), rest. simpl. rewrite Hesc, <- app_assoc. auto.
      * destruct (length >=? width - 3) eqn:Hfull.
        -- exists [], (r :: s). simpl. rewrite app_nil_r.
           split; [reflexivity|]. split; [reflexivity|]. split; [lia|].
           rewrite Z.geb_le in Hfull. right.
           replace length with (width - 3) by lia. eauto.
        -- assert (Hnext : length + 1 <= width - 3).
           { destruct (Z.geb_spec length (width - 3)); [discriminate | lia]. }
           destruct (IH (result ++ [r]) (length + 1) false Hnext)
             as (kept & rest & -> & -> & Hle & Hend).
           exists (r :: kept), rest. simpl. rewrite Hesc, <- app_assoc. auto.
Qed.

(** Where measuring a truncated string ends, for a width of more than
    three. *)
Lemma truncateWithEllipsis_state (s : list rune) (width : Z) :
  3 < width ->
  snd (visibleLength_loop (truncateWithEllipsis s width) false 0) <= width
  /\ (width - 3 < visibleLength s ->
      visibleLength_loop (truncateWithEllipsis s width) false 0 = (false, width)).
Proof.
  intros Hwide. unfold truncateWithEllipsis, visibleLength.
  destruct (Z.leb_spec width 3) as [|_]; [lia|].
  destruct (truncateWithEllipsis_loop_spec s width [] 0 false ltac:(lia))
    as (kept & rest & Hs & -> & Hle & Hend).
  change ([] ++ kept) with kept.
  rewrite visibleLength_loop_app, visibleLength_loop_ellipsis. cbn [fst snd].
  split.
  - destruct (fst (visibleLength_loop kept false 0)); lia.
  - intros Hlong. destruct Hend as [->|(Hstate & _)].
    + rewrite app_nil_r in Hs. subst kept. lia.
    + rewrite Hstate. cbn [fst snd]. f_equal. lia.
Qed.

Lemma truncateWithEllipsis_narrow (s : list rune) (width : Z) :
  width <= 3 -> truncateWithEllipsis s width = runes "...".
Proof.
  intros Hsmall. unfold truncateWithEllipsis. apply Z.leb_le in Hsmall.
  rewrite Hsmall. reflexivity.
Qed.

(** X22. [truncateWithEllipsis] fits the width when the width is more
    than three: the result shows at most [width] runes, and exactly
    [width], ending outside an escape sequence, when the string shows more
    than [width - 3]. With a width of three or less the result is the
    ellipsis alone, three runes wide whatever the width. *)
Theorem truncation_fits_the_width (s : list rune) (width : Z) :
  (width <= 3 -> truncateWithEllipsis s width = runes "...")
  /\ (3 < width ->
      visibleLength (truncateWithEllipsis s width) <= width
      /\ (width - 3 < visibleLength s ->
          visibleLength (truncateWithEllipsis s width) = width
          /\ ends_in_escape (truncateWithEllipsis s width) = false)).
Proof.
  split; [apply truncateWithEllipsis_narrow|].
  intros Hwide. destruct (truncateWithEllipsis_state s width Hwide) as [Hle Hexact].
  split; [exact Hle|].
  intros Hlong. unfold visibleLength at 1. unfold ends_in_escape.
  rewrite (Hexact Hlong). split; reflexivity.
Qed.

(** X23. [truncateWithEllipsis], for a width of more than three, returns
    a prefix of the string followed by the ellipsis. A string that shows
    no more than [width - 3] runes is kept whole, and still gets the
    ellipsis; otherwise the cut falls right before a visible rune, so
    that escape sequences after the cut, a closing reset included, are
    dropped. *)
Theorem truncation_keeps_a_prefix (s : list rune) (width : Z) :
  3 < width ->
  exists kept rest,
    s = kept ++ rest
    /\ truncateWithEllipsis s width = kept ++ runes "..."
    /\ (visibleLength s <= width - 3 -> rest = [])
    /\ (width - 3 < visibleLength s ->
        visibleLength kept = width - 3
        /\ exists r rest', rest = r :: rest' /\ r <> ESC).
Proof.
  intros Hwide. unfold truncateWithEllipsis, visibleLength.
  destruct (Z.leb_spec width 3) as [|_]; [lia|].
  destruct (truncateWithEllipsis_loop_spec s width [] 0 false ltac:(lia))
    as (kept & rest & Hs & -> & Hle & Hend).
  exists kept, rest. split; [exact Hs|]. split; [reflexivity|].
  destruct Hend as [->|(Hstate & r & rest' & -> & Hr)].
  - split; [reflexivity|]. intros Hlong. rewrite app_nil_r in Hs. subst kept. lia.
  - assert (Hmore : width - 3 < snd (visibleLength_loop s false 0)).
    { rewrite Hs, visibleLength_loop_app, Hstate. simpl. rewrite Hr.
      pose proof (visibleLength_loop_grows rest' false (width - 3 + 1)). lia. }
    split; [lia|]. intros _. rewrite Hstate. split; [reflexivity|].
    exists r, rest'. split; [reflexivity|]. intros ->. discriminate.
Qed.

(** The reset code ends any escape sequence and shows nothing. *)
Lemma visibleLength_loop_Reset (inEscape : bool) (n : Z) :
  visibleLength_loop Reset inEscape n = (false, n).
Proof. destruct inEscape; reflexivity. Qed.

Lemma visibleLength_loop_invisible (code : list rune) (n : Z) :
  invisible code = true -> visibleLength_loop code false n = (false, n).
Proof.
  unfold invisible. intros Hcode. apply andb_true_iff in Hcode.
  destruct Hcode as [Hout Hzero]. rewrite visibleLength_loop_shift.
  apply negb_true_iff in Hout. apply Z.eqb_eq in Hzero. rewrite Hout, Hzero.
  f_equal. lia.
Qed.

(** X24. [Color] does not change what shows: for a colour code of which
    nothing shows (one of the codes of the package, or several in a row),
    the coloured text is as wide as the text, with colours enabled or not;
    and with colours enabled it ends outside an escape sequence even when
    the text does not. *)
Theorem colour_keeps_the_visible_length (IsColorEnabled : bool)
    (color text : list rune) :
  invisible color = true ->
  visibleLength (Color IsColorEnabled color text) = visibleLength text
  /\ (IsColorEnabled = true ->
      ends_in_escape (Color IsColorEnabled color text) = false).
Proof.
  intros Hcode. unfold Color, visibleLength, ends_in_escape.
  destruct IsColorEnabled; simpl negb; cbv iota.
  - rewrite visibleLength_loop_app, (visibleLength_loop_invisible _ _ Hcode).
    cbn [fst snd]. rewrite visibleLength_loop_app, visibleLength_loop_Reset.
    auto.
  - split; [reflexivity | discriminate].
Qed.

End VisibleLength.

(** Nothing shows of the colour codes of the package, and the label of a
    critical finding is ten runes wide, in colour too. *)
Lemma critical_label_scenario :
  Forall (fun code => cli.invisible code = true)
    [cli.Reset; cli.Bold; cli.Dim; cli.Red; cli.Green; cli.Yellow; cli.Blue;
     cli.Magenta; cli.Cyan; cli.White; cli.BrightRed; cli.BrightGreen;
     cli.BrightYellow; cli.BrightBlue; cli.BrightCyan; cli.BgRed; cli.BgGreen;
     cli.BgYellow; cli.Bold ++ cli.BrightRed]
  /\ cli.visibleLength (cli.Critical true) = 10
  /\ cli.ends_in_escape (cli.Critical true) = false.
Proof.
  destruct (colour_keeps_the_visible_length true (cli.Bold ++ cli.BrightRed)
              (cli.runes "[CRITICAL]") eq_refl) as [Hwidth Hout].
  split; [repeat constructor|]. split; [exact Hwidth | exact (Hout eq_refl)].
Defined.

(** A coloured line cut to ten columns: seven runes show before the
    ellipsis, and the reset after the text is lost. *)
Lemma cut_coloured_line_scenario :
  cli.truncateWithEllipsis (cli.Color true cli.Red (cli.runes "not encrypted")) 10
  = cli.Red ++ cli.runes "not enc" ++ cli.runes "..."
  /\ exists kept rest,
       cli.Color true cli.Red (cli.runes "not encrypted") = kept ++ rest
       /\ cli.truncateWithEllipsis (cli.Color true cli.Red (cli.runes "not encrypted")) 10
          = kept ++ cli.runes "..."
       /\ cli.visibleLength kept = 7.
Proof.
  split; [reflexivity|].
  destruct (truncation_keeps_a_prefix
              (cli.Color true cli.Red (cli.runes "not encrypted")) 10 ltac:(lia))
    as (kept & rest & Hs & Hcut & _ & Hlong).
  exists kept, rest. split; [exact Hs|]. split; [exact Hcut|].
  apply Hlong. vm_compute. reflexivity.
Defined.

(** ** Boxes *)

Section Boxes.
Import cli.

Lemma int_small (z : Z) :
  -9223372036854775808 <= z < 9223372036854775808 -> int z = z.
Proof.
  intros Hz. unfold int.
  change (2 ^ 63) with 9223372036854775808.
  change (2 ^ 64) with 18446744073709551616.
  rewrite Z.mod_small by lia. lia.
Qed.

Lemma rune_len_bounds (r : rune) : 1 <= rune_len r <= 4.
Proof.
  unfold rune_len.
  destruct (r <? 128); [lia|]. destruct (r <? 2048); [lia|].
  destruct (r <? 65536); lia.
Qed.

Lemma Repeat_negative (s : list rune) (count : Z) :
  count < 0 -> Repeat s count = Panics "strings: negative Repeat count".
Proof. intros Hneg. unfold Repeat. apply Z.ltb_lt in Hneg. rewrite Hneg. reflexivity. Qed.

(** A repetition of one rune, of a sensible length. *)
Lemma Repeat_rune (r : rune) (count : Z) :
  0 <= count <= 1099511627776 ->
  Repeat [r] count = Returns (concat (repeat [r] (Z.to_nat count))).
Proof.
  intros Hcount. unfold Repeat, maxInt.
  destruct (Z.ltb_spec count 0) as [|_]; [lia|].
  change (2 ^ 63 - 1) with 9223372036854775807.
  simpl len_bytes. pose proof (rune_len_bounds r) as Hr.
  destruct (Z.gtb_spec ((rune_len r + 0) * count) 9223372036854775807) as [Hover|_];
    [nia | reflexivity].
Qed.

Lemma visibleLength_loop_rune (r : rune) (n : Z) :
  (r =? ESC) = false -> visibleLength_loop [r] false n = (false, n + 1).
Proof. intros Hr. simpl. rewrite Hr. reflexivity. Qed.

Lemma visibleLength_loop_repeat (r : rune) (k : nat) (n : Z) :
  (r =? ESC) = false ->
  visibleLength_loop (concat (repeat [r] k)) false n = (false, n + Z.of_nat k).
Proof.
  intros Hr. revert n. induction k as [|k IH]; intros n.
  - simpl. f_equal. lia.
  - simpl. rewrite Hr, IH. f_equal. lia.
Qed.

Lemma visibleLength_loop_printable (s : list rune) (n : Z) :
  Forall (fun r => printable r = true) s ->
  visibleLength_loop s false n = (false, n + Z.of_nat (length s))
  /\ len_bytes s = Z.of_nat (length s).
Proof.
  intros Hs. revert n. induction Hs as [|r s Hr _ IH]; intros n.
  - simpl. split; [f_equal; lia | reflexivity].
  - unfold printable in Hr. apply andb_true_iff in Hr. destruct Hr as [Hlo Hhi].
    apply Z.leb_le in Hlo. apply Z.ltb_lt in Hhi.
    simpl visibleLength_loop. unfold ESC.
    destruct (Z.eqb_spec r 27) as [|_]; [lia|].
    destruct (IH (n + 1)) as [-> Hlen]. split.
    + f_equal. simpl length. lia.
    + simpl len_bytes. rewrite Hlen. unfold rune_len.
      destruct (Z.ltb_spec r 128); [|lia]. simpl length. lia.
Qed.

Lemma visibleLength_loop_closed (s : list rune) (n : Z) :
  ends_in_escape s = false ->
  visibleLength_loop s false n = (false, n + visibleLength s).
Proof.
  unfold ends_in_escape, visibleLength. intros Hout.
  rewrite visibleLength_loop_shift, Hout. reflexivity.
Qed.

Lemma visibleLength_nonneg (s : list rune) : 0 <= visibleLength s.
Proof. apply visibleLength_loop_grows. Qed.

(** Measuring a row piece by piece. *)
Lemma visibleLength_app_closed (s t : list rune) (n : Z) :
  visibleLength_loop s false 0 = (false, n) ->
  visibleLength_loop (s ++ t) false 0 = visibleLength_loop t false n.
Proof. intros Hs. rewrite visibleLength_loop_app, Hs. reflexivity. Qed.

(** One turn of the loop of [Box.String]: it returns for every width from
    two on, and the row it adds is as wide as the box when the box is at
    least seven wide, its colour shows nothing and the line ends outside
    an escape sequence. *)
Lemma Box_String_line_row (b : Box) (hr vr : rune) (line sb : list rune) :
  2 <= width b <= 1099511627776 ->
  exists row,
    Box_String_line b [hr] [vr] line sb = Returns (sb ++ row ++ [10])
    /\ (7 <= width b -> invisible (color b) = true ->
        (hr =? ESC) = false -> (vr =? ESC) = false ->
        ends_in_escape line = false ->
        visibleLength row = width b).
Proof.
  intros Hwidth. unfold Box_String_line.
  rewrite (int_small (width b - 2)) by lia.
  rewrite (int_small (width b - 4)) by lia.
  destruct (bool_decide (line = runes "---SEPARATOR---")).
  - rewrite Repeat_rune by lia.
    exists (color b ++ BoxTeeRight ++ concat (repeat [hr] (Z.to_nat (width b - 2)))
            ++ BoxTeeLeft ++ Reset).
    split; [rewrite <- !app_assoc; reflexivity|].
    intros _ Hcolor Hh _ _. unfold visibleLength.
    rewrite (visibleLength_app_closed _ _ 0)
      by (apply visibleLength_loop_invisible; exact Hcolor).
    rewrite visibleLength_loop_app. simpl (visibleLength_loop BoxTeeRight false 0).
    cbn [fst snd].
    rewrite visibleLength_loop_app, (visibleLength_loop_repeat _ _ _ Hh).
    cbn [fst snd].
    rewrite visibleLength_loop_app. simpl (visibleLength_loop BoxTeeLeft false _).
    cbn [fst snd]. rewrite visibleLength_loop_Reset. simpl. lia.
  - cbv zeta.
    set (displayLine :=
           if visibleLength line >? width b - 4
           then truncateWithEllipsis line (width b - 4) else line).
    assert (Hshown : 0 <= visibleLength displayLine
                     /\ (3 <= width b - 4 -> ends_in_escape line = false ->
                         visibleLength displayLine <= width b - 4
                         /\ ends_in_escape displayLine = false)
                     /\ (width b - 4 < visibleLength displayLine ->
                         width b - 4 < 3)).
    { split; [apply visibleLength_nonneg|]. subst displayLine.
      destruct (Z.gtb_spec (visibleLength line) (width b - 4)) as [Hlong|Hfits].
      - split.
        + intros Hroom _. destruct (Z.eq_dec (width b - 4) 3) as [Hthree|Hmore].
          * rewrite truncateWithEllipsis_narrow by lia. rewrite Hthree.
            split; [vm_compute; discriminate | reflexivity].
          * destruct (truncateWithEllipsis_state line (width b - 4) ltac:(lia))
              as [Hle Hexact].
            unfold visibleLength at 1. unfold ends_in_escape.
            rewrite Hexact by lia. split; [cbn [snd]; lia | reflexivity].
        + intros Hover. destruct (Z.le_gt_cases (width b - 4) 3) as [Hle|Hgt].
          * destruct (Z.eq_dec (width b - 4) 3) as [Hthree|]; [|lia].
            rewrite truncateWithEllipsis_narrow in Hover by lia.
            rewrite Hthree in Hover. vm_compute in Hover. discriminate.
          * destruct (truncateWithEllipsis_state line (width b - 4) Hgt) as [Hle _].
            unfold visibleLength in Hover. lia.
      - split; [intros _ Hout; split; [lia | exact Hout] | lia]. }
    destruct Hshown as (Hpos & Hfit & Hover).
    set (padding := int (width b - 4 - visibleLength displayLine)).
    assert (Hpad : (if padding <? 0 then 0 else padding)
                   = Z.max 0 (width b - 4 - visibleLength displayLine)).
    { subst padding.
      destruct (Z.le_gt_cases (visibleLength displayLine) (width b - 4)) as [Hle|Hgt].
      - rewrite int_small by lia.
        destruct (Z.ltb_spec (width b - 4 - visibleLength displayLine) 0); lia.
      - specialize (Hover Hgt).
        assert (Hthree : visibleLength displayLine <= 3).
        { subst displayLine.
          destruct (Z.gtb_spec (visibleLength line) (width b - 4)) as [Hlong|Hfits];
            [|lia].
          rewrite truncateWithEllipsis_narrow by lia. vm_compute. discriminate. }
        rewrite int_small by lia.
        destruct (Z.ltb_spec (width b - 4 - visibleLength displayLine) 0); lia. }
    rewrite Hpad. change (runes " ") with [32].
    rewrite Repeat_rune by lia.
    exists (color b ++ [vr] ++ Reset
            ++ ([32] ++ displayLine
                ++ concat (repeat [32]
                             (Z.to_nat (Z.max 0 (width b - 4 - visibleLength displayLine))))
                ++ [32])
            ++ color b ++ [vr] ++ Reset).
    split; [rewrite <- !app_assoc; reflexivity|].
    intros Hseven Hcolor _ Hv Hline.
    destruct (Hfit ltac:(lia) Hline) as [Hle Hout].
    unfold visibleLength at 1.
    rewrite (visibleLength_app_closed _ _ 0)
      by (apply visibleLength_loop_invisible; exact Hcolor).
    rewrite visibleLength_loop_app, (visibleLength_loop_rune _ _ Hv). cbn [fst snd].
    rewrite visibleLength_loop_app, visibleLength_loop_Reset. cbn [fst snd].
    rewrite <- !app_assoc.
    rewrite visibleLength_loop_app, (visibleLength_loop_rune 32) by reflexivity.
    cbn [fst snd].
    rewrite visibleLength_loop_app, (visibleLength_loop_closed displayLine _ Hout).
    cbn [fst snd].
    rewrite visibleLength_loop_app, visibleLength_loop_repeat by reflexivity.
    cbn [fst snd].
    rewrite visibleLength_loop_app, (visibleLength_loop_rune 32) by reflexivity.
    cbn [fst snd].
    rewrite visibleLength_loop_app, (visibleLength_loop_invisible _ _ Hcolor).
    cbn [fst snd].
    rewrite visibleLength_loop_app, (visibleLength_loop_rune _ _ Hv). cbn [fst snd].
    rewrite visibleLength_loop_Reset. cbn [snd]. lia.
Qed.

(** The rows of the content. *)
Lemma Box_String_loop_rows (b : Box) (hr vr : rune) (lines : list (list rune)) :
  2 <= width b <= 1099511627776 ->
  forall sb,
    exists rows,
      Box_String_loop b [hr] [vr] lines sb
      = Returns (sb ++ concat (map (fun row => row ++ [10]) rows))
      /\ length rows = length lines
      /\ (7 <= width b -> invisible (color b) = true ->
          (hr =? ESC) = false -> (vr =? ESC) = false ->
          Forall (fun line => ends_in_escape line = false) lines ->
          Forall (fun row => visibleLength row = width b) rows).
Proof.
  intros Hwidth. induction lines as [|line rest IH]; intros sb.
  - exists []. simpl. rewrite app_nil_r. auto.
  - simpl. destruct (Box_String_line_row b hr vr line sb Hwidth) as (row & -> & Hrow).
    destruct (IH (sb ++ row ++ [10])) as (rows & -> & Hlen & Hrows).
    exists (row :: rows). simpl. rewrite <- !app_assoc.
    split; [reflexivity|]. split; [lia|].
    intros Hseven Hcolor Hh Hv Hlines. inversion Hlines as [|l ls Hline Hrest]; subst.
    constructor; auto.
Qed.

(** The top border, with or without a title. *)
Lemma Box_String_top_row (b : Box) (tlr trr hr : rune) :
  2 <= width b <= 1099511627776 ->
  title b = [] \/ len_bytes (title b) + 4 <= width b ->
  exists row,
    Box_String_top b [tlr] [trr] [hr] [] = Returns (row ++ [10])
    /\ (invisible (color b) = true ->
        (tlr =? ESC) = false -> (trr =? ESC) = false -> (hr =? ESC) = false ->
        Forall (fun r => printable r = true) (title b) ->
        visibleLength row = width b).
Proof.
  intros Hwidth Htitle. unfold Box_String_top.
  destruct (bool_decide_reflect (title b = [])) as [Hnone|Hsome]; simpl negb; cbv iota.
  - rewrite (int_small (width b - 2)) by lia. rewrite Repeat_rune by lia.
    exists (color b ++ [tlr] ++ concat (repeat [hr] (Z.to_nat (width b - 2)))
            ++ [trr] ++ Reset).
    split; [simpl app at 1; rewrite <- !app_assoc; reflexivity|].
    intros Hcolor Htl Htr Hh _. unfold visibleLength.
    rewrite visibleLength_loop_app, (visibleLength_loop_invisible _ _ Hcolor).
    cbn [fst snd].
    rewrite visibleLength_loop_app, (visibleLength_loop_rune _ _ Htl). cbn [fst snd].
    rewrite visibleLength_loop_app, (visibleLength_loop_repeat _ _ _ Hh).
    cbn [fst snd].
    rewrite visibleLength_loop_app, (visibleLength_loop_rune _ _ Htr). cbn [fst snd].
    rewrite visibleLength_loop_Reset. cbn [snd]. lia.
  - destruct Htitle as [|Hroom]; [contradiction|].
    assert (Hlen : 0 <= len_bytes (title b)).
    { clear. induction (title b) as [|r s IH]; simpl; [lia|].
      pose proof (rune_len_bounds r). lia. }
    cbv zeta.
    rewrite (int_small (len_bytes (title b) + 2)) by lia.
    rewrite (int_small (width b - 2)) by lia.
    rewrite (int_small (width b - 2 - (len_bytes (title b) + 2))) by lia.
    set (n := width b - 2 - (len_bytes (title b) + 2)).
    assert (Hquot : 0 <= Z.quot n 2 <= n).
    { subst n. split; [apply Z.quot_pos; lia|].
      apply Z.quot_le_upper_bound; lia. }
    rewrite (int_small (n - Z.quot n 2)) by lia.
    rewrite !Repeat_rune by lia.
    exists (color b ++ [tlr] ++ concat (repeat [hr] (Z.to_nat (Z.quot n 2)))
            ++ ([32] ++ title b ++ [32])
            ++ concat (repeat [hr] (Z.to_nat (n - Z.quot n 2))) ++ [trr] ++ Reset).
    split; [simpl app at 1; change (runes " ") with [32]; rewrite <- !app_assoc;
            reflexivity|].
    intros Hcolor Htl Htr Hh Hprint.
    destruct (visibleLength_loop_printable (title b) (0 + 1 + Z.of_nat (Z.to_nat (Z.quot n 2)) + 1)
                Hprint) as [Hshow Hbytes].
    unfold visibleLength.
    rewrite visibleLength_loop_app, (visibleLength_loop_invisible _ _ Hcolor).
    cbn [fst snd].
    rewrite visibleLength_loop_app, (visibleLength_loop_rune _ _ Htl). cbn [fst snd].
    rewrite visibleLength_loop_app, (visibleLength_loop_repeat _ _ _ Hh).
    cbn [fst snd]. rewrite <- !app_assoc.
    rewrite visibleLength_loop_app, (visibleLength_loop_rune 32) by reflexivity.
    cbn [fst snd].
    rewrite visibleLength_loop_app, Hshow. cbn [fst snd].
    rewrite visibleLength_loop_app, (visibleLength_loop_rune 32) by reflexivity.
    cbn [fst snd].
    rewrite visibleLength_loop_app, (visibleLength_loop_repeat _ _ _ Hh).
    cbn [fst snd].
    rewrite visibleLength_loop_app, (visibleLength_loop_rune _ _ Htr). cbn [fst snd].
    rewrite visibleLength_loop_Reset. cbn [snd]. subst n. lia.
Qed.

(** The top border of a box that is too narrow. *)
Lemma Box_String_top_panics (b : Box) (tl tr : list rune) (hr : rune) (sb : list rune) :
  -1099511627776 <= width b <= 1099511627776 ->
  len_bytes (title b) <= 1099511627776 ->
  (title b = [] /\ width b < 2)
  \/ (title b <> [] /\ width b < len_bytes (title b) + 4) ->
  Box_String_top b tl tr [hr] sb = Panics "strings: negative Repeat count".
Proof.
  intros Hwidth Hbytes Hnarrow. unfold Box_String_top.
  assert (Hlen : 0 <= len_bytes (title b)).
  { clear. induction (title b) as [|r s IH]; simpl; [lia|].
    pose proof (rune_len_bounds r). lia. }
  destruct (bool_decide_reflect (title b = [])) as [Hnone|Hsome]; simpl negb; cbv iota.
  - destruct Hnarrow as [[_ Hsmall]|[Hno _]]; [|contradiction].
    rewrite int_small by lia. rewrite Repeat_negative by lia. reflexivity.
  - destruct Hnarrow as [[Hno _]|[_ Hsmall]]; [contradiction|].
    cbv zeta.
    rewrite (int_small (len_bytes (title b) + 2)) by lia.
    rewrite (int_small (width b - 2)) by lia.
    rewrite (int_small (width b - 2 - (len_bytes (title b) + 2))) by lia.
    set (n := width b - 2 - (len_bytes (title b) + 2)).
    assert (Hn : n < 0) by (subst n; lia).
    destruct (Z.eq_dec n (-1)) as [Hone|Hmore].
    + rewrite Hone. change (Z.quot (-1) 2) with 0.
      rewrite Repeat_rune by lia. rewrite int_small by lia.
      rewrite Repeat_negative by lia. reflexivity.
    + assert (Hquot : Z.quot n 2 < 0).
      { assert (Hopp : 0 < Z.quot (- n) 2) by (apply Z.quot_str_pos; lia).
        rewrite Z.quot_opp_l in Hopp by lia. lia. }
      rewrite Repeat_negative by exact Hquot. reflexivity.
Qed.

Ltac box_style :=
  cbv beta iota zeta delta
     [BoxTopLeft BoxTopRight BoxBottomLeft BoxBottomRight BoxHorizontal BoxVertical
      BoxDoubleTopLeft BoxDoubleTopRight BoxDoubleBottomLeft BoxDoubleBottomRight
      BoxDoubleHorizontal BoxDoubleVertical];
  unfold rune in *.

(** X25. [Box.String] panics exactly when the box is too narrow for its
    border: narrower than two, or, with a title, narrower than the bytes
    of the title plus four. [NewBox] accepts any width; the panic comes
    from the negative count passed to [strings.Repeat] when the box is
    rendered. *)
Theorem box_panics_when_too_narrow (b : Box) :
  - 2 ^ 40 <= width b <= 2 ^ 40 ->
  len_bytes (title b) <= 2 ^ 40 ->
  ((exists msg, Box_String b = Panics msg) <->
   width b < 2 \/ (title b <> [] /\ width b < len_bytes (title b) + 4)).
Proof.
  change (2 ^ 40) with 1099511627776. intros Hwidth Hbytes.
  assert (Hlen : title b <> [] -> 1 <= len_bytes (title b)).
  { destruct (title b) as [|r s]; [contradiction|]. intros _. simpl.
    pose proof (rune_len_bounds r).
    assert (0 <= len_bytes s).
    { clear. induction s as [|r' s IH]; simpl; [lia|].
      pose proof (rune_len_bounds r'). lia. }
    lia. }
  assert (Hcases :
    ((title b = [] /\ width b < 2)
     \/ (title b <> [] /\ width b < len_bytes (title b) + 4))
    \/ (2 <= width b /\ (title b = [] \/ len_bytes (title b) + 4 <= width b))).
  { destruct (list_eq_dec (title b) []) as [Hnone|Hsome].
    - destruct (Z.lt_ge_cases (width b) 2); [left; left; auto | right; auto].
    - specialize (Hlen Hsome).
      destruct (Z.lt_ge_cases (width b) (len_bytes (title b) + 4));
        [left; right; auto | right; split; [lia | auto]]. }
  unfold Box_String.
  destruct Hcases as [Hnarrow|[Hwide Htitle]].
  - split.
    + intros _. destruct Hnarrow as [[_ Hsmall]|Hsome]; auto.
    + intros _.
      destruct (double b); box_style;
        rewrite (Box_String_top_panics b _ _ _ _ Hwidth Hbytes Hnarrow); eauto.
  - split.
    + intros [msg Hmsg]. exfalso. revert Hmsg.
      destruct (double b).
      * destruct (Box_String_top_row b 9556 9559 9552 ltac:(lia) Htitle) as (row & Htop & _).
        destruct (Box_String_loop_rows b 9552 9553 (content b) ltac:(lia) (row ++ [10]))
          as (rows & Hloop & _).
        box_style. rewrite Htop, Hloop.
        rewrite int_small by lia. rewrite Repeat_rune by lia. discriminate.
      * destruct (Box_String_top_row b 9484 9488 9472 ltac:(lia) Htitle) as (row & Htop & _).
        destruct (Box_String_loop_rows b 9472 9474 (content b) ltac:(lia) (row ++ [10]))
          as (rows & Hloop & _).
        box_style. rewrite Htop, Hloop.
        rewrite int_small by lia. rewrite Repeat_rune by lia. discriminate.
    + intros [Hsmall|[Hsome Hsmall]]; [lia|].
      destruct Htitle as [Hnone|Hroom]; [contradiction | lia].
Qed.

Lemma rows_concat (top bottom : list Z) (rows : list (list Z)) :
  (top ++ [10]) ++ concat (map (fun row => row ++ [10]) rows) ++ bottom ++ [10]
  = concat (map (fun row => row ++ [10]) (top :: rows ++ [bottom])).
Proof.
  rewrite map_cons, concat_cons, map_app, concat_app. simpl (map _ [bottom]).
  simpl (concat [_]). rewrite app_nil_r. reflexivity.
Qed.

(** The bottom border. *)
Lemma bottom_row (b : Box) (blr brr hr : rune) :
  2 <= width b <= 1099511627776 ->
  invisible (color b) = true ->
  (blr =? ESC) = false -> (brr =? ESC) = false -> (hr =? ESC) = false ->
  visibleLength (color b ++ [blr] ++ concat (repeat [hr] (Z.to_nat (width b - 2)))
                 ++ [brr] ++ Reset) = width b.
Proof.
  intros Hwidth Hcolor Hbl Hbr Hh. unfold visibleLength.
  rewrite visibleLength_loop_app, (visibleLength_loop_invisible _ _ Hcolor).
  cbn [fst snd].
  rewrite visibleLength_loop_app, (visibleLength_loop_rune _ _ Hbl). cbn [fst snd].
  rewrite visibleLength_loop_app, (visibleLength_loop_repeat _ _ _ Hh).
  cbn [fst snd].
  rewrite visibleLength_loop_app, (visibleLength_loop_rune _ _ Hbr). cbn [fst snd].
  rewrite visibleLength_loop_Reset. cbn [snd]. lia.
Qed.

(** X26. A box of width seven or more renders as one row for the top
    border, one for each line of the content and one for the bottom
    border, each ended by a newline and each exactly as wide as the box
    to the eye, provided the colour of the box shows nothing, the title is
    printable ASCII that leaves room for the corners, and no line ends
    inside an escape sequence. Lines that are too long are cut, shorter
    ones are padded. *)
Theorem box_rows_have_the_box_width (b : Box) :
  7 <= width b <= 2 ^ 40 ->
  invisible (color b) = true ->
  Forall (fun r => printable r = true) (title b) ->
  len_bytes (title b) + 4 <= width b ->
  Forall (fun line => ends_in_escape line = false) (content b) ->
  exists rows,
    Box_String b = Returns (concat (map (fun row => row ++ [10]) rows))
    /\ length rows = (length (content b) + 2)%nat
    /\ Forall (fun row => visibleLength row = width b) rows.
Proof.
  change (2 ^ 40) with 1099511627776. intros Hwidth Hcolor Hprint Hroom Hlines.
  unfold Box_String.
  destruct (double b).
  - destruct (Box_String_top_row b 9556 9559 9552 ltac:(lia) (or_intror Hroom))
      as (top & Htop & Htopw).
    destruct (Box_String_loop_rows b 9552 9553 (content b) ltac:(lia) (top ++ [10]))
      as (rows & Hloop & Hlen & Hrows).
    box_style. rewrite Htop, Hloop.
    rewrite int_small by lia. rewrite Repeat_rune by lia.
    exists (top :: rows
            ++ [color b ++ [9562] ++ concat (repeat [9552] (Z.to_nat (width b - 2)))
                ++ [9565] ++ Reset]).
    split; [|split].
    + rewrite <- rows_concat. f_equal. rewrite <- !app_assoc. reflexivity.
    + simpl. rewrite length_app. simpl. lia.
    + constructor; [apply Htopw; auto|].
      apply Forall_app. split; [apply Hrows; auto; lia|].
      constructor; [|constructor]. apply bottom_row; auto; lia.
  - destruct (Box_String_top_row b 9484 9488 9472 ltac:(lia) (or_intror Hroom))
      as (top & Htop & Htopw).
    destruct (Box_String_loop_rows b 9472 9474 (content b) ltac:(lia) (top ++ [10]))
      as (rows & Hloop & Hlen & Hrows).
    box_style. rewrite Htop, Hloop.
    rewrite int_small by lia. rewrite Repeat_rune by lia.
    exists (top :: rows
            ++ [color b ++ [9492] ++ concat (repeat [9472] (Z.to_nat (width b - 2)))
                ++ [9496] ++ Reset]).
    split; [|split].
    + rewrite <- rows_concat. f_equal. rewrite <- !app_assoc. reflexivity.
    + simpl. rewrite length_app. simpl. lia.
    + constructor; [apply Htopw; auto|].
      apply Forall_app. split; [apply Hrows; auto; lia|].
      constructor; [|constructor]. apply bottom_row; auto; lia.
Qed.

End Boxes.

(** A box of width one, and a box of width ten with a title of twelve
    bytes, cannot be rendered. *)
Lemma narrow_box_scenario :
  (exists msg, cli.Box_String (cli.NewBox 1) = cli.Panics msg)
  /\ (exists msg,
        cli.Box_String (cli.SetTitle (cli.NewBox 10) (cli.runes "SCAN SUMMARY"))
        = cli.Panics msg).
Proof.
  split.
  - apply (proj2 (box_panics_when_too_narrow (cli.NewBox 1)
                    ltac:(vm_compute; split; discriminate)
                    ltac:(vm_compute; discriminate))).
    left. simpl. lia.
  - apply (proj2 (box_panics_when_too_narrow
                    (cli.SetTitle (cli.NewBox 10) (cli.runes "SCAN SUMMARY"))
                    ltac:(vm_compute; split; discriminate)
                    ltac:(vm_compute; discriminate))).
    right. split; [discriminate | vm_compute; reflexivity].
Defined.

(** A summary box of width thirty with a title, a plain line, a
    separator, a coloured line and a line that is too long: six rows,
    thirty wide each. *)
Lemma summary_box_scenario :
  exists rows,
    cli.Box_String
      (cli.AddLine
         (cli.AddLine
            (cli.AddSeparator
               (cli.AddLine
                  (cli.SetTitle (cli.SetDouble (cli.NewBox 30) true)
                     (cli.runes "SCAN SUMMARY"))
                  (cli.runes "Provider:   AWS")))
            (cli.runes "Passed:     " ++ cli.Green ++ cli.runes "12" ++ cli.Reset))
         (cli.runes "Evidence:   3 Redshift clusters NOT encrypted"))
    = cli.Returns (concat (map (fun row => row ++ [10]) rows))
    /\ length rows = 6%nat
    /\ Forall (fun row => cli.visibleLength row = 30) rows.
Proof.
  apply (box_rows_have_the_box_width
           (cli.AddLine
              (cli.AddLine
                 (cli.AddSeparator
                    (cli.AddLine
                       (cli.SetTitle (cli.SetDouble (cli.NewBox 30) true)
                          (cli.runes "SCAN SUMMARY"))
                       (cli.runes "Provider:   AWS")))
                 (cli.runes "Passed:     " ++ cli.Green ++ cli.runes "12" ++ cli.Reset))
              (cli.runes "Evidence:   3 Redshift clusters NOT encrypted"))).
  - vm_compute. split; discriminate.
  - reflexivity.
  - repeat constructor.
  - vm_compute. discriminate.
  - repeat constructor.
Defined.
